(** * StudyBuddy: the orchestration core of [studyBuddy.jsx]

    A shallow embedding of the quiz engine ([fetchQuiz], [QuizGenerator]),
    the chat session manager ([fetchChatResponse], [ChatUI]) and the
    JavaScript primitives they rely on, followed by the properties of the
    specification that concern them.

    Conventions.
    - A JavaScript string is a [string]: a sequence of code units below 256;
      [String.length] is the [.length] of the source.
    - A value decoded from JSON is a [json]; [undefined] is [None] in
      [value := option json].  Numbers are integers: the code never
      computes with a number that comes from a response.
    - React state is a record, a handler is a function on it.  Effects
      (network requests, timers, identifiers, alerts, console, saved
      attempts) are appended, in the order they happen, to a trace [Log]
      threaded through the monad [M]; what the browser answers is read
      from a [Platform]. *)

From Stdlib Require Import ZArith String Ascii List Bool Lia DecimalString.
From Stdlib Require Import Sorted Permutation.
From stdpp Require Import base option list strings gmap.

Local Open Scope string_scope.
Local Set Warnings "-register-all".

(** ** JavaScript primitives *)

Module JS.

(** *** Strings *)

(** White space of [String.prototype.trim] among the code units below 256:
    TAB, LF, VT, FF, CR, SPACE and NBSP. *)
Definition is_whitespace (c : ascii) : bool :=
  let n := nat_of_ascii c in
  ((9 <=? n)%nat && (n <=? 13)%nat) || (n =? 32)%nat || (n =? 160)%nat.

Fixpoint trimStart (s : string) : string :=
  match s with
  | String c s' => if is_whitespace c then trimStart s' else s
  | EmptyString => EmptyString
  end.

Fixpoint trimEnd (s : string) : string :=
  match s with
  | EmptyString => EmptyString
  | String c s' =>
      match trimEnd s' with
      | EmptyString => if is_whitespace c then EmptyString else String c EmptyString
      | t => String c t
      end
  end.

Definition trim (s : string) : string := trimEnd (trimStart s).

(** [String.prototype.toLowerCase] on code units below 256: A-Z, and the
    Latin-1 capitals 192-222 except the multiplication sign 215. *)
Definition lower_char (c : ascii) : ascii :=
  let n := nat_of_ascii c in
  if ((65 <=? n)%nat && (n <=? 90)%nat)
     || ((192 <=? n)%nat && (n <=? 222)%nat && negb (n =? 215)%nat)
  then ascii_of_nat (n + 32) else c.

Fixpoint toLowerCase (s : string) : string :=
  match s with
  | EmptyString => EmptyString
  | String c s' => String (lower_char c) (toLowerCase s')
  end.

Definition upper_char (c : ascii) : ascii :=
  let n := nat_of_ascii c in
  if ((97 <=? n)%nat && (n <=? 122)%nat)
     || ((224 <=? n)%nat && (n <=? 254)%nat && negb (n =? 247)%nat)
  then ascii_of_nat (n - 32) else c.

Fixpoint toUpperCase (s : string) : string :=
  match s with
  | EmptyString => EmptyString
  | String c s' => String (upper_char c) (toUpperCase s')
  end.

(** [s.includes(pat)]: [pat] occurs in [s] as a contiguous run. *)
Fixpoint includes (s pat : string) : bool :=
  String.prefix pat s
  || match s with
     | EmptyString => false
     | String _ s' => includes s' pat
     end.

(** [s.substring(0, n)]. *)
Definition substring0 (n : nat) (s : string) : string := String.substring 0 n s.

Definition string_of_nat (n : nat) : string := NilZero.string_of_uint (Nat.to_uint n).
Definition string_of_Z (n : Z) : string := NilZero.string_of_int (Z.to_int n).

(** *** Values *)

Inductive json : Type :=
| JNull
| JBool (b : bool)
| JNum (n : Z)
| JStr (s : string)
| JArr (items : list json)
| JObj (props : list (string * json)).

(** A JavaScript value that came out of JSON, or [undefined]. *)
Definition value : Type := option json.
Definition undefined : value := None.

Inductive exn : Type :=
| TypeError              (* property of null/undefined, or call of a non-function *)
| SyntaxError            (* JSON.parse / response.json() on malformed text *)
| NetworkError           (* fetch() rejected *)
| HttpError (status : Z) (* new Error(`HTTP error! status: ...`) *)
| InvalidStructure       (* new Error("Invalid response structure from API.") *)
| RetriesExhausted.      (* new Error("Failed to generate quiz after multiple retries.") *)

Inductive Res (A : Type) : Type :=
| Ok (a : A)
| Throw (e : exn).
Arguments Ok {A} a.
Arguments Throw {A} e.

Definition bindR {A B} (r : Res A) (k : A -> Res B) : Res B :=
  match r with
  | Ok a => k a
  | Throw e => Throw e
  end.

Notation "'let?' x ':=' r 'in' k" := (bindR r (fun x => k))
  (at level 10, x name, r at level 100, k at level 200, only parsing).

Fixpoint mapR {A B} (f : A -> Res B) (l : list A) : Res (list B) :=
  match l with
  | [] => Ok []
  | x :: rest => let? y := f x in let? ys := mapR f rest in Ok (y :: ys)
  end.

(** ToBoolean. *)
Definition truthy (v : value) : bool :=
  match v with
  | None | Some JNull => false
  | Some (JBool b) => b
  | Some (JNum n) => negb (n =? 0)%Z
  | Some (JStr s) => negb (String.eqb s "")
  | Some (JArr _) | Some (JObj _) => true
  end.

(** An own property of an object: the first binding of the key. *)
Fixpoint own (props : list (string * json)) (k : string) : value :=
  match props with
  | [] => None
  | (k', v) :: rest => if String.eqb k' k then Some v else own rest k
  end.

(** [j.k] for a [j] that is neither null nor undefined and a key [k]
    that names no built-in property: only an object has it. *)
Definition get_named (j : json) (k : string) : value :=
  match j with
  | JObj props => own props k
  | _ => None
  end.

(** [v.k]: throws on null and undefined. *)
Definition member (v : value) (k : string) : Res value :=
  match v with
  | None | Some JNull => Throw TypeError
  | Some j => Ok (get_named j k)
  end.

(** [v?.k]. *)
Definition opt_member (v : value) (k : string) : value :=
  match v with
  | None | Some JNull => None
  | Some j => get_named j k
  end.

(** [v?.[0]]: the first element of an array, the first code unit of a
    string, the property "0" of an object. *)
Definition opt_index0 (v : value) : value :=
  match v with
  | Some (JArr items) => head items
  | Some (JStr (String c _)) => Some (JStr (String c EmptyString))
  | Some (JObj props) => own props "0"
  | _ => None
  end.

(** ToString, as a template literal applies it. *)
Fixpoint toString (j : json) : string :=
  match j with
  | JNull => "null"
  | JBool true => "true"
  | JBool false => "false"
  | JNum n => string_of_Z n
  | JStr s => s
  | JArr items =>
      (fix join (l : list json) : string :=
         match l with
         | [] => ""
         | x :: rest =>
             let sx := match x with JNull => "" | _ => toString x end in
             match rest with
             | [] => sx
             | _ => sx ++ "," ++ join rest
             end
         end) items
  | JObj _ => "[object Object]"
  end.

(** [v.map(f)] for a callback without effects: only an array has [map]. *)
Definition js_map {B} (v : value) (f : json -> Res B) : Res (list B) :=
  match v with
  | Some (JArr items) => mapR f items
  | _ => Throw TypeError
  end.

Definition show (v : value) : string :=
  match v with
  | None => "undefined"
  | Some j => toString j
  end.

(** [u === v] for a [u] that is a string or undefined. *)
Definition strict_eq_string (u : option string) (v : value) : bool :=
  match u, v with
  | None, None => true
  | Some s, Some (JStr t) => String.eqb s t
  | _, _ => false
  end.

End JS.

(** ** The platform and the effects of the code *)

Module Effects.
Import JS.

Inductive Role : Type := user | assistant.

Inductive Tool : Type := google_search.

(** A grounding source kept with an assistant message. *)
Record Source : Type := mkSource { uri : value; title : value }.

(** An entry of [contents], which is also the shape of a chat message:
    [{ role, parts: [{ text, sources }] }].  The quiz request has no
    [role]; a user message and the error message have no [sources]. *)
Record Message : Type := mkMessage {
  role : option Role;
  text : json;
  sources : option (list Source)
}.

(** The [responseSchema] declarations of the source. *)
Inductive Schema : Type :=
| SString
| SEnum (allowed : list string)
| SArray (items : Schema)
| SObject (properties : list (string * Schema)) (required : list string).

Record GenerationConfig : Type := mkGenerationConfig {
  responseMimeType : string;
  responseSchema : Schema
}.

(** The body of a request to the generation API. [tools] is absent from
    the quiz request and an array (possibly empty) in the chat request. *)
Record Payload : Type := mkPayload {
  contents : list Message;
  tools : option (list Tool);
  systemInstruction : string;
  generationConfig : option GenerationConfig
}.

(** What one call of [fetch] on the generation API yields. *)
Inductive Reply : Type :=
| Rejected                                   (* the promise rejects: no response *)
| Responded (status : Z) (body : option json). (* [body = None]: response.json() rejects *)

(** [response.ok]. *)
Definition status_ok (status : Z) : bool := (200 <=? status)%Z && (status <=? 299)%Z.

(** A completed attempt handed to [saveProgress]. *)
Record Attempt : Type := mkAttempt {
  a_type : string;
  a_score : nat;
  a_total : nat;
  a_timestamp : Z;
  a_quizTitle : value
}.

(** What the browser supplies: the answer to the [n]-th request, the
    [n]-th identifier of [crypto.randomUUID], and [JSON.parse] (which
    applies ToString to its argument itself). *)
Record Platform : Type := mkPlatform {
  network : nat -> Reply;
  randomUUID_at : nat -> string;
  JSON_parse : json -> option json
}.

(** One effect of the code on the world outside its state. *)
Inductive Effect : Type :=
| Fetched (payload : Payload)   (* a call of fetch with this body *)
| Waited (ms : Z)               (* a delay awaited with setTimeout *)
| DrewUUID                      (* a call of crypto.randomUUID *)
| Alerted (msg : string)        (* window.alert *)
| Logged (msg : string)         (* first argument of console.warn / console.error *)
| Saved (attempt : Attempt).    (* a call of saveProgress *)

(** The trace of effects, oldest first. *)
Definition Log : Type := list Effect.

Definition empty_log : Log := [].

Definition requests (l : Log) : list Payload :=
  flat_map (fun e => match e with Fetched p => [p] | _ => [] end) l.
Definition timers (l : Log) : list Z :=
  flat_map (fun e => match e with Waited ms => [ms] | _ => [] end) l.
Definition uuids (l : Log) : nat :=
  length (List.filter (fun e => match e with DrewUUID => true | _ => false end) l).
Definition alerts (l : Log) : list string :=
  flat_map (fun e => match e with Alerted msg => [msg] | _ => [] end) l.
Definition console (l : Log) : list string :=
  flat_map (fun e => match e with Logged msg => [msg] | _ => [] end) l.
Definition saved (l : Log) : list Attempt :=
  flat_map (fun e => match e with Saved a => [a] | _ => [] end) l.

(** Computations that read and extend the log and may throw. *)
Definition M (A : Type) : Type := Log -> Res A * Log.

Definition ret {A} (a : A) : M A := fun l => (Ok a, l).

Definition bind {A B} (m : M A) (k : A -> M B) : M B :=
  fun l => match m l with
           | (Ok a, l') => k a l'
           | (Throw e, l') => (Throw e, l')
           end.

Definition throw {A} (e : exn) : M A := fun l => (Throw e, l).

(** [try { m } catch (e) { h e }]. *)
Definition try_catch {A} (m : M A) (h : exn -> M A) : M A :=
  fun l => match m l with
           | (Ok a, l') => (Ok a, l')
           | (Throw e, l') => h e l'
           end.

Definition lift {A} (r : Res A) : M A := fun l => (r, l).

Notation "'let!' x ':=' m 'in' k" := (bind m (fun x => k))
  (at level 10, x name, m at level 100, k at level 200, only parsing).
Notation "'do!' m 'in' k" := (bind m (fun _ => k))
  (at level 10, m at level 100, k at level 200, only parsing).

Fixpoint mapM {A B} (f : A -> M B) (l : list A) : M (list B) :=
  match l with
  | [] => ret []
  | x :: rest => let! y := f x in let! ys := mapM f rest in ret (y :: ys)
  end.

(** [v.map(f)] for a callback with effects. *)
Definition js_mapM {B} (v : value) (f : json -> M B) : M (list B) :=
  match v with
  | Some (JArr items) => mapM f items
  | _ => throw TypeError
  end.

(** An effect that always succeeds. *)
Definition emit (e : Effect) : M unit := fun l => (Ok tt, (l ++ [e])%list).

Section Primitives.
Context (P : Platform).

(** [await fetch(apiUrl, { method: 'POST', ..., body: JSON.stringify(payload) })]:
    the answer is the one the network gives to this request, counted
    from the start of the trace. *)
Definition fetch (payload : Payload) : M (Z * option json) :=
  fun l =>
    match network P (length (requests l)) with
    | Rejected => (Throw NetworkError, (l ++ [Fetched payload])%list)
    | Responded status body => (Ok (status, body), (l ++ [Fetched payload])%list)
    end.

(** [crypto.randomUUID()]. *)
Definition randomUUID : M string :=
  fun l => (Ok (randomUUID_at P (uuids l)), (l ++ [DrewUUID])%list).

End Primitives.

(** [await new Promise(resolve => setTimeout(resolve, ms))]. *)
Definition sleep (ms : Z) : M unit := emit (Waited ms).

Definition alert (msg : string) : M unit := emit (Alerted msg).

Definition console_log (msg : string) : M unit := emit (Logged msg).

(** The [saveProgress] prop, as its caller sees it. *)
Definition saveProgress (attempt : Attempt) : M unit := emit (Saved attempt).

End Effects.

(** ** The generation API client: [fetchQuiz] and [fetchChatResponse] *)

Module Gemini.
Import JS Effects.

Inductive QuizType : Type := mcq | saq | laq.

(** The value of the [select]: 'mcq', 'saq' or 'laq'. *)
Definition quizType_value (t : QuizType) : string :=
  match t with mcq => "mcq" | saq => "saq" | laq => "laq" end.

Definition quiz_systemPrompt (t : QuizType) : string :=
  match t with
  | mcq => "You are an expert educational content generator. Based on the provided text, generate exactly 3 highly relevant and challenging Multiple Choice Questions (MCQs). Each question must have exactly 4 options and one correct answer. Respond ONLY with the JSON structure provided."
  | saq => "You are an expert educational content generator. Based on the provided text, generate exactly 3 challenging Short Answer Questions (SAQs). Each question should require a 1-3 sentence answer. Respond ONLY with the JSON structure provided."
  | laq => "You are an expert educational content generator. Based on the provided text, generate exactly 2 challenging Long Answer Questions (LAQs). Each question should require a paragraph-long answer. Respond ONLY with the JSON structure provided."
  end.

Definition quiz_userQuery (t : QuizType) : string :=
  match t with
  | mcq => "Generate a set of 3 MCQs (Multiple Choice Questions) based on the following course material text. Provide a brief, concise explanation for each correct answer."
  | saq => "Generate a set of 3 SAQs (Short Answer Questions) based on the following course material text. Provide a model answer and a brief explanation for context."
  | laq => "Generate a set of 2 LAQs (Long Answer Questions) based on the following course material text. Provide a model answer and a brief explanation for context."
  end.

Definition newline : string := String (ascii_of_nat 10) EmptyString.

Definition quiz_responseSchema : Schema :=
  SObject
    [ ("quizTitle", SString);
      ("questions",
       SArray
         (SObject
            [ ("id", SString);
              ("type", SEnum ["mcq"; "saq"; "laq"]);
              ("question", SString);
              ("options", SArray SString);
              ("correctAnswer", SString);
              ("modelAnswer", SString);
              ("explanation", SString) ]
            ["id"; "type"; "question"; "explanation"])) ]
    ["quizTitle"; "questions"].

Definition quiz_payload (text : string) (quizType : QuizType) : Payload :=
  {| contents :=
       [ mkMessage None
           (JStr (quiz_userQuery quizType ++ newline ++ newline
                  ++ "Course Material:" ++ newline ++ "---" ++ newline ++ text))
           None ];
     tools := None;
     systemInstruction := quiz_systemPrompt quizType;
     generationConfig := Some (mkGenerationConfig "application/json" quiz_responseSchema) |}.

(** [result.candidates?.[0]?.content?.parts?.[0]?.text] *)
Definition candidate_text (result : json) : Res value :=
  let? candidates := member (Some result) "candidates" in
  Ok (opt_member
        (opt_index0 (opt_member (opt_member (opt_index0 candidates) "content") "parts"))
        "text").

(** [await response.json()]: the body, when it is JSON at all. *)
Definition response_json (body : option json) : Res json :=
  match body with
  | Some result => Ok result
  | None => Throw SyntaxError
  end.

Section Client.
Context (P : Platform).

(** [JSON.parse(v)]. *)
Definition parse (v : json) : Res json :=
  match JSON_parse P v with
  | Some j => Ok j
  | None => Throw SyntaxError
  end.

(** The statements of the [try] of [fetchQuiz] that follow the [fetch]. *)
Definition quiz_result_of (status : Z) (body : option json) : Res json :=
  if negb (status_ok status) then Throw (HttpError status)
  else
    let? result := response_json body in
    let? textJson := candidate_text result in
    match textJson with
    | Some t => if truthy textJson then parse t else Throw InvalidStructure
    | None => Throw InvalidStructure
    end.

(** The body of the [try] of [fetchQuiz]. *)
Definition fetchQuiz_attempt (payload : Payload) : M json :=
  let! response := fetch P payload in
  lift (quiz_result_of (fst response) (snd response)).

(** [for (let i = 0; i < 3; i++) { try { ... } catch (error) { ... } }]
    entered at [i]; a function that falls off the loop returns [undefined]. *)
Fixpoint fetchQuiz_loop (fuel : nat) (i : nat) (payload : Payload) : M value :=
  match fuel with
  | 0 => ret undefined
  | S fuel' =>
      if negb (i <? 3)%nat then ret undefined
      else
        try_catch
          (let! parsed := fetchQuiz_attempt payload in ret (Some parsed))
          (fun error =>
             do! console_log ("Attempt " ++ string_of_nat (i + 1) ++ " failed:") in
             if (i =? 2)%nat then throw RetriesExhausted
             else
               do! sleep (2 ^ Z.of_nat i * 1000)%Z in
               fetchQuiz_loop fuel' (i + 1) payload)
  end.

Definition fetchQuiz (text : string) (quizType : QuizType) : M value :=
  fetchQuiz_loop 3 0 (quiz_payload text quizType).

(** *** Chat *)

(** [!pdfText || currentMessage.toLowerCase().includes('what is the latest')
     || currentMessage.toLowerCase().includes('recent news')] *)
Definition useGoogleSearch (currentMessage pdfText : string) : bool :=
  String.eqb pdfText ""
  || includes (toLowerCase currentMessage) "what is the latest"
  || includes (toLowerCase currentMessage) "recent news".

Definition contextPart (pdfText : string) : string :=
  if String.eqb pdfText "" then ""
  else "[CONTEXT FROM SELECTED PDF: The student is revising from this material: "
       ++ substring0 (Nat.min (String.length pdfText) 2500) pdfText ++ "...]".

Definition chat_systemInstruction : string :=
  "You are a helpful and supportive virtual teacher. Answer questions concisely and use the provided context from the coursebook whenever possible. If you use external search (only when context is not sufficient), you must cite sources clearly. When answering based on the provided [CONTEXT], you must cite the source in your response (e.g., 'According to the text, unification is...'). Do not make up facts.".

Definition chat_payload (history : list Message) (currentMessage pdfText : string) : Payload :=
  let fullMessage := contextPart pdfText ++ newline ++ newline ++ currentMessage in
  {| contents := history ++ [mkMessage (Some user) (JStr fullMessage) None];
     tools := Some (if useGoogleSearch currentMessage pdfText then [google_search] else []);
     systemInstruction := chat_systemInstruction;
     generationConfig := None |}.

(** What [fetchChatResponse] resolves to: [{ text, sources }]. *)
Record ChatResponse : Type := mkChatResponse {
  r_text : json;
  r_sources : list Source
}.

Definition no_response_text : string := "Sorry, I couldn't generate a response.".

Definition connection_trouble : ChatResponse :=
  mkChatResponse
    (JStr "I'm having trouble connecting right now. Please try again later.") [].

(** [attr => ({ uri: attr.web?.uri, title: attr.web?.title })] *)
Definition source_of_attribution (attr : json) : Res Source :=
  let? web := member (Some attr) "web" in
  Ok (mkSource (opt_member web "uri") (opt_member web "title")).

(** The statements of the [try] of [fetchChatResponse] that follow the
    [fetch]. *)
Definition chat_result_of (status : Z) (body : option json) : Res ChatResponse :=
  if negb (status_ok status) then Throw (HttpError status)
  else
    let? result := response_json body in
    let? found := candidate_text result in
    let text :=
      match found with
      | Some t => if truthy found then t else JStr no_response_text
      | None => JStr no_response_text
      end in
    let? candidates := member (Some result) "candidates" in
    let groundingMetadata := opt_member (opt_index0 candidates) "groundingMetadata" in
    let? attributions :=
      (if truthy groundingMetadata
       then member groundingMetadata "groundingAttributions"
       else Ok undefined) in
    let? sources :=
      (if truthy groundingMetadata && truthy attributions
       then let? mapped := js_map attributions source_of_attribution in
            Ok (List.filter (fun source => truthy (uri source)) mapped)
       else Ok []) in
    Ok (mkChatResponse text sources).

(** The body of the [try] of [fetchChatResponse]. *)
Definition fetchChat_attempt (payload : Payload) : M ChatResponse :=
  let! response := fetch P payload in
  lift (chat_result_of (fst response) (snd response)).

Fixpoint fetchChat_loop (fuel : nat) (i : nat) (payload : Payload) : M (option ChatResponse) :=
  match fuel with
  | 0 => ret None
  | S fuel' =>
      if negb (i <? 3)%nat then ret None
      else
        try_catch
          (let! r := fetchChat_attempt payload in ret (Some r))
          (fun error =>
             do! console_log ("Chat attempt " ++ string_of_nat (i + 1) ++ " failed:") in
             if (i =? 2)%nat then ret (Some connection_trouble)
             else
               do! sleep (2 ^ Z.of_nat i * 1000)%Z in
               fetchChat_loop fuel' (i + 1) payload)
  end.

(** [None] stands for the [undefined] of a function that falls off its loop. *)
Definition fetchChatResponse (history : list Message) (currentMessage pdfText : string)
  : M (option ChatResponse) :=
  fetchChat_loop 3 0 (chat_payload history currentMessage pdfText).

End Client.
End Gemini.

(** ** The quiz engine: the state and the handlers of [QuizGenerator] *)

Module Quiz.
Import JS Effects Gemini.

(** A question as held in [quizData.questions]: the properties of
    [{ ...q, id, userAnswer }] that the component reads.  [q_id] and
    [q_userAnswer] are set locally; the others are whatever the response
    carried, or [undefined]. *)
Record Question : Type := mkQuestion {
  q_id : string;
  q_type : value;
  q_question : value;
  q_options : value;
  q_correctAnswer : value;
  q_modelAnswer : value;
  q_explanation : value;
  q_userAnswer : string
}.

(** [{ ...result, questions: questionsWithIds }] *)
Record QuizData : Type := mkQuizData {
  quizTitle : value;
  questions : list Question
}.

(** The state variables of the component. *)
Record State : Type := mkState {
  quizData : option QuizData;
  currentAnswers : gmap string string;
  quizLoading : bool;
  quizType : QuizType;
  isSubmitted : bool;
  score : nat;
  explanation : string
}.

Definition initial : State := mkState None ∅ false mcq false 0 "".

(** The props the handlers read. *)
Record Props : Type := mkProps {
  pdfText : string;
  pdfLoading : bool
}.

(** [!pdfLoading && pdfText && pdfText.length > 50], as a condition. *)
Definition isQuizReady (p : Props) : bool :=
  negb (pdfLoading p)
  && negb (String.eqb (pdfText p) "")
  && (50 <? String.length (pdfText p))%nat.

(** [quizData?.questions?.length > 0] *)
Definition hasQuiz (s : State) : bool :=
  match quizData s with
  | Some qd => (0 <? length (questions qd))%nat
  | None => false
  end.

Definition setQuizData (v : option QuizData) (s : State) : State :=
  mkState v (currentAnswers s) (quizLoading s) (quizType s) (isSubmitted s)
          (score s) (explanation s).
Definition setCurrentAnswers (v : gmap string string) (s : State) : State :=
  mkState (quizData s) v (quizLoading s) (quizType s) (isSubmitted s)
          (score s) (explanation s).
Definition setQuizLoading (v : bool) (s : State) : State :=
  mkState (quizData s) (currentAnswers s) v (quizType s) (isSubmitted s)
          (score s) (explanation s).
Definition setQuizType (v : QuizType) (s : State) : State :=
  mkState (quizData s) (currentAnswers s) (quizLoading s) v (isSubmitted s)
          (score s) (explanation s).
Definition setIsSubmitted (v : bool) (s : State) : State :=
  mkState (quizData s) (currentAnswers s) (quizLoading s) (quizType s) v
          (score s) (explanation s).
Definition setScore (v : nat) (s : State) : State :=
  mkState (quizData s) (currentAnswers s) (quizLoading s) (quizType s) (isSubmitted s)
          v (explanation s).
Definition setExplanation (v : string) (s : State) : State :=
  mkState (quizData s) (currentAnswers s) (quizLoading s) (quizType s) (isSubmitted s)
          (score s) v.

Section Handlers.
Context (P : Platform).

(** [q => ({ ...q, id: crypto.randomUUID(), userAnswer: q.type === 'mcq' ? '' : '' })]:
    the spread accepts any value, the identifier is drawn, then [q.type]
    throws when [q] is null. *)
Definition withId (q : json) : M Question :=
  let! id := randomUUID P in
  let! type := lift (member (Some q) "type") in
  ret {| q_id := id;
         q_type := type;
         q_question := get_named q "question";
         q_options := get_named q "options";
         q_correctAnswer := get_named q "correctAnswer";
         q_modelAnswer := get_named q "modelAnswer";
         q_explanation := get_named q "explanation";
         q_userAnswer := "" |}.

(** The statements of the [try] block of [handleGenerate], from the
    state [s] reached before it.  What follows the [await] sets state
    variables to values that do not depend on the state of that moment,
    and no control that changes the others is enabled while
    [quizLoading] is set and no quiz is held: the handler is one
    uninterrupted run. *)
Definition generate_body (text : string) (type : QuizType) (s : State) : M State :=
  let! result := fetchQuiz P text type in
  let! listed := lift (member result "questions") in
  let! questionsWithIds := js_mapM listed withId in
  ret (setCurrentAnswers ∅
         (setQuizData (Some (mkQuizData (opt_member result "quizTitle") questionsWithIds)) s)).

Definition handleGenerate (p : Props) (s : State) : M State :=
  if negb (isQuizReady p) then
    do! console_log "PDF text is not available or too short." in
    ret s
  else
    let s1 := setExplanation ""
                (setScore 0 (setIsSubmitted false (setQuizData None (setQuizLoading true s)))) in
    let! s2 :=
      try_catch
        (generate_body (pdfText p) (quizType s) s1)
        (fun e =>
           do! console_log "Quiz generation failed:" in
           do! alert "Quiz generation failed. Check console for details." in
           ret s1) in
    ret (setQuizLoading false s2).

End Handlers.

Definition handleAnswerChange (questionId value : string) (s : State) : State :=
  if isSubmitted s then s
  else setCurrentAnswers (<[questionId := value]> (currentAnswers s)) s.

(** [onClose] of the result modal and the "Close Feedback" button. *)
Definition closeFeedback (s : State) : State := setIsSubmitted false s.

Definition is_mcq (q : Question) : bool := strict_eq_string (Some "mcq") (q_type q).

(** The [isCorrect] of one iteration of [handleSubmit]. *)
Definition isCorrect (userAnswer : option string) (q : Question) : bool :=
  if is_mcq q then strict_eq_string userAnswer (q_correctAnswer q)
  else
    match userAnswer with
    | Some a => negb (String.eqb a "") && (5 <? String.length a)%nat
    | None => false
    end.

(** A string, or undefined, is truthy when it is a non-empty string. *)
Definition given (userAnswer : option string) : option string :=
  match userAnswer with
  | Some a => if String.eqb a "" then None else Some a
  | None => None
  end.

(** [q.modelAnswer ? q.modelAnswer.substring(0, 50) + '...' : 'N/A']:
    [substring] exists on strings only. *)
Definition modelAnswer_shown (q : Question) : Res string :=
  if truthy (q_modelAnswer q) then
    match q_modelAnswer q with
    | Some (JStr m) => Ok (substring0 50 m ++ "...")
    | _ => Throw TypeError
    end
  else Ok "N/A".

(** The lines one iteration appends to [feedbackExplanation]. *)
Definition feedback_of (index : nat) (userAnswer : option string) (q : Question)
  : Res string :=
  let head := string_of_nat (index + 1) ++ ". " ++ show (q_question q) ++ newline in
  let status := if isCorrect userAnswer q
                then "   Status: CORRECT" ++ newline
                else "   Status: INCORRECT" ++ newline in
  let tail := "   Explanation: " ++ show (q_explanation q) ++ newline ++ newline in
  if is_mcq q then
    Ok (head
        ++ "   Your Choice: " ++ default "No Answer" (given userAnswer) ++ newline
        ++ "   Correct Choice: " ++ show (q_correctAnswer q) ++ newline
        ++ status ++ tail)
  else
    match modelAnswer_shown q with
    | Throw e => Throw e
    | Ok shown =>
        Ok (head
            ++ "   Your Answer: "
            ++ match given userAnswer with
               | Some a => substring0 50 a ++ "..."
               | None => "No Answer"
               end ++ newline
            ++ "   Model Answer: " ++ shown ++ newline
            ++ status ++ tail)
    end.

(** [quizData.questions.forEach((q, index) => { ... })] from [index] on,
    on the running [correctCount] and [feedbackExplanation]. *)
Fixpoint grade (answers : gmap string string) (qs : list Question) (index : nat)
         (correctCount : nat) (feedbackExplanation : string) : Res (nat * string) :=
  match qs with
  | [] => Ok (correctCount, feedbackExplanation)
  | q :: rest =>
      let userAnswer := answers !! q_id q in
      match feedback_of index userAnswer q with
      | Throw e => Throw e
      | Ok lines =>
          grade answers rest (S index)
                (if isCorrect userAnswer q then S correctCount else correctCount)
                (feedbackExplanation ++ lines)
      end
  end.

(** [handleSubmit], with the [Date.now()] it reads. *)
Definition handleSubmit (now : Z) (s : State) : M State :=
  if negb (hasQuiz s) then ret s
  else
    match quizData s with
    | None => throw TypeError
    | Some qd =>
        let totalQuestions := length (questions qd) in
        let opening := "Quiz: " ++ show (quizTitle qd) ++ " ("
                       ++ toUpperCase (quizType_value (quizType s)) ++ ")"
                       ++ newline ++ newline in
        let! graded := lift (grade (currentAnswers s) (questions qd) 0 0 opening) in
        let '(correctCount, feedbackExplanation) := graded in
        do! saveProgress (mkAttempt (quizType_value (quizType s)) correctCount
                                    totalQuestions now (quizTitle qd)) in
        ret (setIsSubmitted true (setExplanation feedbackExplanation (setScore correctCount s)))
    end.

End Quiz.

(** ** The chat session manager: the state and the handlers of [ChatUI] *)

Module Chat.
Import JS Effects Gemini.

Record Thread : Type := mkThread {
  id : Z;
  name : string;
  history : list Message
}.

Record State : Type := mkState {
  chatList : list Thread;
  activeChatId : Z;
  inputMessage : string;
  isTyping : bool
}.

Definition initial : State :=
  mkState [mkThread 1 "Physics Revision Chat" []] 1 "" false.

Definition setChatList (v : list Thread) (s : State) : State :=
  mkState v (activeChatId s) (inputMessage s) (isTyping s).
Definition setActiveChatId (v : Z) (s : State) : State :=
  mkState (chatList s) v (inputMessage s) (isTyping s).
Definition setInputMessage (v : string) (s : State) : State :=
  mkState (chatList s) (activeChatId s) v (isTyping s).
Definition setIsTyping (v : bool) (s : State) : State :=
  mkState (chatList s) (activeChatId s) (inputMessage s) v.

(** [chatList.find(c => c.id === activeChatId) || chatList[0]] *)
Definition activeChat (s : State) : option Thread :=
  match List.find (fun c => (id c =? activeChatId s)%Z) (chatList s) with
  | Some c => Some c
  | None => head (chatList s)
  end.

(** [handleNewChat], with the [Date.now()] it reads. *)
Definition handleNewChat (now : Z) (s : State) : State :=
  let newChat := mkThread now ("New Chat " ++ string_of_nat (length (chatList s) + 1)) [] in
  setActiveChatId (id newChat) (setChatList (chatList s ++ [newChat])%list s).

(** [c => c.id === chatId ? { ...c, history: h } : c] over a list. *)
Definition with_history (chatId : Z) (h : list Message) (l : list Thread) : list Thread :=
  List.map (fun c => if (id c =? chatId)%Z then mkThread (id c) (name c) h else c) l.

(** What the closure of a started [handleSendMessage] holds while its
    request is pending. *)
Record Pending : Type := mkPending {
  p_chatId : Z;                 (* activeChatId *)
  p_history : list Message;     (* activeChat.history *)
  p_newHistory : list Message;
  p_currentInput : string
}.

Definition userMessage_of (input : string) : Message :=
  mkMessage (Some user) (JStr input) None.

(** [handleSendMessage] up to the call of [fetchChatResponse]: [Ok None]
    is the early [return]; reading [activeChat.history] throws when there
    is no thread at all. *)
Definition handleSendMessage_begin (s : State) : Res (option (State * Pending)) :=
  if String.eqb (trim (inputMessage s)) "" || isTyping s then Ok None
  else
    match activeChat s with
    | None => Throw TypeError
    | Some chat =>
        let userMessage := userMessage_of (inputMessage s) in
        let newHistory := (history chat ++ [userMessage])%list in
        let currentInput := inputMessage s in
        let updatedChatList := with_history (activeChatId s) newHistory (chatList s) in
        Ok (Some (setIsTyping true (setInputMessage "" (setChatList updatedChatList s)),
                  mkPending (activeChatId s) (history chat) newHistory currentInput))
    end.

Definition assistantMessage_of (r : ChatResponse) : Message :=
  mkMessage (Some assistant) (r_text r) (Some (r_sources r)).

Definition errorMessage : Message :=
  mkMessage (Some assistant) (JStr "Error fetching response. Try again.") None.

(** The message the [try]/[catch] appends for what the awaited call gave:
    destructuring [undefined] throws and lands in the [catch]. *)
Definition closing_message (outcome : Res (option ChatResponse)) : Message :=
  match outcome with
  | Ok (Some r) => assistantMessage_of r
  | Ok None | Throw _ => errorMessage
  end.

(** [handleSendMessage] after the [await]: the functional update is
    applied to the state [prev] of that later moment. *)
Definition handleSendMessage_settle (p : Pending) (outcome : Res (option ChatResponse))
           (prev : State) : State :=
  setIsTyping false
    (setChatList
       (with_history (p_chatId p) (p_newHistory p ++ [closing_message outcome])%list
                     (chatList prev))
       prev).

(** One uninterrupted run of [handleSendMessage]. *)
Definition handleSendMessage (P : Platform) (pdfText : string) (s : State) : M State :=
  fun l =>
    match handleSendMessage_begin s with
    | Throw e => (Throw e, l)
    | Ok None => (Ok s, l)
    | Ok (Some (s1, p)) =>
        let '(outcome, l') := fetchChatResponse P (p_history p) (p_currentInput p) pdfText l in
        (Ok (handleSendMessage_settle p outcome s1), l')
    end.

(** *** The view between events

    The interface state together with the sends whose request has not
    settled yet.  An event is a call of a handler; a pending request
    settles at any later moment, with any outcome.  The input box is
    disabled while [isTyping] is set, so nothing is typed then; the list
    of threads and the "New Chat" button stay enabled, and
    [handleSendMessage] is guarded by its own test. *)
Record View : Type := mkView {
  ui : State;
  inflight : list Pending
}.

Inductive step : View -> View -> Prop :=
| step_type (v : View) (text : string) :
    isTyping (ui v) = false ->
    step v (mkView (setInputMessage text (ui v)) (inflight v))
| step_new (v : View) (now : Z) :
    step v (mkView (handleNewChat now (ui v)) (inflight v))
| step_select (v : View) (chat : Thread) :
    In chat (chatList (ui v)) ->
    step v (mkView (setActiveChatId (id chat) (ui v)) (inflight v))
| step_send (v : View) (s' : State) (p : Pending) :
    handleSendMessage_begin (ui v) = Ok (Some (s', p)) ->
    step v (mkView s' (inflight v ++ [p])%list)
| step_send_ignored (v : View) :
    handleSendMessage_begin (ui v) = Ok None ->
    step v v
| step_settle (v : View) (before after : list Pending) (p : Pending)
              (outcome : Res (option ChatResponse)) :
    inflight v = (before ++ p :: after)%list ->
    step v (mkView (handleSendMessage_settle p outcome (ui v)) (before ++ after)%list).

Inductive reachable : View -> Prop :=
| reachable_initial : reachable (mkView initial [])
| reachable_step (v v' : View) : reachable v -> step v v' -> reachable v'.

(** The same events as data, to run a session: a [Type_] while the input
    box is disabled, a [Select] of an identifier that no thread has, a
    [Send] that is ignored or throws, and a [Settle] with nothing pending
    leave the view as it is; [Settle] settles the oldest pending send. *)
Inductive Event : Type :=
| Type_ (text : string)
| New (now : Z)
| Select (chatId : Z)
| Send
| Settle (outcome : Res (option ChatResponse)).

Definition apply_event (e : Event) (v : View) : View :=
  match e with
  | Type_ text =>
      if isTyping (ui v) then v
      else mkView (setInputMessage text (ui v)) (inflight v)
  | New now => mkView (handleNewChat now (ui v)) (inflight v)
  | Select chatId =>
      match List.find (fun c => (id c =? chatId)%Z) (chatList (ui v)) with
      | Some chat => mkView (setActiveChatId (id chat) (ui v)) (inflight v)
      | None => v
      end
  | Send =>
      match handleSendMessage_begin (ui v) with
      | Ok (Some (s', p)) => mkView s' (inflight v ++ [p])%list
      | _ => v
      end
  | Settle outcome =>
      match inflight v with
      | p :: rest => mkView (handleSendMessage_settle p outcome (ui v)) rest
      | [] => v
      end
  end.

Definition run (events : list Event) (v : View) : View :=
  fold_left (fun v e => apply_event e v) events v.

End Chat.

(** ** A reference reading of JSON text

    [JSON.parse] is a built-in: the development takes it from the
    [Platform].  To run the code on concrete responses, [decode] reads
    the JSON grammar (objects, arrays, strings with their escapes below
    code 256, integers, literals), and [stringify] writes it. *)

Module JSONText.
Import JS.

Definition code (c : ascii) : nat := nat_of_ascii c.
Definition dquote : ascii := ascii_of_nat 34.
Definition backslash : ascii := ascii_of_nat 92.

Definition json_ws (c : ascii) : bool :=
  (code c =? 32)%nat || (code c =? 9)%nat || (code c =? 10)%nat || (code c =? 13)%nat.

Fixpoint skip_ws (s : string) : string :=
  match s with
  | String c r => if json_ws c then skip_ws r else s
  | EmptyString => EmptyString
  end.

Definition is_digit (c : ascii) : bool := (48 <=? code c)%nat && (code c <=? 57)%nat.

Fixpoint digits (s : string) (acc : Z) : Z * string :=
  match s with
  | String c r => if is_digit c then digits r (10 * acc + Z.of_nat (code c - 48))%Z else (acc, s)
  | EmptyString => (acc, s)
  end.

(** [0], or a run of digits that does not start with [0]; a fraction or
    an exponent is not read. *)
Definition natural (s : string) : option (Z * string) :=
  match s with
  | String c r =>
      if negb (is_digit c) then None
      else
        let '(n, rest) := if (code c =? 48)%nat then (0%Z, r) else digits s 0 in
        match rest with
        | String d _ =>
            if is_digit d || (code d =? 46)%nat || (code d =? 101)%nat || (code d =? 69)%nat
            then None else Some (n, rest)
        | EmptyString => Some (n, rest)
        end
  | EmptyString => None
  end.

Definition hex (c : ascii) : option nat :=
  let n := code c in
  if (48 <=? n)%nat && (n <=? 57)%nat then Some (n - 48)
  else if (97 <=? n)%nat && (n <=? 102)%nat then Some (n - 87)
  else if (65 <=? n)%nat && (n <=? 70)%nat then Some (n - 55)
  else None.

Definition unescape (c : ascii) : option ascii :=
  let n := code c in
  if (n =? 34)%nat || (n =? 92)%nat || (n =? 47)%nat then Some c
  else if (n =? 98)%nat then Some (ascii_of_nat 8)
  else if (n =? 102)%nat then Some (ascii_of_nat 12)
  else if (n =? 110)%nat then Some (ascii_of_nat 10)
  else if (n =? 114)%nat then Some (ascii_of_nat 13)
  else if (n =? 116)%nat then Some (ascii_of_nat 9)
  else None.

(** The characters of a string literal after its opening quote, and what
    follows the closing quote. *)
Fixpoint string_body (s : string) : option (string * string) :=
  match s with
  | EmptyString => None
  | String c r =>
      if (code c =? 34)%nat then Some (EmptyString, r)
      else if (code c <? 32)%nat then None
      else if (code c =? 92)%nat then
        match r with
        | String e r' =>
            if (code e =? 117)%nat then
              match r' with
              | String h1 (String h2 (String h3 (String h4 r''))) =>
                  match hex h1, hex h2, hex h3, hex h4 with
                  | Some 0, Some 0, Some a, Some b =>
                      match string_body r'' with
                      | Some (body, rest) => Some (String (ascii_of_nat (16 * a + b)) body, rest)
                      | None => None
                      end
                  | _, _, _, _ => None
                  end
              | _ => None
              end
            else
              match unescape e, string_body r' with
              | Some u, Some (body, rest) => Some (String u body, rest)
              | _, _ => None
              end
        | EmptyString => None
        end
      else
        match string_body r with
        | Some (body, rest) => Some (String c body, rest)
        | None => None
        end
  end.

Definition expect (word : string) (j : json) (s : string) : option (json * string) :=
  if String.prefix word s
  then Some (j, String.substring (String.length word) (String.length s - String.length word) s)
  else None.

(** A later member replaces an earlier one of the same name. *)
Definition add_member (k : string) (v : json) (later : list (string * json))
  : list (string * json) :=
  match own later k with
  | Some _ => later
  | None => (k, v) :: later
  end.

Fixpoint read_value (fuel : nat) (s : string) : option (json * string) :=
  match fuel with
  | 0 => None
  | S fuel' =>
      match skip_ws s with
      | EmptyString => None
      | String c r =>
          if (code c =? 123)%nat then
            match skip_ws r with
            | String d r' =>
                if (code d =? 125)%nat then Some (JObj [], r')
                else match read_members fuel' (String d r') with
                     | Some (ms, rest) => Some (JObj ms, rest)
                     | None => None
                     end
            | EmptyString => None
            end
          else if (code c =? 91)%nat then
            match skip_ws r with
            | String d r' =>
                if (code d =? 93)%nat then Some (JArr [], r')
                else match read_elements fuel' (String d r') with
                     | Some (vs, rest) => Some (JArr vs, rest)
                     | None => None
                     end
            | EmptyString => None
            end
          else if (code c =? 34)%nat then
            match string_body r with
            | Some (body, rest) => Some (JStr body, rest)
            | None => None
            end
          else if (code c =? 45)%nat then
            match natural r with
            | Some (n, rest) => Some (JNum (- n), rest)
            | None => None
            end
          else if is_digit c then
            match natural (String c r) with
            | Some (n, rest) => Some (JNum n, rest)
            | None => None
            end
          else if (code c =? 116)%nat then expect "true" (JBool true) (String c r)
          else if (code c =? 102)%nat then expect "false" (JBool false) (String c r)
          else if (code c =? 110)%nat then expect "null" JNull (String c r)
          else None
      end
  end
with read_elements (fuel : nat) (s : string) : option (list json * string) :=
  match fuel with
  | 0 => None
  | S fuel' =>
      match read_value fuel' s with
      | Some (v, rest) =>
          match skip_ws rest with
          | String c r =>
              if (code c =? 44)%nat then
                match read_elements fuel' r with
                | Some (vs, rest') => Some (v :: vs, rest')
                | None => None
                end
              else if (code c =? 93)%nat then Some ([v], r)
              else None
          | EmptyString => None
          end
      | None => None
      end
  end
with read_members (fuel : nat) (s : string) : option (list (string * json) * string) :=
  match fuel with
  | 0 => None
  | S fuel' =>
      match skip_ws s with
      | String q r =>
          if negb (code q =? 34)%nat then None
          else
            match string_body r with
            | Some (k, after_key) =>
                match skip_ws after_key with
                | String colon r' =>
                    if negb (code colon =? 58)%nat then None
                    else
                      match read_value fuel' r' with
                      | Some (v, rest) =>
                          match skip_ws rest with
                          | String c r'' =>
                              if (code c =? 44)%nat then
                                match read_members fuel' r'' with
                                | Some (ms, rest') => Some (add_member k v ms, rest')
                                | None => None
                                end
                              else if (code c =? 125)%nat then Some ([(k, v)], r'')
                              else None
                          | EmptyString => None
                          end
                      | None => None
                      end
                | EmptyString => None
                end
            | None => None
            end
      | EmptyString => None
      end
  end.

(** The whole text is one value, white space apart. *)
Definition decode (s : string) : option json :=
  match read_value (2 * String.length s + 2) s with
  | Some (j, rest) => if String.eqb (skip_ws rest) "" then Some j else None
  | None => None
  end.

Definition hex_digit (n : nat) : ascii :=
  if (n <? 10)%nat then ascii_of_nat (48 + n) else ascii_of_nat (87 + n).

Fixpoint escape (s : string) : string :=
  match s with
  | EmptyString => EmptyString
  | String c r =>
      if (code c =? 34)%nat || (code c =? 92)%nat then String backslash (String c (escape r))
      else if (code c <? 32)%nat then
        String backslash
          (String "u" (String "0" (String "0"
             (String (hex_digit (code c / 16)) (String (hex_digit (code c mod 16)) (escape r))))))
      else String c (escape r)
  end.

Definition quoted (s : string) : string :=
  String dquote (escape s ++ String dquote EmptyString).

Fixpoint stringify (j : json) : string :=
  match j with
  | JNull => "null"
  | JBool true => "true"
  | JBool false => "false"
  | JNum n => string_of_Z n
  | JStr s => quoted s
  | JArr items =>
      "[" ++ (fix join (l : list json) : string :=
                match l with
                | [] => ""
                | x :: rest =>
                    match rest with
                    | [] => stringify x
                    | _ => stringify x ++ "," ++ join rest
                    end
                end) items ++ "]"
  | JObj props =>
      "{" ++ (fix join (l : list (string * json)) : string :=
                match l with
                | [] => ""
                | (k, v) :: rest =>
                    match rest with
                    | [] => quoted k ++ ":" ++ stringify v
                    | _ => quoted k ++ ":" ++ stringify v ++ "," ++ join rest
                    end
                end) props ++ "}"
  end.

(** [JSON.parse(v)]: the text read is [ToString(v)]. *)
Definition JSON_parse_text (v : json) : option json := decode (toString v).

End JSONText.


(** ** Vocabulary of the statements *)

Module Vocabulary.
Import JS Effects Gemini.

(** The log once [payload] has been passed to [fetch]. *)
Definition sent (payload : Payload) (l : Log) : Log := (l ++ [Fetched payload])%list.

(** The log once [label] has been written to the console. *)
Definition logged (label : string) (l : Log) : Log := (l ++ [Logged label])%list.

(** The log once an attempt has failed, its message is on the console
    and the delay before the next attempt has been awaited. *)
Definition backed_off (label : string) (ms : Z) (l : Log) : Log :=
  (l ++ [Logged label; Waited ms])%list.

(** The log once [msg] has been shown with [alert]. *)
Definition alerted (msg : string) (l : Log) : Log := (l ++ [Alerted msg])%list.

(** The log of a call that sent [payload] three times and saw every
    attempt fail: both delays come before the last request, and nothing
    is awaited after it. *)
Definition exhausted (label1 label2 label3 : string) (payload : Payload) (l : Log) : Log :=
  (l ++ [Fetched payload; Logged label1; Waited 1000;
         Fetched payload; Logged label2; Waited 2000;
         Fetched payload; Logged label3])%list.

(** The delays, in ms, awaited after the failed attempts [i], [i+1], ...,
    [i+n-1] of a retry loop: [Math.pow(2, i) * 1000] and so on. *)
Definition backoff_delays (i n : nat) : list Z :=
  List.map (fun j => (2 ^ Z.of_nat j * 1000)%Z) (seq i n).

(** What an attempt of [fetchQuiz] makes of the reply to its request. *)
Definition quiz_attempt_of (P : Platform) (r : Reply) : Res json :=
  match r with
  | Rejected => Throw NetworkError
  | Responded status body => quiz_result_of P status body
  end.

(** What an attempt of [fetchChatResponse] makes of the reply to its request. *)
Definition chat_attempt_of (r : Reply) : Res ChatResponse :=
  match r with
  | Rejected => Throw NetworkError
  | Responded status body => chat_result_of status body
  end.

Definition failed {A} (r : Res A) : Prop := exists e, r = Throw e.

(** The quiz state while a generation is awaited, and once it has failed:
    every variable but the answers and the selected type is reset. *)
Definition loading (s : Quiz.State) : Quiz.State :=
  Quiz.mkState None (Quiz.currentAnswers s) true (Quiz.quizType s) false 0 "".

Definition cleared (s : Quiz.State) : Quiz.State :=
  Quiz.mkState None (Quiz.currentAnswers s) false (Quiz.quizType s) false 0 "".

Definition generation_alert : string := "Quiz generation failed. Check console for details.".

(** A question of [quizData] carries what the response element carried. *)
Definition mirrors (q : Quiz.Question) (item : json) : Prop :=
  Quiz.q_type q = get_named item "type"
  /\ Quiz.q_question q = get_named item "question"
  /\ Quiz.q_options q = get_named item "options"
  /\ Quiz.q_correctAnswer q = get_named item "correctAnswer"
  /\ Quiz.q_modelAnswer q = get_named item "modelAnswer"
  /\ Quiz.q_explanation q = get_named item "explanation"
  /\ Quiz.q_userAnswer q = "".

(** The model answer of a question, when there is one, is a string. *)
Definition modelAnswer_is_text (q : Quiz.Question) : Prop :=
  truthy (Quiz.q_modelAnswer q) = true -> exists m, Quiz.q_modelAnswer q = Some (JStr m).

(** The questions of [qs] that [handleSubmit] counts as correct. *)
Definition correct_ones (answers : gmap string string) (qs : list Quiz.Question)
  : list Quiz.Question :=
  List.filter (fun q => Quiz.isCorrect (answers !! Quiz.q_id q) q) qs.

(** Empty, or white space only. *)
Definition blank (s : string) : Prop :=
  forall c, In c (list_ascii_of_string s) -> is_whitespace c = true.

(** What holds of the chat view between events: the busy flag is set
    exactly while one send is pending, never more than one; the selected
    thread and the thread of the pending send exist. *)
Definition chat_invariant (v : Chat.View) : Prop :=
  ((Chat.isTyping (Chat.ui v) = false /\ Chat.inflight v = [])
   \/ (Chat.isTyping (Chat.ui v) = true /\ exists p, Chat.inflight v = [p]))
  /\ In (Chat.activeChatId (Chat.ui v)) (List.map Chat.id (Chat.chatList (Chat.ui v)))
  /\ (forall p, In p (Chat.inflight v) ->
        In (Chat.p_chatId p) (List.map Chat.id (Chat.chatList (Chat.ui v)))).

End Vocabulary.

(** ** Concrete platforms, documents and states *)

Module Fixtures.
Import JS Effects Gemini Vocabulary.

(** A platform whose network answers from a script, then rejects; its
    identifiers are "q0", "q1", ... *)
Definition scripted (replies : list Reply) : Platform :=
  {| network := fun n => nth n replies Rejected;
     randomUUID_at := fun n => "q" ++ string_of_nat n;
     JSON_parse := JSONText.JSON_parse_text |}.

(** No network at all: every [fetch] rejects. *)
Definition offline : Platform := scripted [].

(** A script in which the three attempts fail in three ways: no
    response, a server error, a body without candidates. *)
Definition three_failures : Platform :=
  scripted [Rejected; Responded 500 None; Responded 200 (Some JNull)].

(** Documents of 40, 50 and 51 characters. *)
Definition doc40 : string := "Physics is the study of the basic laws o".
Definition doc50 : string := "Physics is the study of the basic laws of nature a".
Definition doc51 : string := "Physics is the study of the basic laws of nature an".

(** A response body whose first candidate carries [text]. *)
Definition candidate (text : string) : json :=
  JObj [("candidates",
         JArr [JObj [("content", JObj [("parts", JArr [JObj [("text", JStr text)]])])]])].

(** A quiz of one question, with two options and an answer that is none
    of them. *)
Definition lone_question : json :=
  JObj [("quizTitle", JStr "Physical World");
        ("questions",
         JArr [JObj [("id", JStr "1");
                     ("type", JStr "mcq");
                     ("question", JStr "What is physics?");
                     ("options", JArr [JStr "A science"; JStr "An art"]);
                     ("correctAnswer", JStr "A sport");
                     ("explanation", JStr "See section 1.1.")]])].

Definition answers_lone_question : Platform :=
  scripted [Responded 200 (Some (candidate (JSONText.stringify lone_question)))].

(** A response as the instruction asks for it: three choice questions of
    four options, with the answers A, B and C. *)
Definition asked_choice (answer : string) : json :=
  JObj [("id", JStr "x");
        ("type", JStr "mcq");
        ("question", JStr "Pick one.");
        ("options", JArr [JStr "A"; JStr "B"; JStr "C"; JStr "D"]);
        ("correctAnswer", JStr answer);
        ("explanation", JStr "Because.")].

Definition three_choices : json :=
  JObj [("quizTitle", JStr "Physical World");
        ("questions", JArr [asked_choice "A"; asked_choice "B"; asked_choice "C"])].

Definition answers_three_choices : Platform :=
  scripted [Responded 200 (Some (candidate (JSONText.stringify three_choices)))].

(** A state that holds a quiz of one question. *)
Definition holding_quiz : Quiz.State :=
  Quiz.mkState
    (Some (Quiz.mkQuizData (Some (JStr "Physical World"))
             [Quiz.mkQuestion "q0" (Some (JStr "mcq")) (Some (JStr "What is physics?"))
                (Some (JArr [JStr "A science"; JStr "An art"])) (Some (JStr "A science"))
                None (Some (JStr "See section 1.1.")) ""]))
    ∅ false mcq false 0 "".

(** A choice question with the options A to D, and a short question. *)
Definition choice (id answer : string) : Quiz.Question :=
  Quiz.mkQuestion id (Some (JStr "mcq")) (Some (JStr "Pick one."))
    (Some (JArr [JStr "A"; JStr "B"; JStr "C"; JStr "D"])) (Some (JStr answer))
    None (Some (JStr "Because.")) "".

Definition short (id : string) : Quiz.Question :=
  Quiz.mkQuestion id (Some (JStr "saq")) (Some (JStr "What is unification?"))
    None None (Some (JStr "Explaining diverse phenomena by a few laws."))
    (Some (JStr "See section 1.2.")) "".

(** Canonical answers A, B, C; the first answered A, the second answered
    D, the third not answered. *)
Definition scenario_B : Quiz.State :=
  Quiz.handleAnswerChange "q2" "D"
    (Quiz.handleAnswerChange "q1" "A"
       (Quiz.mkState
          (Some (Quiz.mkQuizData (Some (JStr "Physical World"))
                   [choice "q1" "A"; choice "q2" "B"; choice "q3" "C"]))
          ∅ false mcq false 0 "")).

(** Scenario B once submitted. *)
Definition submitted_B : Quiz.State :=
  match Quiz.handleSubmit 0 scenario_B empty_log with
  | (Ok s', _) => s'
  | (Throw _, _) => scenario_B
  end.

(** Two threads; a send of "First" is pending on thread 1 and thread 2
    is selected. *)
Definition second_thread_waiting : Chat.View :=
  Chat.run [Chat.New 2; Chat.Select 1; Chat.Type_ "First"; Chat.Send; Chat.Select 2]
           (Chat.mkView Chat.initial []).

(** The view in which "What is physics?" has been typed. *)
Definition question_typed : Chat.View :=
  Chat.run [Chat.Type_ "What is physics?"] (Chat.mkView Chat.initial []).

(** A response with a text and two attributions, one of them without a
    uri. *)
Definition grounded_answer : json :=
  JObj [("candidates",
         JArr [JObj [("content",
                      JObj [("parts", JArr [JObj [("text", JStr "The study of nature.")]])]);
                     ("groundingMetadata",
                      JObj [("groundingAttributions",
                             JArr [JObj [("web", JObj [("uri", JStr "https://example.org/physics");
                                                       ("title", JStr "Physics")])];
                                   JObj [("web", JObj [("title", JStr "No address")])]])])]])].

Definition answers_grounded : Platform := scripted [Responded 200 (Some grounded_answer)].

End Fixtures.

(** ** Arrays: [Array.prototype.sort] *)

Module JSArray.

Section Sort.
Context {A : Type} (compare : A -> A -> Z).

(** [x], which stood before every element of the sorted [l], goes in
    front of the first element that the comparator does not put before
    it. *)
Fixpoint insert (x : A) (l : list A) : list A :=
  match l with
  | [] => [x]
  | y :: rest => if (0 <? compare x y)%Z then y :: insert x rest else x :: l
  end.

(** [l.sort(compare)].  The sort of the language is stable, and for a
    comparator that orders by a key the stable arrangement is unique:
    it is computed here by insertion from the right. *)
Definition sort (l : list A) : list A := List.fold_right insert [] l.

End Sort.

End JSArray.

(** ** The video recommender: [fetchYoutubeRecommendations] *)

Module Recommender.
Import JS Effects Gemini.

Definition youtube_userQuery (topic : string) : string :=
  "Find 3 highly rated educational YouTube videos explaining '" ++ topic
  ++ "'. Provide the video title and the full YouTube URL. Respond ONLY with a JSON array of objects with keys 'title' and 'url'.".

Definition youtube_responseSchema : Schema :=
  SArray (SObject [("title", SString); ("url", SString)] ["title"; "url"]).

(** The request has no [systemInstruction]: the empty string stands for
    the absent key. *)
Definition youtube_payload (topic : string) : Payload :=
  {| contents := [mkMessage None (JStr (youtube_userQuery topic)) None];
     tools := Some [google_search];
     systemInstruction := "";
     generationConfig := Some (mkGenerationConfig "application/json" youtube_responseSchema) |}.

(** [url.includes('youtu')] for a truthy [url]: a substring test on a
    string, a membership test on an array, and a call of something that
    is not a function on anything else. *)
Definition includes_youtu (url : json) : Res bool :=
  match url with
  | JStr s => Ok (includes s "youtu")
  | JArr items =>
      Ok (existsb (fun x => match x with JStr s => String.eqb s "youtu" | _ => false end) items)
  | _ => Throw TypeError
  end.

(** [item => item.url && item.url.includes('youtu')], as a condition. *)
Definition keeps (item : json) : Res bool :=
  let? url := member (Some item) "url" in
  match url with
  | Some u => if truthy url then includes_youtu u else Ok false
  | None => Ok false
  end.

Fixpoint filterR {A} (f : A -> Res bool) (l : list A) : Res (list A) :=
  match l with
  | [] => Ok []
  | x :: rest =>
      let? keep := f x in
      let? kept := filterR f rest in
      Ok (if keep then x :: kept else kept)
  end.

(** [v.filter(f)]: only an array has [filter]. *)
Definition js_filter (v : json) (f : json -> Res bool) : Res (list json) :=
  match v with
  | JArr items => filterR f items
  | _ => Throw TypeError
  end.

Section Client.
Context (P : Platform).

(** The statements of the [try] that follow the [fetch]. *)
Definition youtube_result_of (status : Z) (body : option json) : Res (list json) :=
  if negb (status_ok status) then Throw (HttpError status)
  else
    let? result := response_json body in
    let? textJson := candidate_text result in
    match textJson with
    | Some t =>
        if truthy textJson
        then let? parsed := parse P t in js_filter parsed keeps
        else Ok []
    | None => Ok []
    end.

Definition fetchYoutubeRecommendations (topic : string) : M (list json) :=
  try_catch
    (let! response := fetch P (youtube_payload topic) in
     lift (youtube_result_of (fst response) (snd response)))
    (fun error =>
       do! console_log "Failed to fetch YouTube recommendations:" in
       ret []).

End Client.
End Recommender.

(** ** Documents: the list of [App] and [usePdfTextExtractor] *)

Module Documents.
Import JS Effects Gemini.

(** The [type] of an entry of [pdfs]: 'mock' or 'user'. *)
Inductive PdfType : Type := Mock | User.

Definition PdfType_eqb (a b : PdfType) : bool :=
  match a, b with
  | Mock, Mock | User, User => true
  | _, _ => false
  end.

Record Pdf : Type := mkPdf {
  name : string;
  url : string;
  type : PdfType
}.

Inductive ViewName : Type := PDF | QUIZ | CHAT | DASHBOARD.

(** The state variables of [App] that concern the documents. *)
Record State : Type := mkState {
  pdfs : list Pdf;
  selectedPdf : Pdf;
  activeView : ViewName
}.

Definition builtin : Pdf := mkPdf "NCERT Physics XI - Ch 1 (Mock)" "mock-ncert-1" Mock.

Definition initial : State := mkState [builtin] builtin PDF.

Definition handlePdfSelect (pdf : Pdf) (s : State) : State :=
  mkState (pdfs s) pdf PDF.

(** [handleFileUpload]: [file] is [event.target.files[0]], given by its
    name and by the object URL the browser makes for it. *)
Definition handleFileUpload (file : option (string * string)) (s : State) : State :=
  match file with
  | Some (fileName, objectURL) =>
      let newPdf := mkPdf fileName objectURL User in
      mkState
        (List.filter (fun p => negb (PdfType_eqb (type p) User)) (pdfs s) ++ [newPdf])%list
        newPdf (activeView s)
  | None => s
  end.

Definition setActiveView (view : ViewName) (s : State) : State :=
  mkState (pdfs s) (selectedPdf s) view.

(** The events of the sidebar: a document of the list is selected, a
    file is chosen (or the dialog is left without one), a view is
    opened. *)
Inductive step : State -> State -> Prop :=
| step_select (s : State) (pdf : Pdf) :
    In pdf (pdfs s) -> step s (handlePdfSelect pdf s)
| step_upload (s : State) (file : option (string * string)) :
    step s (handleFileUpload file s)
| step_view (s : State) (view : ViewName) :
    step s (setActiveView view s).

Inductive reachable : State -> Prop :=
| reachable_initial : reachable initial
| reachable_step (s s' : State) : reachable s -> step s s' -> reachable s'.

(** *** The text extractor *)

Definition MOCK_NCERT_TEXT : string :=
  newline
  ++ "Chapter 1: Physical World"
  ++ newline
  ++ newline
  ++ "1.1 What is Physics?"
  ++ newline
  ++ "Physics is a basic science in the category of 'natural sciences' like Chemistry and Biology. The word 'Physics' comes from a Greek word meaning 'nature'. Physics is the study of the basic laws of nature and their manifestation in different natural phenomena. The scope of Physics is vast. It covers microscopic (atoms, nuclei) and macroscopic (terrestrial, astronomical) phenomena."
  ++ newline
  ++ newline
  ++ "1.2 Scope and Excitement of Physics"
  ++ newline
  ++ "Physics is concerned with two principal thrusts: unification and reduction. Unification is the attempt to explain diverse physical phenomena in terms of a few concepts and laws. For example, the same law of gravitation applies to a falling apple and to the motion of the moon around the earth. Reductionism is the idea of deducing the properties of a bigger, more complex system from the properties and interactions of its constituent simpler parts."
  ++ newline
  ++ newline
  ++ "1.3 Physics, Technology and Society"
  ++ newline
  ++ "The application of physics principles leads to great technological advancements. For example, the law of electromagnetism is used in radio and TV communication. Nuclear fission is used for power generation. The laser is a device based on the principle of stimulated emission of radiation. The development of steam engine led to the industrial revolution. All these advancements show the deep connection between physics, technology, and society."
  ++ newline.

(** The text that the placeholder extraction sets for a file. *)
Definition extracted_text (fileName : string) : string :=
  newline
  ++ "                --- Extracted Text from: "
  ++ fileName
  ++ " ---"
  ++ newline
  ++ "                This text simulates the content extracted from your uploaded PDF."
  ++ newline
  ++ "                The LLM will use this content for quiz generation and RAG answers."
  ++ newline
  ++ "                In a full implementation, the 'pdfjs-dist' library would read the"
  ++ newline
  ++ "                actual content of the PDF file object provided in pdfFile.file."
  ++ newline
  ++ "            ".

(** The state of [usePdfTextExtractor]: its two state variables, and the
    timer of 1500 ms that the last run of its effect has set and not
    cleared, with the name of the file it will report. *)
Record Extractor : Type := mkExtractor {
  text : string;
  loading : bool;
  timer : option string
}.

Definition idle : Extractor := mkExtractor "" false None.

(** [pdfFile] changes to [pdfFile']: the cleanup of the previous run
    clears its timer, then the effect runs.  Only the branch of an
    uploaded file touches [loading]. *)
Definition pdfFile_changes (pdfFile' : option Pdf) (e : Extractor) : Extractor :=
  match pdfFile' with
  | None => mkExtractor "" (loading e) None
  | Some pdf =>
      if String.eqb (url pdf) "mock-ncert-1"
      then mkExtractor MOCK_NCERT_TEXT (loading e) None
      else mkExtractor "" true (Some (name pdf))
  end.

(** The 1500 ms of a timer that is still set have passed. *)
Definition timer_fires (e : Extractor) : Extractor :=
  match timer e with
  | Some fileName => mkExtractor (extracted_text fileName) false None
  | None => e
  end.

Inductive extractor_event : Type :=
| Changes (pdfFile' : option Pdf)
| Fires.

Definition extractor_step (ev : extractor_event) (e : Extractor) : Extractor :=
  match ev with
  | Changes pdfFile' => pdfFile_changes pdfFile' e
  | Fires => timer_fires e
  end.

Definition extractor_run (events : list extractor_event) (e : Extractor) : Extractor :=
  List.fold_left (fun e ev => extractor_step ev e) events e.

(** The props that [App] hands to [QuizGenerator]. *)
Definition quiz_props (e : Extractor) : Quiz.Props := Quiz.mkProps (text e) (loading e).

End Documents.

(** ** Progress: [saveProgress] of [App] and [useProgressData] *)

Module Progress.
Import JS Effects Gemini.

(** A document of the collection: [{ ...attempt, id: docRef.id }] under
    the identifier of its reference. *)
Record StoredDoc : Type := mkStoredDoc {
  doc_id : string;
  doc_data : Attempt;
  doc_data_id : string
}.

(** An entry of the progress list: [{ id: doc.id, ...doc.data() }].  The
    spread comes last, so the [id] is the one of the data. *)
Record Entry : Type := mkEntry {
  e_id : string;
  e_attempt : Attempt
}.

Definition entry_of (d : StoredDoc) : Entry := mkEntry (doc_data_id d) (doc_data d).

(** [saveProgress] of [App] on the collection [docs]: [ready] is
    [db && userId && collection && setDoc], [docRefId] the identifier of
    the new reference, [accepted] whether [setDoc] resolves. *)
Definition saveProgress (ready : bool) (docRefId : string) (accepted : bool)
           (attempt : Attempt) (docs : list StoredDoc) : M (list StoredDoc) :=
  if negb ready then ret docs
  else if accepted then
    do! console_log "Progress saved successfully!" in
    ret (docs ++ [mkStoredDoc docRefId attempt docRefId])%list
  else
    do! console_log "Error saving progress: " in
    ret docs.

(** [(a, b) => b.timestamp - a.timestamp] *)
Definition latest_first (a b : Entry) : Z :=
  (a_timestamp (e_attempt b) - a_timestamp (e_attempt a))%Z.

(** The listener of [onSnapshot] on a snapshot of [docs]: the progress
    list it sets. *)
Definition on_snapshot (docs : list StoredDoc) : list Entry :=
  JSArray.sort latest_first (List.map entry_of docs).

(** [useProgressData] once the collection holds [docs]: without a
    database or a user nothing is subscribed and the list stays empty. *)
Definition useProgressData (ready : bool) (docs : list StoredDoc) : list Entry :=
  if ready then on_snapshot docs else [].

End Progress.

(** ** The dashboard *)

Module Dashboard.
Import JS Effects Gemini Progress.

Definition totalAttempts (progressData : list Entry) : nat := length progressData.

Definition totalQuestions (progressData : list Entry) : nat :=
  List.fold_left (fun sum attempt => (sum + a_total (e_attempt attempt))%nat) progressData 0%nat.

Definition totalCorrect (progressData : list Entry) : nat :=
  List.fold_left (fun sum attempt => (sum + a_score (e_attempt attempt))%nat) progressData 0%nat.

(** [acc[type] = (acc[type] || 0) + 1] on an object whose keys are quiz
    types: a key keeps the place where it was created. *)
Fixpoint bump (type : string) (acc : list (string * nat)) : list (string * nat) :=
  match acc with
  | [] => [(type, 1%nat)]
  | (k, n) :: rest =>
      if String.eqb k type then (k, (n + 1)%nat) :: rest else (k, n) :: bump type rest
  end.

(** [Object.entries(quizTypeCounts)], for attempts whose types are 'mcq',
    'saq' or 'laq': the keys in the order of their creation. *)
Definition quizTypeCounts (progressData : list Entry) : list (string * nat) :=
  List.fold_left (fun acc attempt => bump (a_type (e_attempt attempt)) acc) progressData [].

(** [entries.sort(...)[0]?.[0] || 'N/A'] *)
Definition first_key (entries : list (string * nat)) : string :=
  match entries with
  | (k, _) :: _ => if String.eqb k "" then "N/A" else k
  | [] => "N/A"
  end.

Definition mostPracticedType (progressData : list Entry) : string :=
  first_key (JSArray.sort (fun a b => (Z.of_nat (snd b) - Z.of_nat (snd a))%Z)
                          (quizTypeCounts progressData)).

Definition leastPracticedType (progressData : list Entry) : string :=
  first_key (JSArray.sort (fun a b => (Z.of_nat (snd a) - Z.of_nat (snd b))%Z)
                          (quizTypeCounts progressData)).

(** [s.split('\n')[0]] *)
Fixpoint first_line (s : string) : string :=
  match s with
  | EmptyString => EmptyString
  | String c rest =>
      if (nat_of_ascii c =? 10)%nat then EmptyString else String c (first_line rest)
  end.

Fixpoint drop (n : nat) (s : string) : string :=
  match n, s with
  | S n', String _ rest => drop n' rest
  | _, _ => s
  end.

(** [s.replace(pat, '')] for a [pat] that is not empty: the first
    occurrence is removed. *)
Fixpoint remove_first (pat s : string) : string :=
  if String.prefix pat s then drop (String.length pat) s
  else match s with
       | EmptyString => EmptyString
       | String c rest => String c (remove_first pat rest)
       end.

(** [pdfText.substring(0, 100).split('\n')[0].replace('Chapter 1:', '').trim()
     || 'General Physics Revision'] *)
Definition topic (pdfText : string) : string :=
  let t := trim (remove_first "Chapter 1:" (first_line (substring0 100 pdfText))) in
  if String.eqb t "" then "General Physics Revision" else t.

(** The effect on [pdfText]: the recommendations it sets. *)
Definition recommendations (P : Platform) (pdfText : string) : M (list json) :=
  if String.eqb pdfText "" then ret []
  else Recommender.fetchYoutubeRecommendations P (topic pdfText).

End Dashboard.

(** ** More vocabulary *)

Module Vocabulary2.
Import JS Effects Gemini Vocabulary.

(** What an attempt of [fetchYoutubeRecommendations] makes of the reply. *)
Definition youtube_attempt_of (P : Platform) (r : Reply) : Res (list json) :=
  match r with
  | Rejected => Throw NetworkError
  | Responded status body => Recommender.youtube_result_of P status body
  end.

(** The [url] of a kept video names YouTube: a string that contains
    "youtu", or an array one of whose elements is the string "youtu". *)
Definition names_youtube (video : json) : Prop :=
  (exists s pre post, get_named video "url" = Some (JStr s)
                      /\ s = pre ++ "youtu" ++ post)
  \/ (exists items, get_named video "url" = Some (JArr items) /\ In (JStr "youtu") items).

(** [kept] is [all] with some elements left out. *)
Inductive selected_from {A} : list A -> list A -> Prop :=
| selected_nil : selected_from [] []
| selected_keep (x : A) (kept all : list A) :
    selected_from kept all -> selected_from (x :: kept) (x :: all)
| selected_skip (x : A) (kept all : list A) :
    selected_from kept all -> selected_from kept (x :: all).

(** A history made of turns: a user message, then an assistant message. *)
Fixpoint turns (h : list Message) : Prop :=
  match h with
  | [] => True
  | u :: rest =>
      match rest with
      | a :: rest' => role u = Some user /\ role a = Some assistant /\ turns rest'
      | [] => False
      end
  end.

(** The entries of one quiz type. *)
Definition attempts_of (type : string) (progressData : list Progress.Entry) : nat :=
  length (List.filter (fun e => String.eqb (a_type (Progress.e_attempt e)) type)
                      progressData).

Definition quiz_type_name (type : string) : Prop :=
  type = "mcq" \/ type = "saq" \/ type = "laq".

(** The number of loaded documents of a list. *)
Definition uploads (pdfs : list Documents.Pdf) : nat :=
  length (List.filter (fun p => Documents.PdfType_eqb (Documents.type p) Documents.User) pdfs).

(** A choice question whose response element had no [correctAnswer]. *)
Definition unkeyed_choice (q : Quiz.Question) : bool :=
  Quiz.is_mcq q && match Quiz.q_correctAnswer q with None => true | Some _ => false end.

(** The histories of a chat view alternate: a send that is pending holds
    a history of complete turns and that history with its user message;
    the history of a thread is made of complete turns, or it is the one
    of the pending send, which the thread of that send shows until the
    reply arrives. *)
Definition histories_alternate (v : Chat.View) : Prop :=
  (forall p, In p (Chat.inflight v) ->
     turns (Chat.p_history p)
     /\ Chat.p_newHistory p
        = (Chat.p_history p ++ [Chat.userMessage_of (Chat.p_currentInput p)])%list)
  /\ (forall c, In c (Chat.chatList (Chat.ui v)) ->
        turns (Chat.history c)
        \/ exists p, In p (Chat.inflight v) /\ Chat.id c = Chat.p_chatId p
                     /\ Chat.history c = Chat.p_newHistory p).

(** An event of the extractor that starts an extraction: the selected
    document becomes one that is not the built-in one. *)
Definition starts_extraction (ev : Documents.extractor_event) : bool :=
  match ev with
  | Documents.Changes (Some pdf) => negb (String.eqb (Documents.url pdf) "mock-ncert-1")
  | _ => false
  end.

(** The states of [usePdfTextExtractor] from the first render on. *)
Definition extractor_after (events : list Documents.extractor_event) : Documents.Extractor :=
  Documents.extractor_run events Documents.idle.

(** The list of documents holds the built-in one, then at most one
    loaded file, and the selected document is one of the list. *)
Definition documents_kept (s : Documents.State) : Prop :=
  (Documents.pdfs s = [Documents.builtin]
   \/ exists fileName objectURL,
        Documents.pdfs s
        = [Documents.builtin; Documents.mkPdf fileName objectURL Documents.User])
  /\ In (Documents.selectedPdf s) (Documents.pdfs s).

(** The counts [acc] are those of the attempts [progressData]: one entry
    for each type that occurs, with the number of its attempts. *)
Definition tallies (progressData : list Progress.Entry) (acc : list (string * nat)) : Prop :=
  List.NoDup (List.map fst acc)
  /\ forall k n, In (k, n) acc <-> (n = attempts_of k progressData /\ (1 <= n)%nat).

Definition type_of (e : Progress.Entry) : string := a_type (Progress.e_attempt e).

(** [small] is no longer than [big] and made of characters of [big]. *)
Definition made_from (small big : string) : Prop :=
  (String.length small <= String.length big)%nat
  /\ forall c, In c (list_ascii_of_string small) -> In c (list_ascii_of_string big).

(** A question that is not a choice question and whose model answer is
    truthy without being a string: [q.modelAnswer.substring] is not a
    function. *)
Definition model_answer_not_text (q : Quiz.Question) : bool :=
  negb (Quiz.is_mcq q)
  && truthy (Quiz.q_modelAnswer q)
  && match Quiz.q_modelAnswer q with Some (JStr _) => false | _ => true end.

(** A response of the generation API whose first candidate carries the
    text [t] and the grounding attributions [attributions]. *)
Definition grounded_response (result t : json) (attributions : list json) : Prop :=
  exists candidate others content part parts metadata,
    get_named result "candidates" = Some (JArr (candidate :: others))
    /\ get_named candidate "content" = Some content
    /\ get_named content "parts" = Some (JArr (part :: parts))
    /\ get_named part "text" = Some t
    /\ truthy (Some t) = true
    /\ get_named candidate "groundingMetadata" = Some metadata
    /\ get_named metadata "groundingAttributions" = Some (JArr attributions)
    /\ List.Forall (fun attr => attr <> JNull) attributions.

(** The citation of an attribution: the address and the title of its
    [web] entry; the citations kept are those with an address. *)
Definition citation (attr : json) : Source :=
  mkSource (opt_member (get_named attr "web") "uri")
           (opt_member (get_named attr "web") "title").

Definition citations (attributions : list json) : list Source :=
  List.filter (fun source => truthy (uri source)) (List.map citation attributions).

End Vocabulary2.

(** ** More concrete inputs *)

Module Fixtures2.
Import JS Effects Gemini Vocabulary Fixtures Vocabulary2.

(** Three recommendations: a YouTube address, another address, and an
    entry without address. *)
Definition physics_video : json :=
  JObj [("title", JStr "What is physics?"); ("url", JStr "https://youtu.be/abc")].

Definition three_videos : json :=
  JArr [physics_video;
        JObj [("title", JStr "A lecture"); ("url", JStr "https://example.org/lecture")];
        JObj [("title", JStr "No address")]].

Definition answers_three_videos : Platform :=
  scripted [Responded 200 (Some (candidate (JSONText.stringify three_videos)))].

(** A response whose first question carries no [correctAnswer], and one
    whose short question has a number for model answer. *)
Definition unkeyed_choices : json :=
  JObj [("quizTitle", JStr "Physical World");
        ("questions",
         JArr [JObj [("type", JStr "mcq"); ("question", JStr "Pick one.");
                     ("options", JArr [JStr "A"; JStr "B"; JStr "C"; JStr "D"]);
                     ("explanation", JStr "Because.")];
               asked_choice "B"])].

Definition answers_unkeyed_choices : Platform :=
  scripted [Responded 200 (Some (candidate (JSONText.stringify unkeyed_choices)))].

Definition numbered_model_answer : Quiz.State :=
  Quiz.mkState
    (Some (Quiz.mkQuizData (Some (JStr "Physical World"))
             [short "q0";
              Quiz.mkQuestion "q1" (Some (JStr "saq")) (Some (JStr "How many laws?"))
                None None (Some (JNum 3)) (Some (JStr "See section 1.2.")) ""]))
    ∅ false saq false 0 "".

(** The same session once the pending send has settled with the fixed
    reply of [fetchChatResponse]. *)
Definition first_answered : Chat.View :=
  Chat.run [Chat.Settle (Ok (Some connection_trouble))] second_thread_waiting.

(** A document of 2800 characters. *)
Definition long_document : string :=
  (Documents.MOCK_NCERT_TEXT ++ Documents.MOCK_NCERT_TEXT)%string.

Definition notes_pdf : Documents.Pdf :=
  Documents.mkPdf "notes.pdf" "blob:notes" Documents.User.

(** A file is chosen and, before its extraction ends, the built-in
    document is selected again. *)
Definition upload_then_builtin : list Documents.extractor_event :=
  [Documents.Changes (Some Documents.builtin); Documents.Changes (Some notes_pdf);
   Documents.Changes (Some Documents.builtin)].

(** Two files are chosen one after the other, then the built-in
    document is selected. *)
Definition two_uploads : Documents.State :=
  Documents.handlePdfSelect Documents.builtin
    (Documents.handleFileUpload (Some ("second.pdf", "blob:second"))
       (Documents.handleFileUpload (Some ("notes.pdf", "blob:notes")) Documents.initial)).

(** A collection of two attempts, and a later one. *)
Definition two_attempts : list Progress.StoredDoc :=
  [Progress.mkStoredDoc "a" (mkAttempt "mcq" 3 5 100 (Some (JStr "Physical World"))) "a";
   Progress.mkStoredDoc "b" (mkAttempt "saq" 1 5 200 (Some (JStr "Physical World"))) "b"].

Definition third_attempt : Attempt := mkAttempt "mcq" 5 5 300 (Some (JStr "Physical World")).

(** Three attempts: two of multiple choice, one of short answers. *)
Definition three_entries : list Progress.Entry :=
  [Progress.mkEntry "c" third_attempt;
   Progress.mkEntry "b" (mkAttempt "saq" 1 5 200 (Some (JStr "Physical World")));
   Progress.mkEntry "a" (mkAttempt "mcq" 3 5 100 (Some (JStr "Physical World")))].

(** A text whose first line names its chapter. *)
Definition chapter_text : string :=
  ("Chapter 1: Physical World" ++ newline ++ "1.1 What is Physics?")%string.

End Fixtures2.

(** * Properties *)

Import JS Effects Gemini Vocabulary Fixtures Vocabulary2 Fixtures2.
Local Open Scope list_scope.

(** ** The trace of effects *)

Lemma requests_app (l l' : Log) : requests (l ++ l') = requests l ++ requests l'.
Proof. apply flat_map_app. Qed.

Lemma timers_app (l l' : Log) : timers (l ++ l') = timers l ++ timers l'.
Proof. apply flat_map_app. Qed.

Lemma alerts_app (l l' : Log) : alerts (l ++ l') = alerts l ++ alerts l'.
Proof. apply flat_map_app. Qed.

Lemma console_app (l l' : Log) : console (l ++ l') = console l ++ console l'.
Proof. apply flat_map_app. Qed.

Lemma saved_app (l l' : Log) : saved (l ++ l') = saved l ++ saved l'.
Proof. apply flat_map_app. Qed.

Lemma uuids_app (l l' : Log) : uuids (l ++ l') = (uuids l + uuids l')%nat.
Proof. unfold uuids. rewrite List.filter_app, length_app. reflexivity. Qed.

Create Rewrite HintDb log.
#[local] Hint Rewrite requests_app timers_app alerts_app console_app saved_app uuids_app
  : log.

(** Splits a projection of a log that was extended, and computes the
    part that is known. *)
Ltac project_log :=
  unfold sent, backed_off, logged, alerted, exhausted in *;
  autorewrite with log in *; cbn in *;
  rewrite ?app_nil_r, ?Nat.add_0_r in *.

(** ** The retry loops *)

Section RetryLoops.
Context (P : Platform).

Lemma fetchQuiz_attempt_run (payload : Payload) (l : Log) :
  fetchQuiz_attempt P payload l
  = (quiz_attempt_of P (network P (length (requests l))), sent payload l).
Proof.
  unfold fetchQuiz_attempt, bind, fetch, lift, quiz_attempt_of, sent.
  destruct (network P (length (requests l))); reflexivity.
Qed.

Lemma fetchChat_attempt_run (payload : Payload) (l : Log) :
  fetchChat_attempt P payload l
  = (chat_attempt_of (network P (length (requests l))), sent payload l).
Proof.
  unfold fetchChat_attempt, bind, fetch, lift, chat_attempt_of, sent.
  destruct (network P (length (requests l))); reflexivity.
Qed.

(** One turn of the loop of [fetchQuiz]. *)
Lemma fetchQuiz_loop_turn (fuel i : nat) (payload : Payload) (l : Log) :
  (i < 3)%nat ->
  fetchQuiz_loop P (S fuel) i payload l
  = match quiz_attempt_of P (network P (length (requests l))) with
    | Ok parsed => (Ok (Some parsed), sent payload l)
    | Throw _ =>
        let label := ("Attempt " ++ string_of_nat (i + 1) ++ " failed:")%string in
        if (i =? 2)%nat
        then (Throw RetriesExhausted, logged label (sent payload l))
        else fetchQuiz_loop P fuel (i + 1) payload
               (backed_off label (2 ^ Z.of_nat i * 1000) (sent payload l))
    end.
Proof.
  intros Hi. cbn [fetchQuiz_loop].
  apply Nat.ltb_lt in Hi. rewrite Hi. cbn [negb].
  unfold try_catch, bind at 1. rewrite fetchQuiz_attempt_run.
  destruct (quiz_attempt_of P (network P (length (requests l)))) as [parsed|e]; [reflexivity|].
  unfold bind, console_log, sleep, emit, logged, backed_off, throw. cbn.
  destruct (i =? 2)%nat; [reflexivity|]. rewrite <- app_assoc. reflexivity.
Qed.

(** One turn of the loop of [fetchChatResponse]. *)
Lemma fetchChat_loop_turn (fuel i : nat) (payload : Payload) (l : Log) :
  (i < 3)%nat ->
  fetchChat_loop P (S fuel) i payload l
  = match chat_attempt_of (network P (length (requests l))) with
    | Ok r => (Ok (Some r), sent payload l)
    | Throw _ =>
        let label := ("Chat attempt " ++ string_of_nat (i + 1) ++ " failed:")%string in
        if (i =? 2)%nat
        then (Ok (Some connection_trouble), logged label (sent payload l))
        else fetchChat_loop P fuel (i + 1) payload
               (backed_off label (2 ^ Z.of_nat i * 1000) (sent payload l))
    end.
Proof.
  intros Hi. cbn [fetchChat_loop].
  apply Nat.ltb_lt in Hi. rewrite Hi. cbn [negb].
  unfold try_catch, bind at 1. rewrite fetchChat_attempt_run.
  destruct (chat_attempt_of (network P (length (requests l)))) as [r|e]; [reflexivity|].
  unfold bind, console_log, sleep, emit, logged, backed_off, ret. cbn.
  destruct (i =? 2)%nat; [reflexivity|]. rewrite <- app_assoc. reflexivity.
Qed.

(** The loop of [fetchQuiz] entered at [i] with enough fuel: it sends
    the payload [k] times, at most [3 - i], waits after each failed
    attempt but the last, touches nothing else, and ends with the value
    of a successful attempt or with the error of exhaustion. *)
Lemma fetchQuiz_loop_outcome (payload : Payload) (fuel : nat) :
  forall (i : nat) (l : Log),
    (i < 3)%nat -> (3 - i <= fuel)%nat ->
    exists r l' k,
      fetchQuiz_loop P fuel i payload l = (r, l')
      /\ (1 <= k)%nat /\ (i + k <= 3)%nat
      /\ requests l' = requests l ++ repeat payload k
      /\ timers l' = timers l ++ backoff_delays i (k - 1)
      /\ uuids l' = uuids l /\ alerts l' = alerts l /\ saved l' = saved l
      /\ (r = Throw RetriesExhausted
          \/ exists n parsed, r = Ok (Some parsed)
                             /\ quiz_attempt_of P (network P n) = Ok parsed).
Proof.
  induction fuel as [|fuel IH]; intros i l Hi Hfuel; [lia|].
  rewrite fetchQuiz_loop_turn by exact Hi.
  destruct (quiz_attempt_of P (network P (length (requests l)))) as [parsed|e] eqn:E.
  { do 2 eexists. exists 1%nat. split; [reflexivity|]. project_log.
    repeat split; eauto; lia. }
  cbn zeta. destruct (i =? 2)%nat eqn:E2.
  { do 2 eexists. exists 1%nat. split; [reflexivity|]. project_log.
    repeat split; auto; lia. }
  apply Nat.eqb_neq in E2.
  destruct (IH (i + 1)%nat
               (backed_off ("Attempt " ++ string_of_nat (i + 1) ++ " failed:")%string
                           (2 ^ Z.of_nat i * 1000) (sent payload l)))
    as (r & l' & k & -> & Hk1 & Hk3 & Hreq & Htim & Hu & Ha & Hs & Hr); [lia|lia|].
  exists r, l', (S k). split; [reflexivity|]. project_log.
  split; [lia|]. split; [lia|].
  split; [rewrite Hreq, <- app_assoc; reflexivity|].
  split; [|auto].
  rewrite Htim, <- app_assoc. f_equal.
  destruct k as [|k]; [lia|]. cbn. rewrite Nat.sub_0_r, Nat.add_1_r. reflexivity.
Qed.

(** The loop of [fetchChatResponse]: the same, but exhaustion gives the
    fixed response, so the loop always yields a response. *)
Lemma fetchChat_loop_outcome (payload : Payload) (fuel : nat) :
  forall (i : nat) (l : Log),
    (i < 3)%nat -> (3 - i <= fuel)%nat ->
    exists reply l' k,
      fetchChat_loop P fuel i payload l = (Ok (Some reply), l')
      /\ (1 <= k)%nat /\ (i + k <= 3)%nat
      /\ requests l' = requests l ++ repeat payload k
      /\ timers l' = timers l ++ backoff_delays i (k - 1)
      /\ uuids l' = uuids l /\ alerts l' = alerts l /\ saved l' = saved l
      /\ (reply = connection_trouble
          \/ exists n, chat_attempt_of (network P n) = Ok reply).
Proof.
  induction fuel as [|fuel IH]; intros i l Hi Hfuel; [lia|].
  rewrite fetchChat_loop_turn by exact Hi.
  destruct (chat_attempt_of (network P (length (requests l)))) as [reply|e] eqn:E.
  { do 2 eexists. exists 1%nat. split; [reflexivity|]. project_log.
    repeat split; eauto; lia. }
  cbn zeta. destruct (i =? 2)%nat eqn:E2.
  { do 2 eexists. exists 1%nat. split; [reflexivity|]. project_log.
    repeat split; auto; lia. }
  apply Nat.eqb_neq in E2.
  destruct (IH (i + 1)%nat
               (backed_off ("Chat attempt " ++ string_of_nat (i + 1) ++ " failed:")%string
                           (2 ^ Z.of_nat i * 1000) (sent payload l)))
    as (r & l' & k & -> & Hk1 & Hk3 & Hreq & Htim & Hu & Ha & Hs & Hr); [lia|lia|].
  exists r, l', (S k). split; [reflexivity|]. project_log.
  split; [lia|]. split; [lia|].
  split; [rewrite Hreq, <- app_assoc; reflexivity|].
  split; [|auto].
  rewrite Htim, <- app_assoc. f_equal.
  destruct k as [|k]; [lia|]. cbn. rewrite Nat.sub_0_r, Nat.add_1_r. reflexivity.
Qed.

End RetryLoops.

(** ** The structured generation client *)

Section ClientFacts.
Context (P : Platform).

(** After [n] failed attempts the next request is the one numbered
    [length (requests l) + n]. *)
Ltac next_request n :=
  match goal with
  | |- context [network P (length (requests ?trace))] =>
      replace (length (requests trace)) with n
        by (unfold sent, backed_off; autorewrite with log; rewrite ?length_app; cbn; lia)
  end.

Lemma fetchQuiz_exhausted (text : string) (type : QuizType) (l : Log) :
  (forall k, (k < 3)%nat ->
     failed (quiz_attempt_of P (network P (length (requests l) + k)))) ->
  fetchQuiz P text type l
  = (Throw RetriesExhausted,
     exhausted "Attempt 1 failed:" "Attempt 2 failed:" "Attempt 3 failed:"
               (quiz_payload text type) l).
Proof.
  intros Hfail.
  destruct (Hfail 0%nat ltac:(lia)) as [e0 H0].
  destruct (Hfail 1%nat ltac:(lia)) as [e1 H1].
  destruct (Hfail 2%nat ltac:(lia)) as [e2 H2].
  unfold fetchQuiz.
  rewrite fetchQuiz_loop_turn by lia.
  next_request (length (requests l) + 0)%nat. rewrite H0. cbn [Nat.eqb Nat.add].
  rewrite fetchQuiz_loop_turn by lia.
  next_request (length (requests l) + 1)%nat. rewrite H1. cbn [Nat.eqb Nat.add].
  rewrite fetchQuiz_loop_turn by lia.
  next_request (length (requests l) + 2)%nat. rewrite H2.
  unfold exhausted, logged, sent, backed_off. rewrite <- !app_assoc. reflexivity.
Qed.

Lemma fetchChat_exhausted (history : list Message) (currentMessage pdfText : string)
      (l : Log) :
  (forall k, (k < 3)%nat ->
     failed (chat_attempt_of (network P (length (requests l) + k)))) ->
  fetchChatResponse P history currentMessage pdfText l
  = (Ok (Some connection_trouble),
     exhausted "Chat attempt 1 failed:" "Chat attempt 2 failed:" "Chat attempt 3 failed:"
               (chat_payload history currentMessage pdfText) l).
Proof.
  intros Hfail.
  destruct (Hfail 0%nat ltac:(lia)) as [e0 H0].
  destruct (Hfail 1%nat ltac:(lia)) as [e1 H1].
  destruct (Hfail 2%nat ltac:(lia)) as [e2 H2].
  unfold fetchChatResponse.
  rewrite fetchChat_loop_turn by lia.
  next_request (length (requests l) + 0)%nat. rewrite H0. cbn [Nat.eqb Nat.add].
  rewrite fetchChat_loop_turn by lia.
  next_request (length (requests l) + 1)%nat. rewrite H1. cbn [Nat.eqb Nat.add].
  rewrite fetchChat_loop_turn by lia.
  next_request (length (requests l) + 2)%nat. rewrite H2.
  unfold exhausted, logged, sent, backed_off. rewrite <- !app_assoc. reflexivity.
Qed.

(** Whatever the network answers, [fetchQuiz] sends its payload one to
    three times. *)
Lemma fetchQuiz_outcome (text : string) (type : QuizType) (l : Log) :
  exists r l' k,
    fetchQuiz P text type l = (r, l')
    /\ (1 <= k <= 3)%nat
    /\ requests l' = requests l ++ repeat (quiz_payload text type) k
    /\ timers l' = timers l ++ backoff_delays 0 (k - 1)
    /\ uuids l' = uuids l /\ alerts l' = alerts l /\ saved l' = saved l
    /\ (r = Throw RetriesExhausted
        \/ exists n parsed, r = Ok (Some parsed)
                           /\ quiz_attempt_of P (network P n) = Ok parsed).
Proof.
  destruct (fetchQuiz_loop_outcome P (quiz_payload text type) 3 0 l)
    as (r & l' & k & Hrun & Hk1 & Hk3 & Hrest); [lia|lia|].
  exists r, l', k. split; [exact Hrun|]. split; [lia|exact Hrest].
Qed.

(** [fetchChatResponse] always resolves to a response: it sends its
    payload one to three times and touches nothing else. *)
Lemma fetchChatResponse_outcome (history : list Message) (currentMessage pdfText : string)
      (l : Log) :
  exists reply l' k,
    fetchChatResponse P history currentMessage pdfText l = (Ok (Some reply), l')
    /\ (1 <= k <= 3)%nat
    /\ requests l' = requests l ++ repeat (chat_payload history currentMessage pdfText) k
    /\ timers l' = timers l ++ backoff_delays 0 (k - 1)
    /\ uuids l' = uuids l /\ alerts l' = alerts l /\ saved l' = saved l
    /\ (reply = connection_trouble
        \/ exists n, chat_attempt_of (network P n) = Ok reply).
Proof.
  destruct (fetchChat_loop_outcome P (chat_payload history currentMessage pdfText) 3 0 l)
    as (r & l' & k & Hrun & Hk1 & Hk3 & Hrest); [lia|lia|].
  exists r, l', k. split; [exact Hrun|]. split; [lia|exact Hrest].
Qed.

End ClientFacts.

(** C5, as the code has it.  Whatever the network answers, [fetchQuiz]
    and [fetchChatResponse] send the request one to three times and,
    between two attempts, wait 1000 ms the first time and 2000 ms the
    second; no third delay is ever awaited.  When each of the three
    attempts fails, whatever the failure, the request has been sent
    exactly three times, with both delays, and then [fetchChatResponse]
    returns its fixed reply while [fetchQuiz] throws the error "Failed to
    generate quiz after multiple retries." to its caller. *)
Theorem retry_exhaustion (P : Platform) (text : string) (type : QuizType)
        (history : list Message) (currentMessage pdfText : string) (l : Log) :
  (exists r l' k,
     fetchQuiz P text type l = (r, l')
     /\ (1 <= k <= 3)%nat
     /\ requests l' = requests l ++ repeat (quiz_payload text type) k
     /\ timers l' = timers l ++ firstn (k - 1) [1000; 2000]%Z)
  /\
  (exists reply l' k,
     fetchChatResponse P history currentMessage pdfText l = (Ok (Some reply), l')
     /\ (1 <= k <= 3)%nat
     /\ requests l' = requests l ++ repeat (chat_payload history currentMessage pdfText) k
     /\ timers l' = timers l ++ firstn (k - 1) [1000; 2000]%Z)
  /\
  ((forall k, (k < 3)%nat ->
      failed (quiz_attempt_of P (network P (length (requests l) + k)))) ->
   fetchQuiz P text type l
   = (Throw RetriesExhausted,
      exhausted "Attempt 1 failed:" "Attempt 2 failed:" "Attempt 3 failed:"
                (quiz_payload text type) l))
  /\
  ((forall k, (k < 3)%nat ->
      failed (chat_attempt_of (network P (length (requests l) + k)))) ->
   fetchChatResponse P history currentMessage pdfText l
   = (Ok (Some connection_trouble),
      exhausted "Chat attempt 1 failed:" "Chat attempt 2 failed:" "Chat attempt 3 failed:"
                (chat_payload history currentMessage pdfText) l)).
Proof.
  assert (forall k, (1 <= k <= 3)%nat -> backoff_delays 0 (k - 1) = firstn (k - 1) [1000; 2000]%Z)
    as Hdelays.
  { intros k Hk. destruct k as [|[|[|[|k]]]]; try lia; reflexivity. }
  split; [|split; [|split]].
  - destruct (fetchQuiz_outcome P text type l) as (r & l' & k & Hrun & Hk & Hreq & Htim & _).
    exists r, l', k. rewrite <- (Hdelays k Hk). auto.
  - destruct (fetchChatResponse_outcome P history currentMessage pdfText l)
      as (r & l' & k & Hrun & Hk & Hreq & Htim & _).
    exists r, l', k. rewrite <- (Hdelays k Hk). auto.
  - apply fetchQuiz_exhausted.
  - apply fetchChat_exhausted.
Qed.

(** The text of the one-question response reads back as that response. *)
Example lone_question_text :
  JSONText.decode (JSONText.stringify lone_question) = Some lone_question
  /\ quiz_attempt_of answers_lone_question (network answers_lone_question 0) = Ok lone_question.
Proof. split; vm_compute; reflexivity. Qed.

Lemma retry_exhaustion_witness :
  fetchQuiz three_failures "Physics" saq empty_log
  = (Throw RetriesExhausted,
     exhausted "Attempt 1 failed:" "Attempt 2 failed:" "Attempt 3 failed:"
               (quiz_payload "Physics" saq) empty_log)
  /\ fetchChatResponse three_failures [] "What is physics?" "Physics" empty_log
     = (Ok (Some connection_trouble),
        exhausted "Chat attempt 1 failed:" "Chat attempt 2 failed:" "Chat attempt 3 failed:"
                  (chat_payload [] "What is physics?" "Physics") empty_log).
Proof.
  split.
  - apply (proj1 (proj2 (proj2
             (retry_exhaustion three_failures "Physics" saq [] "" "" empty_log)))).
    intros k Hk. destruct k as [|[|[|k]]]; [eexists; reflexivity ..| lia].
  - apply (proj2 (proj2 (proj2
             (retry_exhaustion three_failures "" mcq [] "What is physics?" "Physics"
                               empty_log)))).
    intros k Hk. destruct k as [|[|[|k]]]; [eexists; reflexivity ..| lia].
Defined.

(** C5 as stated fails: with no network, [fetchQuiz] does not return a
    failure value but throws, and the only delays awaited are 1000 ms and
    2000 ms. *)
Lemma fetchQuiz_throws_when_exhausted :
  fetchQuiz offline "Physics" mcq empty_log
  = (Throw RetriesExhausted,
     [Fetched (quiz_payload "Physics" mcq); Logged "Attempt 1 failed:"; Waited 1000;
      Fetched (quiz_payload "Physics" mcq); Logged "Attempt 2 failed:"; Waited 2000;
      Fetched (quiz_payload "Physics" mcq); Logged "Attempt 3 failed:"]).
Proof. vm_compute. reflexivity. Qed.

(** ** The quiz engine *)

Section QuizFacts.
Context (P : Platform).

Lemma draws_silent (k : nat) :
  requests (repeat DrewUUID k) = [] /\ timers (repeat DrewUUID k) = []
  /\ alerts (repeat DrewUUID k) = [] /\ console (repeat DrewUUID k) = []
  /\ saved (repeat DrewUUID k) = [] /\ uuids (repeat DrewUUID k) = k.
Proof.
  induction k as [|k (Hr & Ht & Ha & Hc & Hs & Hu)]; [repeat split|].
  repeat split; cbn; auto.
Qed.

Lemma withId_run (q : json) (l : Log) :
  exists r,
    Quiz.withId P q l = (r, l ++ [DrewUUID])
    /\ forall question,
         r = Ok question ->
         mirrors question q /\ Quiz.q_id question = randomUUID_at P (uuids l).
Proof.
  unfold Quiz.withId, bind, randomUUID, lift, ret.
  destruct q; cbn; eexists; (split; [reflexivity|]);
    intros question [=]; subst; repeat split.
Qed.

(** [result.questions.map(...)]: one identifier is drawn for each element
    reached; when no element throws, the questions mirror the elements
    and carry the identifiers drawn, in order. *)
Lemma mapM_withId_run (items : list json) (l : Log) :
  exists r k,
    mapM (Quiz.withId P) items l = (r, l ++ repeat DrewUUID k)
    /\ forall listed,
         r = Ok listed ->
         Forall2 mirrors listed items
         /\ List.map Quiz.q_id listed
            = List.map (fun j => randomUUID_at P (uuids l + j)) (seq 0 (length items)).
Proof.
  revert l. induction items as [|q items IH]; intros l.
  - exists (Ok []), 0%nat. cbn. rewrite app_nil_r. split; [reflexivity|].
    intros listed [=]; subst. split; constructor.
  - cbn [mapM]. unfold bind at 1.
    destruct (withId_run q l) as (r & -> & Hq).
    destruct r as [question|e].
    + unfold bind at 1.
      destruct (IH (l ++ [DrewUUID])) as (r2 & k & -> & Hrest).
      rewrite <- app_assoc. change ([DrewUUID] ++ repeat DrewUUID k) with (repeat DrewUUID (S k)).
      destruct r2 as [rest|e]; do 2 eexists; (split; [reflexivity|]).
      * intros listed [=]; subst.
        destruct (Hq question eq_refl) as [Hm Hid].
        destruct (Hrest rest eq_refl) as [Hms Hids].
        split; [constructor; auto|].
        cbn [List.map length seq]. rewrite Hid, Hids, Nat.add_0_r. f_equal.
        rewrite <- seq_shift, List.map_map. apply List.map_ext. intros j.
        rewrite uuids_app. cbn. f_equal. lia.
      * intros listed [=].
    + exists (Throw e), 1%nat. split; [reflexivity|]. intros listed [=].
Qed.

(** The [try] block of [handleGenerate]: what it sends, what it leaves
    alone, and what a successful run has stored. *)
Lemma generate_body_run (text : string) (type : QuizType) (s : Quiz.State) (l : Log) :
  exists r l',
    Quiz.generate_body P text type s l = (r, l')
    /\ (exists more, requests l' = requests l ++ quiz_payload text type :: more)
    /\ alerts l' = alerts l /\ saved l' = saved l
    /\ forall s2, r = Ok s2 ->
         exists n parsed items listed,
           quiz_attempt_of P (network P n) = Ok parsed
           /\ get_named parsed "questions" = Some (JArr items)
           /\ Forall2 mirrors listed items
           /\ List.map Quiz.q_id listed
              = List.map (fun j => randomUUID_at P (uuids l + j)) (seq 0 (length items))
           /\ s2 = Quiz.setCurrentAnswers ∅
                     (Quiz.setQuizData
                        (Some (Quiz.mkQuizData (get_named parsed "quizTitle") listed)) s).
Proof.
  unfold Quiz.generate_body. unfold bind at 1.
  destruct (fetchQuiz_outcome P text type l)
    as (r & l1 & k & -> & Hk & Hreq0 & _ & Hu & Ha & Hs & Hr).
  assert (exists more, requests l1 = requests l ++ quiz_payload text type :: more) as Hreq.
  { destruct k as [|k]; [lia|]. exists (repeat (quiz_payload text type) k). exact Hreq0. }
  destruct Hr as [-> | (n & parsed & -> & Hparsed)].
  { do 2 eexists. split; [reflexivity|]. repeat split; auto. intros s2 [=]. }
  unfold bind at 1, lift.
  destruct (member (Some parsed) "questions") as [listed|e] eqn:Hm.
  2:{ do 2 eexists. split; [reflexivity|]. repeat split; auto. intros s2 [=]. }
  assert (listed = get_named parsed "questions" /\ opt_member (Some parsed) "quizTitle"
                                                  = get_named parsed "quizTitle") as [-> Ht].
  { destruct parsed; cbn in Hm; try discriminate; injection Hm as <-; split; reflexivity. }
  unfold bind at 1, js_mapM.
  destruct (get_named parsed "questions") as [[| | | |items|]|] eqn:Hq;
    try (do 2 eexists; split; [reflexivity|]; repeat split; auto; intros s2 [=]; fail).
  destruct (mapM_withId_run items l1) as (r & drawn & -> & Hmirror).
  destruct (draws_silent drawn) as (Hq1 & _ & Hq3 & _ & Hq5 & _).
  destruct r as [listed|e]; do 2 eexists; (split; [reflexivity|]);
    autorewrite with log; rewrite Hq1, Hq3, Hq5, !app_nil_r;
    (split; [exact Hreq|]); (split; [congruence|]); (split; [congruence|]).
  - intros s2 [=]; subst s2. exists n, parsed, items, listed.
    destruct (Hmirror listed eq_refl) as [Hms Hids].
    rewrite Hu in Hids.
    repeat split; auto.
    destruct parsed; cbn in Hm; try discriminate; reflexivity.
  - intros s2 [=].
Qed.

Lemma handleGenerate_not_ready (p : Quiz.Props) (s : Quiz.State) (l : Log) :
  Quiz.isQuizReady p = false ->
  Quiz.handleGenerate P p s l
  = (Ok s, logged "PDF text is not available or too short." l).
Proof. intros H. unfold Quiz.handleGenerate. rewrite H. reflexivity. Qed.

Lemma handleGenerate_ready (p : Quiz.Props) (s : Quiz.State) (l : Log) :
  Quiz.isQuizReady p = true ->
  Quiz.handleGenerate P p s l
  = match Quiz.generate_body P (Quiz.pdfText p) (Quiz.quizType s) (loading s) l with
    | (Ok s2, l2) => (Ok (Quiz.setQuizLoading false s2), l2)
    | (Throw _, l2) =>
        (Ok (cleared s), alerted generation_alert (logged "Quiz generation failed:" l2))
    end.
Proof.
  intros H. unfold Quiz.handleGenerate. rewrite H. cbn [negb].
  unfold bind at 1, try_catch.
  change (Quiz.setExplanation "" (Quiz.setScore 0 (Quiz.setIsSubmitted false
            (Quiz.setQuizData None (Quiz.setQuizLoading true s))))) with (loading s).
  destruct (Quiz.generate_body P (Quiz.pdfText p) (Quiz.quizType s) (loading s) l)
    as [[s2|e] l2]; reflexivity.
Qed.

Lemma isQuizReady_iff (p : Quiz.Props) :
  Quiz.isQuizReady p = true
  <-> Quiz.pdfLoading p = false /\ (50 < String.length (Quiz.pdfText p))%nat.
Proof.
  unfold Quiz.isQuizReady. rewrite !andb_true_iff, !negb_true_iff, Nat.ltb_lt.
  split.
  - tauto.
  - intros [Hl Hlen]. repeat split; auto.
    destruct (Quiz.pdfText p); [cbn in Hlen; lia | reflexivity].
Qed.

End QuizFacts.

(** C1, as the code has it.  A call of [handleGenerate] on a document of
    at most 50 characters (40, and 50 itself), or while the text is still
    being extracted, returns at once: the state is the one it was called
    in and no request is sent.  On a document of more than 50 characters
    whose extraction has finished, the gate passes and generation
    proceeds: the quiz request for that document is sent. *)
Theorem readiness_gate (P : Platform) (p : Quiz.Props) (s : Quiz.State) (l : Log) :
  (((String.length (Quiz.pdfText p) <= 50)%nat \/ Quiz.pdfLoading p = true) ->
   Quiz.handleGenerate P p s l
   = (Ok s, logged "PDF text is not available or too short." l)
   /\ requests (snd (Quiz.handleGenerate P p s l)) = requests l)
  /\
  ((50 < String.length (Quiz.pdfText p))%nat -> Quiz.pdfLoading p = false ->
   exists s' l' more,
     Quiz.handleGenerate P p s l = (Ok s', l')
     /\ requests l' = requests l ++ quiz_payload (Quiz.pdfText p) (Quiz.quizType s) :: more).
Proof.
  split.
  - intros Hshort.
    assert (Quiz.isQuizReady p = false) as Hnot.
    { destruct (Quiz.isQuizReady p) eqn:E; [|reflexivity].
      apply isQuizReady_iff in E. destruct E as [Hl Hlen].
      destruct Hshort as [Hshort|Hload]; [lia|congruence]. }
    rewrite (handleGenerate_not_ready P p s l Hnot). split; [reflexivity|].
    cbn [snd]. unfold logged. rewrite requests_app. apply app_nil_r.
  - intros Hlen Hload.
    assert (Quiz.isQuizReady p = true) as Hready by (apply isQuizReady_iff; auto).
    rewrite (handleGenerate_ready P p s l Hready).
    destruct (generate_body_run P (Quiz.pdfText p) (Quiz.quizType s) (loading s) l)
      as (r & l2 & -> & [more Hreq] & _).
    destruct r as [s2|e]; do 3 eexists; (split; [reflexivity|]);
      unfold alerted, logged; autorewrite with log; cbn; rewrite ?app_nil_r; exact Hreq.
Qed.

Lemma readiness_gate_witness :
  (Quiz.handleGenerate offline (Quiz.mkProps doc40 false) Quiz.initial empty_log
   = (Ok Quiz.initial, logged "PDF text is not available or too short." empty_log)
   /\ requests (snd (Quiz.handleGenerate offline (Quiz.mkProps doc40 false) Quiz.initial
                                         empty_log)) = requests empty_log)
  /\ (exists s' l' more,
        Quiz.handleGenerate offline (Quiz.mkProps doc51 false) Quiz.initial empty_log
        = (Ok s', l')
        /\ requests l' = requests empty_log ++ quiz_payload doc51 mcq :: more).
Proof.
  split.
  - apply (proj1 (readiness_gate offline (Quiz.mkProps doc40 false) Quiz.initial empty_log)).
    left. cbn. lia.
  - apply (proj2 (readiness_gate offline (Quiz.mkProps doc51 false) Quiz.initial empty_log)).
    + cbn. lia.
    + reflexivity.
Defined.

(** C1 as stated fails on a document of exactly 50 characters: the gate
    does not pass and nothing is sent. *)
Lemma fifty_characters_not_ready :
  String.length doc50 = 50%nat
  /\ Quiz.isQuizReady (Quiz.mkProps doc50 false) = false
  /\ Quiz.handleGenerate offline (Quiz.mkProps doc50 false) Quiz.initial empty_log
     = (Ok Quiz.initial, logged "PDF text is not available or too short." empty_log)
  /\ requests (snd (Quiz.handleGenerate offline (Quiz.mkProps doc50 false) Quiz.initial
                                        empty_log)) = [].
Proof. repeat split. Qed.




(** C3, as the code has it.  The response is stored as it comes: a
    generated set has one question for each element of the [questions]
    array that the response text decodes to, in the same order, with the
    type, prompt, options, answers and explanation that element carried
    (or none), the title the response carried, and identifiers drawn
    locally.  The numbers 3, 3 and 2, and the 4 options, are asked for in
    the instruction and not checked on the response. *)
Theorem generated_set_mirrors_response (P : Platform) (p : Quiz.Props) (s s' : Quiz.State)
        (l l' : Log) (qd : Quiz.QuizData) :
  Quiz.isQuizReady p = true ->
  Quiz.handleGenerate P p s l = (Ok s', l') ->
  Quiz.quizData s' = Some qd ->
  exists n parsed items,
    quiz_attempt_of P (network P n) = Ok parsed
    /\ get_named parsed "questions" = Some (JArr items)
    /\ Quiz.quizTitle qd = get_named parsed "quizTitle"
    /\ Forall2 mirrors (Quiz.questions qd) items
    /\ length (Quiz.questions qd) = length items
    /\ List.map Quiz.q_id (Quiz.questions qd)
       = List.map (fun j => randomUUID_at P (uuids l + j)) (seq 0 (length items)).
Proof.
  intros Hready Hrun Hqd.
  rewrite (handleGenerate_ready P p s l Hready) in Hrun.
  destruct (generate_body_run P (Quiz.pdfText p) (Quiz.quizType s) (loading s) l)
    as (r & l2 & Hbody & _ & _ & _ & Hok).
  rewrite Hbody in Hrun. destruct r as [s2|e].
  - injection Hrun as <- <-.
    destruct (Hok s2 eq_refl) as (n & parsed & items & listed & Hp & Hq & Hm & Hids & ->).
    cbn in Hqd. injection Hqd as <-.
    exists n, parsed, items. cbn. repeat split; auto.
    eapply Forall2_length; eauto.
  - injection Hrun as <- <-. cbn in Hqd. discriminate.
Qed.

Lemma generated_set_mirrors_response_witness :
  exists n parsed items,
    quiz_attempt_of answers_lone_question (network answers_lone_question n) = Ok parsed
    /\ get_named parsed "questions" = Some (JArr items)
    /\ Some (JStr "Physical World") = get_named parsed "quizTitle"
    /\ Forall2 mirrors
         [Quiz.mkQuestion "q0" (Some (JStr "mcq")) (Some (JStr "What is physics?"))
            (Some (JArr [JStr "A science"; JStr "An art"])) (Some (JStr "A sport"))
            None (Some (JStr "See section 1.1.")) ""]
         items
    /\ 1%nat = length items
    /\ ["q0"%string]
       = List.map (fun j => randomUUID_at answers_lone_question (uuids empty_log + j))
                  (seq 0 (length items)).
Proof.
  apply (generated_set_mirrors_response answers_lone_question (Quiz.mkProps doc51 false)
           Quiz.initial
           (Quiz.mkState
              (Some (Quiz.mkQuizData (Some (JStr "Physical World"))
                       [Quiz.mkQuestion "q0" (Some (JStr "mcq")) (Some (JStr "What is physics?"))
                          (Some (JArr [JStr "A science"; JStr "An art"]))
                          (Some (JStr "A sport")) None (Some (JStr "See section 1.1.")) ""]))
              ∅ false mcq false 0 "")
           empty_log
           [Fetched (quiz_payload doc51 mcq); DrewUUID]
           (Quiz.mkQuizData (Some (JStr "Physical World"))
              [Quiz.mkQuestion "q0" (Some (JStr "mcq")) (Some (JStr "What is physics?"))
                 (Some (JArr [JStr "A science"; JStr "An art"]))
                 (Some (JStr "A sport")) None (Some (JStr "See section 1.1.")) ""])).
  - reflexivity.
  - vm_compute. reflexivity.
  - reflexivity.
Defined.

(** C3 as stated fails: a choice request answered with one question of
    two options, whose answer is none of them, yields that set. *)
Lemma one_question_two_options_accepted :
  exists s' l' q,
    Quiz.handleGenerate answers_lone_question (Quiz.mkProps doc51 false) Quiz.initial empty_log
    = (Ok s', l')
    /\ Quiz.quizType Quiz.initial = mcq
    /\ Quiz.quizData s' = Some (Quiz.mkQuizData (Some (JStr "Physical World")) [q])
    /\ Quiz.q_type q = Some (JStr "mcq")
    /\ Quiz.q_options q = Some (JArr [JStr "A science"; JStr "An art"])
    /\ Quiz.q_correctAnswer q = Some (JStr "A sport").
Proof.
  do 3 eexists. split; [vm_compute; reflexivity|].
  repeat split.
Qed.

Lemma grade_run (answers : gmap string string) (qs : list Quiz.Question) :
  (forall q, In q qs -> Quiz.is_mcq q = false -> modelAnswer_is_text q) ->
  forall index correctCount feedback,
  exists feedback',
    Quiz.grade answers qs index correctCount feedback
    = Ok ((correctCount + length (correct_ones answers qs))%nat, feedback').
Proof.
  induction qs as [|q qs IH]; intros Htext index correctCount feedback.
  - eexists. cbn. rewrite Nat.add_0_r. reflexivity.
  - cbn [Quiz.grade].
    assert (exists lines, Quiz.feedback_of index (answers !! Quiz.q_id q) q = Ok lines)
      as [lines ->].
    { unfold Quiz.feedback_of. destruct (Quiz.is_mcq q) eqn:Emcq; [eexists; reflexivity|].
      unfold Quiz.modelAnswer_shown.
      destruct (truthy (Quiz.q_modelAnswer q)) eqn:Et; [|eexists; reflexivity].
      destruct (Htext q (or_introl eq_refl) Emcq Et) as [m ->]. eexists; reflexivity. }
    destruct (IH (fun q' Hin => Htext q' (or_intror Hin)) (S index)
                 (if Quiz.isCorrect (answers !! Quiz.q_id q) q
                  then S correctCount else correctCount)
                 (feedback ++ lines)%string) as [feedback' ->].
    exists feedback'. unfold correct_ones. cbn [List.filter].
    destruct (Quiz.isCorrect (answers !! Quiz.q_id q) q); cbn [length];
      do 2 f_equal; lia.
Qed.

Lemma grade_throws (answers : gmap string string) (qs : list Quiz.Question)
      (q : Quiz.Question) :
  In q qs -> Quiz.modelAnswer_shown q = Throw TypeError -> Quiz.is_mcq q = false ->
  forall index correctCount feedback,
    Quiz.grade answers qs index correctCount feedback = Throw TypeError.
Proof.
  intros Hin Hbad Hmcq.
  induction qs as [|q0 qs IH]; [destruct Hin|]. intros index c fb. cbn [Quiz.grade].
  destruct (Quiz.feedback_of index (answers !! Quiz.q_id q0) q0) as [lines|e] eqn:Hf.
  - destruct Hin as [->|Hin]; [|apply IH, Hin].
    unfold Quiz.feedback_of in Hf. rewrite Hmcq, Hbad in Hf. discriminate.
  - unfold Quiz.feedback_of in Hf.
    destruct (Quiz.is_mcq q0); [discriminate|].
    unfold Quiz.modelAnswer_shown in Hf.
    destruct (truthy (Quiz.q_modelAnswer q0)); [|discriminate].
    destruct (Quiz.q_modelAnswer q0) as [[| | | | |]|]; try discriminate;
      injection Hf as <-; reflexivity.
Qed.

Lemma not_text_question (qs : list Quiz.Question) :
  existsb model_answer_not_text qs = true ->
  exists q, In q qs /\ Quiz.is_mcq q = false /\ Quiz.modelAnswer_shown q = Throw TypeError.
Proof.
  intros H. apply existsb_exists in H. destruct H as (q & Hin & Hq).
  unfold model_answer_not_text in Hq.
  apply andb_true_iff in Hq. destruct Hq as [Hq Hshape].
  apply andb_true_iff in Hq. destruct Hq as [Hmcq Htruthy].
  apply negb_true_iff in Hmcq.
  exists q. split; [exact Hin|]. split; [exact Hmcq|].
  unfold Quiz.modelAnswer_shown. rewrite Htruthy.
  destruct (Quiz.q_modelAnswer q) as [[| | | m | |]|]; try reflexivity. discriminate.
Qed.

Lemma all_text_questions (qs : list Quiz.Question) :
  existsb model_answer_not_text qs = false ->
  forall q, In q qs -> Quiz.is_mcq q = false -> modelAnswer_is_text q.
Proof.
  intros H q Hin Hmcq Htruthy.
  destruct (Quiz.q_modelAnswer q) as [[| | | m | |]|] eqn:Hm; eauto; exfalso;
    (assert (existsb model_answer_not_text qs = true) as Hbad; [|congruence]);
    apply existsb_exists; exists q; (split; [exact Hin|]);
    unfold model_answer_not_text; rewrite Hmcq, Hm, Htruthy; reflexivity.
Qed.

(** What [handleSubmit] does on a question set that is not empty: it
    throws, before any state is set, when a question that is not a
    choice question carries a model answer that is not text; otherwise
    it sets the score, the feedback and the flag and hands one attempt
    to [saveProgress]. *)
Lemma handleSubmit_outcome (now : Z) (s : Quiz.State) (qd : Quiz.QuizData) (l : Log) :
  Quiz.quizData s = Some qd ->
  Quiz.questions qd <> [] ->
  if existsb model_answer_not_text (Quiz.questions qd)
  then Quiz.handleSubmit now s l = (Throw TypeError, l)
  else exists feedback,
      Quiz.handleSubmit now s l
      = (Ok (Quiz.setIsSubmitted true
               (Quiz.setExplanation feedback
                  (Quiz.setScore
                     (length (correct_ones (Quiz.currentAnswers s) (Quiz.questions qd))) s))),
         l ++ [Saved (mkAttempt (quizType_value (Quiz.quizType s))
                        (length (correct_ones (Quiz.currentAnswers s) (Quiz.questions qd)))
                        (length (Quiz.questions qd)) now (Quiz.quizTitle qd))]).
Proof.
  intros Hqd Hne.
  destruct (existsb model_answer_not_text (Quiz.questions qd)) eqn:Hbad.
  - destruct (not_text_question _ Hbad) as (q & Hin & Hmcq & Hshown).
    unfold Quiz.handleSubmit, Quiz.hasQuiz. rewrite Hqd.
    destruct (Quiz.questions qd) as [|q0 qs] eqn:Hqs; [congruence|].
    cbn [length Nat.ltb Nat.leb negb]. unfold bind, lift.
    rewrite (grade_throws _ _ q Hin Hshown Hmcq). reflexivity.
  - pose proof (all_text_questions _ Hbad) as Htext.
    unfold Quiz.handleSubmit, Quiz.hasQuiz. rewrite Hqd.
    destruct (Quiz.questions qd) as [|q0 qs] eqn:Hqs; [congruence|].
    cbn [length Nat.ltb Nat.leb negb]. unfold bind at 1, lift.
    destruct (grade_run (Quiz.currentAnswers s) (q0 :: qs) Htext 0%nat 0%nat
                ("Quiz: " ++ show (Quiz.quizTitle qd) ++ " ("
                 ++ toUpperCase (quizType_value (Quiz.quizType s)) ++ ")"
                 ++ newline ++ newline)%string) as [feedback' ->].
    exists feedback'. reflexivity.
Qed.




(** Scenario B from the response on: the three questions of the response
    get the identifiers q0, q1 and q2 whatever identifier the response
    gave them; answering A and D and submitting scores 1 out of 3. *)
Example scenario_B_from_response :
  exists generated l1 submitted l2,
    Quiz.handleGenerate answers_three_choices (Quiz.mkProps doc51 false) Quiz.initial empty_log
    = (Ok generated, l1)
    /\ option_map (fun qd => List.map Quiz.q_id (Quiz.questions qd)) (Quiz.quizData generated)
       = Some ["q0"; "q1"; "q2"]%string
    /\ Quiz.handleSubmit 7
         (Quiz.handleAnswerChange "q1" "D" (Quiz.handleAnswerChange "q0" "A" generated)) l1
       = (Ok submitted, l2)
    /\ Quiz.score submitted = 1%nat
    /\ saved l2 = [mkAttempt "mcq" 1 3 7 (Some (JStr "Physical World"))].
Proof.
  do 4 eexists.
  split; [vm_compute; reflexivity|]. split; [reflexivity|].
  split; [vm_compute; reflexivity|]. split; reflexivity.
Qed.

(** Scenario C, and the case of the letters: an answer of 18 characters
    to a short question is correct, one of 5 characters is not; a
    selected option that differs from the canonical answer in case only
    is not correct. *)
Example scenario_C :
  String.length "It is unification." = 18%nat
  /\ Quiz.isCorrect (Some "It is unification."%string) (short "q1") = true
  /\ Quiz.isCorrect (Some "Laws."%string) (short "q1") = false
  /\ Quiz.isCorrect (Some "a"%string) (choice "q1" "A") = false
  /\ Quiz.isCorrect None (choice "q3" "C") = false.
Proof. repeat split. Qed.




(** ** The context assembler *)

Lemma append_cons (c : ascii) (s t : string) :
  (String c s ++ t)%string = String c (s ++ t)%string.
Proof. reflexivity. Qed.

Lemma prefix_spec (pat s : string) :
  String.prefix pat s = true <-> exists post, s = (pat ++ post)%string.
Proof.
  revert s. induction pat as [|c pat IH]; intros s.
  - split; [intros _; exists s; reflexivity|intros _; destruct s; reflexivity].
  - destruct s as [|d s]; cbn.
    + split; [discriminate|]. intros [post Hpost]. rewrite append_cons in Hpost.
      discriminate.
    + destruct (Ascii.ascii_dec c d) as [->|Hne].
      * rewrite IH. split; intros [post Hpost]; exists post.
        -- rewrite append_cons. congruence.
        -- rewrite append_cons in Hpost. congruence.
      * split; [discriminate|]. intros [post Hpost].
        rewrite append_cons in Hpost. congruence.
Qed.

(** [includes] is the occurrence of the phrase somewhere in the string. *)
Lemma includes_spec (s pat : string) :
  includes s pat = true <-> exists pre post, s = (pre ++ pat ++ post)%string.
Proof.
  induction s as [|c s IH]; cbn [includes]; rewrite orb_true_iff, prefix_spec.
  - split.
    + intros [[post H]|H]; [exists ""%string, post; exact H|discriminate].
    + intros (pre & post & H). left.
      destruct pre; [exists post; exact H|rewrite append_cons in H; discriminate].
  - rewrite IH. split.
    + intros [[post H]|(pre & post & H)].
      * exists ""%string, post. exact H.
      * exists (String c pre), post. rewrite append_cons. congruence.
    + intros (pre & post & H). destruct pre as [|d pre].
      * left. exists post. exact H.
      * right. exists pre, post. rewrite append_cons in H. congruence.
Qed.


(** C9, as the code has it.  The chat request carries the search tool
    exactly when there is no document text, or the message, in lower
    case, contains the phrase "what is the latest" or the phrase "recent
    news"; in every other case its tool list is empty.  Every request
    that [fetchChatResponse] sends is that one request. *)
Theorem search_tool_rule (P : Platform) (history : list Message)
        (currentMessage pdfText : string) (l : Log) :
  (tools (chat_payload history currentMessage pdfText) = Some [google_search]
   <-> (pdfText = ""%string
        \/ (exists pre post,
              toLowerCase currentMessage = (pre ++ "what is the latest" ++ post)%string)
        \/ (exists pre post,
              toLowerCase currentMessage = (pre ++ "recent news" ++ post)%string)))
  /\ (tools (chat_payload history currentMessage pdfText) = Some [google_search]
      \/ tools (chat_payload history currentMessage pdfText) = Some [])
  /\ (exists r l' k,
        fetchChatResponse P history currentMessage pdfText l = (r, l')
        /\ requests l' = requests l ++ repeat (chat_payload history currentMessage pdfText) k).
Proof.
  split; [|split].
  - cbn [chat_payload tools]. unfold useGoogleSearch.
    rewrite <- !includes_spec, <- String.eqb_eq, <- !orb_true_iff, orb_assoc.
    destruct (_ || _ || _)%bool; split; (reflexivity || discriminate).
  - cbn [chat_payload tools]. destruct (useGoogleSearch currentMessage pdfText); auto.
  - destruct (fetchChatResponse_outcome P history currentMessage pdfText l)
      as (reply & l' & k & Hrun & _ & Hreq & _).
    eauto.
Qed.

Lemma search_tool_rule_witness :
  tools (chat_payload [] "What is the LATEST on fusion?" doc51) = Some [google_search]
  /\ tools (chat_payload [] "Explain unification" "") = Some [google_search]
  /\ (exists r l' k,
        fetchChatResponse offline [] "Explain unification" doc51 empty_log = (r, l')
        /\ requests l'
           = requests empty_log ++ repeat (chat_payload [] "Explain unification" doc51) k).
Proof.
  split; [|split].
  - apply (proj1 (search_tool_rule offline [] "What is the LATEST on fusion?" doc51 empty_log)).
    right. left. exists ""%string, " on fusion?"%string. reflexivity.
  - apply (proj1 (search_tool_rule offline [] "Explain unification" "" empty_log)).
    left. reflexivity.
  - apply (proj2 (proj2 (search_tool_rule offline [] "Explain unification" doc51 empty_log))).
Defined.

(** C9 as stated fails: with a document selected, the message "latest",
    and a question about the latest news that does not use the very
    words "what is the latest", carry no search tool. *)
Lemma latest_alone_enables_no_search :
  useGoogleSearch "latest" doc51 = false
  /\ tools (chat_payload [] "latest" doc51) = Some []
  /\ tools (chat_payload [] "What's the latest discovery?" doc51) = Some []
  /\ tools (chat_payload [] "Any recent news?" doc51) = Some [google_search].
Proof. repeat split. Qed.

(** ** The chat session manager *)

Lemma with_history_ids (chatId : Z) (h : list Message) (l : list Chat.Thread) :
  List.map Chat.id (Chat.with_history chatId h l) = List.map Chat.id l.
Proof.
  unfold Chat.with_history. rewrite List.map_map. apply List.map_ext.
  intros c. destruct (Chat.id c =? chatId)%Z; reflexivity.
Qed.

Lemma with_history_updates (chatId : Z) (h : list Message) (l : list Chat.Thread)
      (c : Chat.Thread) :
  In c l -> Chat.id c = chatId ->
  In (Chat.mkThread (Chat.id c) (Chat.name c) h) (Chat.with_history chatId h l).
Proof.
  intros Hin Hid. unfold Chat.with_history.
  apply List.in_map_iff. exists c. split; [|exact Hin].
  rewrite Hid, Z.eqb_refl. reflexivity.
Qed.

Lemma find_thread (chatId : Z) (l : list Chat.Thread) :
  In chatId (List.map Chat.id l) ->
  exists chat,
    List.find (fun c => (Chat.id c =? chatId)%Z) l = Some chat
    /\ Chat.id chat = chatId /\ In chat l.
Proof.
  induction l as [|c l IH]; cbn; [tauto|].
  intros Hin. destruct (Chat.id c =? chatId)%Z eqn:E.
  - exists c. apply Z.eqb_eq in E. auto.
  - destruct Hin as [Hc|Hin]; [apply Z.eqb_neq in E; congruence|].
    destruct (IH Hin) as (chat & Hf & Hid & Hl). eauto.
Qed.

Lemma activeChat_selected (s : Chat.State) :
  In (Chat.activeChatId s) (List.map Chat.id (Chat.chatList s)) ->
  exists chat,
    Chat.activeChat s = Some chat /\ Chat.id chat = Chat.activeChatId s
    /\ In chat (Chat.chatList s).
Proof.
  intros Hin. destruct (find_thread _ _ Hin) as (chat & Hf & Hid & Hl).
  exists chat. unfold Chat.activeChat. rewrite Hf. auto.
Qed.

(** What a started send leaves behind. *)
Lemma begin_started (s s' : Chat.State) (p : Chat.Pending) :
  Chat.handleSendMessage_begin s = Ok (Some (s', p)) ->
  Chat.isTyping s = false /\ Chat.isTyping s' = true
  /\ Chat.activeChatId s' = Chat.activeChatId s
  /\ Chat.p_chatId p = Chat.activeChatId s
  /\ List.map Chat.id (Chat.chatList s') = List.map Chat.id (Chat.chatList s).
Proof.
  unfold Chat.handleSendMessage_begin.
  destruct (String.eqb (trim (Chat.inputMessage s)) "") eqn:Et; [discriminate|].
  destruct (Chat.isTyping s) eqn:Ety; [discriminate|]. cbn [orb].
  destruct (Chat.activeChat s) as [chat|]; [|discriminate].
  intros [= <- <-]. cbn. rewrite with_history_ids. auto.
Qed.

Lemma begin_while_typing (s : Chat.State) :
  Chat.isTyping s = true -> Chat.handleSendMessage_begin s = Ok None.
Proof.
  intros H. unfold Chat.handleSendMessage_begin. rewrite H, orb_true_r. reflexivity.
Qed.

Lemma step_invariant (v v' : Chat.View) :
  chat_invariant v -> Chat.step v v' -> chat_invariant v'.
Proof.
  intros (Hflag & Hactive & Hpending) Hstep.
  destruct Hstep as [v text Hidle|v now|v chat Hin|v s' p Hbegin|v Hignored
                    |v before after p outcome Hsplit]; unfold chat_invariant; cbn.
  - auto.
  - split; [exact Hflag|]. rewrite List.map_app. cbn. split.
    + apply in_or_app. right. left. reflexivity.
    + intros p Hp. apply in_or_app. left. auto.
  - split; [exact Hflag|]. split; [apply List.in_map; exact Hin|exact Hpending].
  - destruct (begin_started _ _ _ Hbegin) as (Hidle & Hbusy & Hsame & Hp & Hids).
    destruct Hflag as [[_ Hnone]|[Hty _]]; [|congruence].
    rewrite Hnone. cbn. split; [right; eauto|].
    rewrite Hsame, Hids. split; [exact Hactive|].
    intros q [<-|[]]. rewrite Hp. exact Hactive.
  - auto.
  - rewrite with_history_ids.
    destruct Hflag as [[_ Hnone]|[_ [q Hone]]].
    + rewrite Hnone in Hsplit. destruct before; discriminate.
    + rewrite Hone in Hsplit.
      assert (before = [] /\ after = []) as [-> ->].
      { destruct before as [|b before]; cbn in Hsplit.
        - injection Hsplit as _ <-. auto.
        - injection Hsplit as _ Hrest. destruct before; discriminate. }
      cbn. split; [left; auto|]. split; [exact Hactive|]. intros p0 [].
Qed.

Lemma reachable_invariant (v : Chat.View) : Chat.reachable v -> chat_invariant v.
Proof.
  induction 1 as [|v v' _ IH Hstep].
  - unfold chat_invariant. cbn. split; [left; auto|]. split; [left; reflexivity|].
    intros p [].
  - eapply step_invariant; eauto.
Qed.

Lemma reachable_apply (e : Chat.Event) (v : Chat.View) :
  Chat.reachable v -> Chat.reachable (Chat.apply_event e v).
Proof.
  intros Hv. destruct e as [text|now|chatId| |outcome]; cbn.
  - destruct (Chat.isTyping (Chat.ui v)) eqn:Hty; [exact Hv|].
    eapply Chat.reachable_step; [exact Hv|apply Chat.step_type; exact Hty].
  - eapply Chat.reachable_step; [exact Hv|apply Chat.step_new].
  - destruct (List.find _ _) as [chat|] eqn:Hf; [|exact Hv].
    eapply Chat.reachable_step; [exact Hv|].
    apply Chat.step_select. apply (List.find_some _ _ Hf).
  - destruct (Chat.handleSendMessage_begin (Chat.ui v)) as [[[s' p]|]|] eqn:Hb;
      try exact Hv.
    eapply Chat.reachable_step; [exact Hv|apply Chat.step_send; exact Hb].
  - destruct (Chat.inflight v) as [|p rest] eqn:Hin; [exact Hv|].
    eapply Chat.reachable_step; [exact Hv|].
    apply (Chat.step_settle v [] rest p outcome). exact Hin.
Qed.

Lemma reachable_run (events : list Chat.Event) (v : Chat.View) :
  Chat.reachable v -> Chat.reachable (Chat.run events v).
Proof.
  revert v. induction events as [|e events IH]; intros v Hv; cbn; [exact Hv|].
  apply IH. apply reachable_apply. exact Hv.
Qed.

Lemma blank_cons (c : ascii) (s : string) :
  blank (String c s) <-> is_whitespace c = true /\ blank s.
Proof.
  unfold blank. cbn. split.
  - intros H. split; [apply H; left; reflexivity|]. intros d Hd. apply H. right. exact Hd.
  - intros [Hc Hs] d [<-|Hd]; auto.
Qed.

Lemma trimEnd_empty (s : string) : trimEnd s = ""%string <-> blank s.
Proof.
  induction s as [|c s IH].
  - split; [intros _ d []|reflexivity].
  - rewrite blank_cons, <- IH. cbn [trimEnd].
    destruct (trimEnd s) as [|d t].
    + destruct (is_whitespace c); split; try tauto; try discriminate.
      intros [? _]. discriminate.
    + split; [discriminate|]. intros [_ ?]. discriminate.
Qed.

(** [trim] gives the empty string exactly on the strings that are empty
    or made of white space only. *)
Lemma trim_empty (s : string) : trim s = ""%string <-> blank s.
Proof.
  unfold trim. induction s as [|c s IH].
  - split; [intros _ d []|reflexivity].
  - rewrite blank_cons. cbn [trimStart].
    destruct (is_whitespace c) eqn:Ec.
    + rewrite IH. tauto.
    + rewrite trimEnd_empty, blank_cons. rewrite Ec. tauto.
Qed.

(** C10.  A send whose text is empty or white space only returns at
    once: the state, and with it the history of every thread, is the
    one it was called in, nothing is pending and no request is sent. *)
Theorem blank_send_is_noop (P : Platform) (pdfText : string) (v : Chat.View) (l : Log) :
  blank (Chat.inputMessage (Chat.ui v)) ->
  Chat.handleSendMessage_begin (Chat.ui v) = Ok None
  /\ Chat.handleSendMessage P pdfText (Chat.ui v) l = (Ok (Chat.ui v), l)
  /\ Chat.apply_event Chat.Send v = v
  /\ List.map Chat.history
       (Chat.chatList (Chat.ui (Chat.apply_event Chat.Send v)))
     = List.map Chat.history (Chat.chatList (Chat.ui v))
  /\ requests (snd (Chat.handleSendMessage P pdfText (Chat.ui v) l)) = requests l.
Proof.
  intros Hblank. apply trim_empty in Hblank.
  assert (Chat.handleSendMessage_begin (Chat.ui v) = Ok None) as Hbegin.
  { unfold Chat.handleSendMessage_begin. rewrite Hblank. reflexivity. }
  assert (Chat.apply_event Chat.Send v = v) as Hsend by (cbn; rewrite Hbegin; reflexivity).
  unfold Chat.handleSendMessage. rewrite Hsend, Hbegin. auto.
Qed.

Lemma blank_send_is_noop_witness :
  Chat.handleSendMessage_begin (Chat.setInputMessage "   " Chat.initial) = Ok None
  /\ Chat.handleSendMessage answers_grounded doc51 (Chat.setInputMessage "   " Chat.initial)
                            empty_log
     = (Ok (Chat.setInputMessage "   " Chat.initial), empty_log)
  /\ Chat.apply_event Chat.Send (Chat.mkView (Chat.setInputMessage "   " Chat.initial) [])
     = Chat.mkView (Chat.setInputMessage "   " Chat.initial) []
  /\ List.map Chat.history
       (Chat.chatList
          (Chat.ui (Chat.apply_event Chat.Send
                      (Chat.mkView (Chat.setInputMessage "   " Chat.initial) []))))
     = [[]]
  /\ requests (snd (Chat.handleSendMessage answers_grounded doc51
                      (Chat.setInputMessage "   " Chat.initial) empty_log)) = [].
Proof.
  apply (blank_send_is_noop answers_grounded doc51
           (Chat.mkView (Chat.setInputMessage "   " Chat.initial) []) empty_log).
  intros c Hc. cbn in Hc. destruct Hc as [<-|[<-|[<-|[]]]]; reflexivity.
Defined.

(** C6, as the code has it.  The busy flag [isTyping] is one flag for
    the whole chat view, not one per thread.  In every view that a
    session can reach at most one send is pending, over all threads
    together; while one is pending every further send is a no-op,
    whichever thread is selected and whatever its text; once nothing is
    pending the flag is down again. *)
Theorem single_flight (v : Chat.View) :
  Chat.reachable v ->
  (length (Chat.inflight v) <= 1)%nat
  /\ (Chat.inflight v <> [] ->
      Chat.isTyping (Chat.ui v) = true
      /\ (forall text,
            Chat.handleSendMessage_begin (Chat.setInputMessage text (Chat.ui v)) = Ok None)
      /\ Chat.apply_event Chat.Send v = v)
  /\ (Chat.inflight v = [] -> Chat.isTyping (Chat.ui v) = false).
Proof.
  intros Hv. destruct (reachable_invariant v Hv) as ([[Hidle Hnone]|[Hbusy [p Hone]]] & _).
  - rewrite Hnone. cbn. split; [lia|]. split; [congruence|auto].
  - rewrite Hone. cbn [length]. split; [lia|]. split.
    + intros _. split; [exact Hbusy|]. split.
      * intros text. apply begin_while_typing. exact Hbusy.
      * cbn. rewrite (begin_while_typing _ Hbusy). reflexivity.
    + discriminate.
Qed.

Lemma single_flight_witness :
  (length (Chat.inflight second_thread_waiting) <= 1)%nat
  /\ Chat.isTyping (Chat.ui second_thread_waiting) = true
  /\ Chat.handleSendMessage_begin
       (Chat.setInputMessage "Second" (Chat.ui second_thread_waiting)) = Ok None
  /\ Chat.apply_event Chat.Send second_thread_waiting = second_thread_waiting
  /\ Chat.isTyping (Chat.ui (Chat.run [Chat.Settle (Throw NetworkError)]
                                      second_thread_waiting)) = false.
Proof.
  destruct (single_flight second_thread_waiting) as (Hone & Hbusy & _).
  { apply reachable_run. apply Chat.reachable_initial. }
  destruct (single_flight (Chat.run [Chat.Settle (Throw NetworkError)] second_thread_waiting))
    as (_ & _ & Hidle).
  { do 2 apply reachable_run. apply Chat.reachable_initial. }
  split; [exact Hone|].
  destruct Hbusy as (Hty & Hbegin & Hsend); [discriminate|].
  split; [exact Hty|]. split; [apply Hbegin|]. split; [exact Hsend|].
  apply Hidle. reflexivity.
Defined.

(** C6 as stated fails: with a send pending on thread 1, a send on the
    independent thread 2 is rejected whatever its text, so the two
    threads are not in flight together. *)
Lemma other_thread_send_rejected :
  Chat.reachable second_thread_waiting
  /\ List.map Chat.p_chatId (Chat.inflight second_thread_waiting) = [1%Z]
  /\ Chat.activeChatId (Chat.ui second_thread_waiting) = 2%Z
  /\ List.map Chat.id (Chat.chatList (Chat.ui second_thread_waiting)) = [1%Z; 2%Z]
  /\ (forall text,
        Chat.handleSendMessage_begin
          (Chat.setInputMessage text (Chat.ui second_thread_waiting)) = Ok None)
  /\ Chat.inflight (Chat.apply_event Chat.Send second_thread_waiting)
     = Chat.inflight second_thread_waiting.
Proof.
  split; [apply reachable_run; apply Chat.reachable_initial|].
  repeat split.
  intros text. apply begin_while_typing. reflexivity.
Qed.

Lemma mapR_citations (attributions : list json) :
  List.Forall (fun attr => attr <> JNull) attributions ->
  mapR source_of_attribution attributions = Ok (List.map citation attributions).
Proof.
  induction 1 as [|attr attributions Hattr _ IH]; [reflexivity|].
  cbn [mapR List.map]. rewrite IH.
  destruct attr; try contradiction; reflexivity.
Qed.

(** What an attempt makes of a response with a text and attributions. *)
Lemma chat_result_grounded (status : Z) (result t : json) (attributions : list json) :
  status_ok status = true ->
  grounded_response result t attributions ->
  chat_result_of status (Some result) = Ok (mkChatResponse t (citations attributions)).
Proof.
  intros Hok (candidate & others & content & part & parts & metadata
              & Hc & Hcontent & Hparts & Htext & Htruthy & Hmeta & Hattr & Hall).
  unfold chat_result_of. rewrite Hok. cbn [negb response_json bindR].
  destruct result; try discriminate.
  destruct candidate; try discriminate.
  destruct content; try discriminate.
  destruct part; try discriminate.
  destruct metadata; try discriminate.
  unfold candidate_text, member. cbn [bindR]. rewrite Hc. cbn [opt_index0 head].
  cbn [opt_member]. rewrite Hcontent. cbn [opt_member]. rewrite Hparts.
  cbn [opt_index0 head opt_member]. rewrite Htext, Htruthy, Hmeta.
  cbn [truthy bindR]. rewrite Hattr. cbn [truthy andb js_map bindR].
  rewrite (mapR_citations _ Hall). reflexivity.
Qed.

(** An attempt that succeeds at once is what [fetchChatResponse] returns. *)
Lemma fetchChat_first_attempt (P : Platform) (history : list Message)
      (currentMessage pdfText : string) (l : Log) (r : ChatResponse) :
  chat_attempt_of (network P (length (requests l))) = Ok r ->
  fetchChatResponse P history currentMessage pdfText l
  = (Ok (Some r), sent (chat_payload history currentMessage pdfText) l).
Proof.
  intros Hr. unfold fetchChatResponse.
  rewrite fetchChat_loop_turn by lia. rewrite Hr. reflexivity.
Qed.



(** With no network the same send ends with the user message followed by
    the fixed message of [fetchChatResponse], after three requests. *)
Example send_offline :
  exists s2 l',
    Chat.handleSendMessage offline doc51 (Chat.ui question_typed) empty_log = (Ok s2, l')
    /\ length (requests l') = 3%nat
    /\ List.map Chat.history (Chat.chatList s2)
       = [[mkMessage (Some user) (JStr "What is physics?") None;
           mkMessage (Some assistant)
             (JStr "I'm having trouble connecting right now. Please try again later.")
             (Some [])]].
Proof. do 2 eexists. split; [vm_compute; reflexivity|]. repeat split. Qed.

(** * Further properties of the code *)

(** ** Sorting *)

Section SortFacts.
Context {A : Type} (compare : A -> A -> Z) (key : A -> Z).
Hypothesis by_key : forall a b, compare a b = (key b - key a)%Z.

Lemma insert_permutation (x : A) (l : list A) :
  Permutation (JSArray.insert compare x l) (x :: l).
Proof.
  induction l as [|y l IH]; cbn; [reflexivity|].
  destruct (0 <? compare x y)%Z; [|reflexivity].
  rewrite IH. apply perm_swap.
Qed.

Lemma sort_permutation (l : list A) : Permutation (JSArray.sort compare l) l.
Proof.
  induction l as [|x l IH]; cbn; [reflexivity|].
  rewrite insert_permutation. constructor. exact IH.
Qed.

Lemma insert_sorted (x : A) (l : list A) :
  StronglySorted (fun a b => (key b <= key a)%Z) l ->
  StronglySorted (fun a b => (key b <= key a)%Z) (JSArray.insert compare x l).
Proof.
  induction 1 as [|y l Hl IH Hy]; cbn; [repeat constructor|].
  rewrite by_key. destruct (0 <? key y - key x)%Z eqn:E.
  - apply Z.ltb_lt in E. constructor; [exact IH|].
    apply List.Forall_forall.
    intros b Hb. apply (Permutation_in _ (insert_permutation x l)) in Hb.
    destruct Hb as [<-|Hb]; [lia|].
    rewrite List.Forall_forall in Hy. apply Hy, Hb.
  - apply Z.ltb_ge in E. constructor; [constructor; assumption|].
    constructor; [lia|].
    eapply List.Forall_impl; [|exact Hy]. cbn. intros b Hb. lia.
Qed.

Lemma sort_sorted (l : list A) :
  StronglySorted (fun a b => (key b <= key a)%Z) (JSArray.sort compare l).
Proof.
  induction l as [|x l IH]; cbn; [constructor|]. apply insert_sorted, IH.
Qed.

Lemma insert_stable (t : Z) (x : A) (l : list A) :
  List.filter (fun a => (key a =? t)%Z) (JSArray.insert compare x l)
  = List.filter (fun a => (key a =? t)%Z) (x :: l).
Proof.
  induction l as [|y l IH]; [reflexivity|].
  cbn [JSArray.insert]. rewrite by_key.
  destruct (0 <? key y - key x)%Z eqn:E; [|reflexivity].
  apply Z.ltb_lt in E. cbn [List.filter] in *. rewrite IH.
  destruct (key x =? t)%Z eqn:Ex, (key y =? t)%Z eqn:Ey; try reflexivity.
  apply Z.eqb_eq in Ex, Ey. lia.
Qed.

Lemma sort_stable (t : Z) (l : list A) :
  List.filter (fun a => (key a =? t)%Z) (JSArray.sort compare l)
  = List.filter (fun a => (key a =? t)%Z) l.
Proof.
  induction l as [|x l IH]; [reflexivity|].
  cbn [JSArray.sort List.fold_right]. rewrite insert_stable.
  cbn [List.filter]. fold (JSArray.sort compare l). rewrite IH. reflexivity.
Qed.

End SortFacts.

(** ** The progress history *)

(** X1.  The progress list that a snapshot sets holds one entry for each
    document of the collection, none more, latest attempt first, and
    attempts of the same time in the order of the collection; without a
    database or a user the list is empty. *)
Theorem progress_latest_first (docs : list Progress.StoredDoc) :
  Permutation (Progress.on_snapshot docs) (List.map Progress.entry_of docs)
  /\ StronglySorted
       (fun a b => (a_timestamp (Progress.e_attempt b)
                    <= a_timestamp (Progress.e_attempt a))%Z)
       (Progress.on_snapshot docs)
  /\ (forall t,
        List.filter (fun e => (a_timestamp (Progress.e_attempt e) =? t)%Z)
                    (Progress.on_snapshot docs)
        = List.filter (fun e => (a_timestamp (Progress.e_attempt e) =? t)%Z)
                      (List.map Progress.entry_of docs))
  /\ Progress.useProgressData true docs = Progress.on_snapshot docs
  /\ Progress.useProgressData false docs = [].
Proof.
  unfold Progress.on_snapshot. split; [apply sort_permutation|].
  split; [apply (sort_sorted Progress.latest_first
                   (fun e => a_timestamp (Progress.e_attempt e))); reflexivity|].
  split; [|split; reflexivity].
  intros t. apply (sort_stable Progress.latest_first
                     (fun e => a_timestamp (Progress.e_attempt e))). reflexivity.
Qed.

(** ** The video recommender *)

Lemma filterR_selected {A} (f : A -> Res bool) (l kept : list A) :
  Recommender.filterR f l = Ok kept ->
  selected_from kept l /\ forall x, In x kept -> f x = Ok true.
Proof.
  revert kept. induction l as [|x l IH]; cbn; intros kept.
  - intros [= <-]. split; [constructor|intros x []].
  - destruct (f x) as [keep|e] eqn:Ef; cbn; [|discriminate].
    destruct (Recommender.filterR f l) as [kept'|e]; cbn; [|discriminate].
    destruct (IH kept' eq_refl) as [Hsel Hall].
    destruct keep; intros [= <-].
    + split; [constructor; exact Hsel|]. intros y [<-|Hy]; auto.
    + split; [constructor; exact Hsel|exact Hall].
Qed.

Lemma keeps_names_youtube (item : json) :
  Recommender.keeps item = Ok true -> names_youtube item.
Proof.
  unfold Recommender.keeps, names_youtube.
  destruct item; cbn; try discriminate.
  destruct (own props "url") as [u|]; [|discriminate].
  destruct (truthy (Some u)); [|discriminate].
  destruct u; cbn; try discriminate; intros [= H].
  - left. apply includes_spec in H. destruct H as (pre & post & ->). eauto.
  - right. eexists. split; [reflexivity|].
    apply existsb_exists in H. destruct H as (x & Hx & Hy).
    destruct x; try discriminate. apply String.eqb_eq in Hy. subst. exact Hx.
Qed.

(** X2.  [fetchYoutubeRecommendations] sends its request once, never
    retries and never throws: it returns what its one attempt gives, and
    the empty list, with a message on the console, when the attempt
    fails in any way.  The videos it returns are entries of the decoded
    array, in their order, and the address of each names YouTube. *)
Theorem youtube_recommendations (P : Platform) (topic : string) (l : Log) :
  let outcome := youtube_attempt_of P (network P (length (requests l))) in
  Recommender.fetchYoutubeRecommendations P topic l
  = match outcome with
    | Ok videos => (Ok videos, l ++ [Fetched (Recommender.youtube_payload topic)])
    | Throw _ =>
        (Ok [], l ++ [Fetched (Recommender.youtube_payload topic);
                      Logged "Failed to fetch YouTube recommendations:"])
    end
  /\ (forall videos,
        outcome = Ok videos ->
        List.Forall names_youtube videos
        /\ (videos = []
            \/ exists t items, JSON_parse P t = Some (JArr items)
                               /\ selected_from videos items)).
Proof.
  intros outcome. split.
  - unfold Recommender.fetchYoutubeRecommendations, try_catch, bind, fetch, lift.
    subst outcome. unfold youtube_attempt_of.
    destruct (network P (length (requests l))) as [|status body]; cbn.
    + unfold console_log, emit, ret. rewrite <- app_assoc. reflexivity.
    + destruct (Recommender.youtube_result_of P status body); [reflexivity|].
      unfold console_log, emit, ret. cbn. rewrite <- app_assoc. reflexivity.
  - subst outcome. unfold youtube_attempt_of. intros videos Hok.
    destruct (network P (length (requests l))) as [|status body]; [discriminate|].
    unfold Recommender.youtube_result_of in Hok.
    destruct (negb (status_ok status)); [discriminate|].
    destruct (response_json body) as [result|]; cbn in Hok; [|discriminate].
    destruct (candidate_text result) as [textJson|]; cbn in Hok; [|discriminate].
    destruct textJson as [t|]; [|injection Hok as <-; split; [constructor|auto]].
    destruct (truthy (Some t)); [|injection Hok as <-; split; [constructor|auto]].
    unfold parse in Hok. destruct (JSON_parse P t) as [parsed|] eqn:Hparse; [|discriminate].
    cbn in Hok. destruct parsed; try discriminate. cbn in Hok.
    destruct (filterR_selected _ _ _ Hok) as [Hsel Hall]. split.
    + apply List.Forall_forall. intros v Hv. apply keeps_names_youtube, Hall, Hv.
    + right. eauto.
Qed.

Lemma youtube_recommendations_witness :
  Recommender.fetchYoutubeRecommendations answers_three_videos "Physics" empty_log
  = (Ok [physics_video], [Fetched (Recommender.youtube_payload "Physics")])
  /\ List.Forall names_youtube [physics_video]
  /\ Recommender.fetchYoutubeRecommendations three_failures "Physics" empty_log
     = (Ok [], [Fetched (Recommender.youtube_payload "Physics");
                Logged "Failed to fetch YouTube recommendations:"]).
Proof.
  destruct (youtube_recommendations answers_three_videos "Physics" empty_log) as [Hrun Hok].
  destruct (youtube_recommendations three_failures "Physics" empty_log) as [Hfail _].
  split; [rewrite Hrun; vm_compute; reflexivity|].
  split; [|rewrite Hfail; reflexivity].
  apply (Hok [physics_video]). vm_compute. reflexivity.
Defined.

(** ** More on the quiz engine *)

Lemma grade_count (answers : gmap string string) (qs : list Quiz.Question) :
  forall index correctCount feedback correctCount' feedback',
    Quiz.grade answers qs index correctCount feedback = Ok (correctCount', feedback') ->
    correctCount' = (correctCount + length (correct_ones answers qs))%nat.
Proof.
  induction qs as [|q qs IH]; intros index c fb c' fb'; cbn [Quiz.grade].
  - intros [= <- _]. cbn. lia.
  - destruct (Quiz.feedback_of index (answers !! Quiz.q_id q) q) as [lines|e]; [|discriminate].
    intros H. apply IH in H. subst c'. unfold correct_ones. cbn [List.filter].
    destruct (Quiz.isCorrect (answers !! Quiz.q_id q) q); cbn [length]; lia.
Qed.

(** What a call of [handleSubmit] that returns has done. *)
Lemma handleSubmit_returns (now : Z) (s s' : Quiz.State) (l l' : Log) :
  Quiz.handleSubmit now s l = (Ok s', l') ->
  (Quiz.hasQuiz s = false /\ s' = s /\ l' = l)
  \/ exists qd feedback,
       Quiz.quizData s = Some qd /\ Quiz.questions qd <> []
       /\ s' = Quiz.setIsSubmitted true
                 (Quiz.setExplanation feedback
                    (Quiz.setScore (length (correct_ones (Quiz.currentAnswers s)
                                                         (Quiz.questions qd))) s))
       /\ l' = l ++ [Saved (mkAttempt (quizType_value (Quiz.quizType s))
                              (length (correct_ones (Quiz.currentAnswers s)
                                                    (Quiz.questions qd)))
                              (length (Quiz.questions qd)) now (Quiz.quizTitle qd))].
Proof.
  unfold Quiz.handleSubmit.
  destruct (Quiz.hasQuiz s) eqn:Hhas; cbn [negb].
  2:{ intros [= <- <-]. left. auto. }
  unfold Quiz.hasQuiz in Hhas.
  destruct (Quiz.quizData s) as [qd|] eqn:Hqd; [|discriminate].
  unfold bind at 1, lift.
  destruct (Quiz.grade _ _ _ _ _) as [[c fb]|e] eqn:Hg; [|discriminate].
  apply grade_count in Hg. cbn in Hg. subst c.
  unfold bind, saveProgress, emit, ret. intros [= <- <-].
  right. exists qd, fb. repeat split.
  intros Hnil. rewrite Hnil in Hhas. discriminate.
Qed.

Lemma correct_ones_bound (answers : gmap string string) (qs : list Quiz.Question) :
  (length (correct_ones answers qs) <= length qs)%nat.
Proof. unfold correct_ones. apply List.filter_length_le. Qed.

(** X3.  A submit that returns either found no quiz and did nothing, or
    saved exactly one attempt: taken at the time of the call, of the
    type that is selected, under the title of the quiz, with as total
    the number of questions, at least 1, and a score that is at most the
    total.  It sends no request, and it leaves the questions and the
    answers as they were. *)
Theorem attempt_within_total (now : Z) (s s' : Quiz.State) (l l' : Log) :
  Quiz.handleSubmit now s l = (Ok s', l') ->
  requests l' = requests l
  /\ Quiz.quizData s' = Quiz.quizData s
  /\ Quiz.currentAnswers s' = Quiz.currentAnswers s
  /\ ((Quiz.hasQuiz s = false /\ s' = s /\ l' = l)
      \/ exists qd attempt,
           Quiz.quizData s = Some qd
           /\ l' = l ++ [Saved attempt]
           /\ saved l' = saved l ++ [attempt]
           /\ Quiz.isSubmitted s' = true
           /\ a_type attempt = quizType_value (Quiz.quizType s)
           /\ quiz_type_name (a_type attempt)
           /\ a_quizTitle attempt = Quiz.quizTitle qd
           /\ a_timestamp attempt = now
           /\ a_total attempt = length (Quiz.questions qd)
           /\ (1 <= a_total attempt)%nat
           /\ a_score attempt = Quiz.score s'
           /\ (a_score attempt <= a_total attempt)%nat).
Proof.
  intros Hrun. apply handleSubmit_returns in Hrun.
  destruct Hrun as [(Hhas & -> & ->)|(qd & fb & Hqd & Hne & -> & ->)].
  - repeat split. left. auto.
  - rewrite requests_app, saved_app. cbn. rewrite app_nil_r.
    repeat split. right. do 2 eexists. split; [exact Hqd|].
    split; [reflexivity|]. split; [reflexivity|]. cbn.
    split; [reflexivity|]. split; [reflexivity|].
    split; [unfold quiz_type_name; destruct (Quiz.quizType s); cbn; auto|].
    split; [reflexivity|]. split; [reflexivity|]. split; [reflexivity|].
    split; [destruct (Quiz.questions qd); [congruence|cbn; lia]|].
    split; [reflexivity|apply correct_ones_bound].
Qed.

Lemma attempt_within_total_witness :
  exists s' l',
    Quiz.handleSubmit 0 scenario_B empty_log = (Ok s', l')
    /\ requests l' = []
    /\ Quiz.quizData s' = Quiz.quizData scenario_B
    /\ l' = [Saved (mkAttempt "mcq" 1 3 0 (Some (JStr "Physical World")))].
Proof.
  assert (exists s' l', Quiz.handleSubmit 0 scenario_B empty_log = (Ok s', l')) as (s' & l' & Hrun).
  { do 2 eexists. vm_compute. reflexivity. }
  destruct (attempt_within_total 0 scenario_B s' empty_log l' Hrun) as (Hreq & Hqd & _).
  exists s', l'. split; [exact Hrun|]. split; [exact Hreq|]. split; [exact Hqd|].
  vm_compute in Hrun. injection Hrun as _ <-. reflexivity.
Defined.

(** X4.  When a question that is not a choice question carries a model
    answer that is truthy and not a string, [handleSubmit] throws while
    it writes the feedback: nothing is scored, nothing is saved, the
    state is not touched. *)
Theorem submit_throws_on_model_answer (now : Z) (s : Quiz.State) (qd : Quiz.QuizData)
        (q : Quiz.Question) (l : Log) :
  Quiz.quizData s = Some qd ->
  In q (Quiz.questions qd) ->
  Quiz.is_mcq q = false ->
  truthy (Quiz.q_modelAnswer q) = true ->
  (forall m, Quiz.q_modelAnswer q <> Some (JStr m)) ->
  Quiz.handleSubmit now s l = (Throw TypeError, l).
Proof.
  intros Hqd Hin Hmcq Htruthy Hnot.
  unfold Quiz.handleSubmit, Quiz.hasQuiz. rewrite Hqd.
  destruct (Quiz.questions qd) as [|q0 qs] eqn:Hqs; [destruct Hin|].
  cbn [length Nat.ltb Nat.leb negb]. unfold bind, lift.
  rewrite (grade_throws _ _ q Hin); [reflexivity| |exact Hmcq].
  unfold Quiz.modelAnswer_shown. rewrite Htruthy.
  destruct (Quiz.q_modelAnswer q) as [[| | | m | |]|]; try reflexivity.
  exfalso. apply (Hnot m). reflexivity.
Qed.

Lemma submit_throws_on_model_answer_witness :
  Quiz.handleSubmit 0 numbered_model_answer empty_log = (Throw TypeError, empty_log).
Proof.
  apply (submit_throws_on_model_answer 0 numbered_model_answer
           (Quiz.mkQuizData (Some (JStr "Physical World"))
              [short "q0";
               Quiz.mkQuestion "q1" (Some (JStr "saq")) (Some (JStr "How many laws?"))
                 None None (Some (JNum 3)) (Some (JStr "See section 1.2.")) ""])
           (Quiz.mkQuestion "q1" (Some (JStr "saq")) (Some (JStr "How many laws?"))
              None None (Some (JNum 3)) (Some (JStr "See section 1.2.")) "")).
  - reflexivity.
  - right. left. reflexivity.
  - reflexivity.
  - reflexivity.
  - intros m. discriminate.
Defined.

(** What [handleGenerate] leaves when it leaves a quiz. *)
Lemma handleGenerate_quiz (P : Platform) (p : Quiz.Props) (s s1 : Quiz.State) (l l1 : Log)
      (qd : Quiz.QuizData) :
  Quiz.isQuizReady p = true ->
  Quiz.handleGenerate P p s l = (Ok s1, l1) ->
  Quiz.quizData s1 = Some qd ->
  Quiz.currentAnswers s1 = ∅
  /\ Quiz.isSubmitted s1 = false
  /\ Quiz.quizLoading s1 = false
  /\ Quiz.quizType s1 = Quiz.quizType s
  /\ exists items,
       Forall2 mirrors (Quiz.questions qd) items
       /\ List.map Quiz.q_id (Quiz.questions qd)
          = List.map (fun j => randomUUID_at P (uuids l + j)) (seq 0 (length items)).
Proof.
  intros Hready Hrun Hqd.
  rewrite (handleGenerate_ready P p s l Hready) in Hrun.
  destruct (generate_body_run P (Quiz.pdfText p) (Quiz.quizType s) (loading s) l)
    as (r & l2 & Hbody & _ & _ & _ & Hok).
  rewrite Hbody in Hrun. destruct r as [s2|e].
  - injection Hrun as <- <-.
    destruct (Hok s2 eq_refl) as (n & parsed & items & listed & _ & _ & Hm & Hids & ->).
    cbn in Hqd. injection Hqd as <-. cbn. repeat split. exists items. split; assumption.
  - injection Hrun as <- <-. cbn in Hqd. discriminate.
Qed.

Lemma correct_ones_unanswered (qs : list Quiz.Question) :
  correct_ones ∅ qs = List.filter unkeyed_choice qs.
Proof.
  unfold correct_ones. apply List.filter_ext. intros q.
  rewrite lookup_empty. unfold Quiz.isCorrect, unkeyed_choice.
  destruct (Quiz.is_mcq q); [|reflexivity]. cbn.
  destruct (Quiz.q_correctAnswer q); reflexivity.
Qed.

(** X5.  A quiz submitted as it was generated, with no answer given:
    every question that is not a choice question counts as wrong, and a
    choice question counts as correct exactly when its response element
    had no [correctAnswer].  The score saved is the number of those. *)
Theorem unanswered_quiz_score (P : Platform) (now : Z) (p : Quiz.Props)
        (s s1 s2 : Quiz.State) (l l1 l2 : Log) (qd : Quiz.QuizData) :
  Quiz.isQuizReady p = true ->
  Quiz.handleGenerate P p s l = (Ok s1, l1) ->
  Quiz.quizData s1 = Some qd ->
  Quiz.handleSubmit now s1 l1 = (Ok s2, l2) ->
  Quiz.score s2 = length (List.filter unkeyed_choice (Quiz.questions qd))
  /\ (Quiz.questions qd <> [] ->
      saved l2
      = saved l1 ++ [mkAttempt (quizType_value (Quiz.quizType s))
                       (length (List.filter unkeyed_choice (Quiz.questions qd)))
                       (length (Quiz.questions qd)) now (Quiz.quizTitle qd)]).
Proof.
  intros Hready Hgen Hqd Hsub.
  destruct (handleGenerate_quiz P p s s1 l l1 qd Hready Hgen Hqd)
    as (Hans & Hsubm & _ & Htype & _).
  apply handleSubmit_returns in Hsub.
  destruct Hsub as [(Hhas & -> & ->)|(qd' & fb & Hqd' & Hne & -> & ->)].
  - unfold Quiz.hasQuiz in Hhas. rewrite Hqd in Hhas.
    destruct (Quiz.questions qd) as [|q qs]; [|discriminate].
    split; [|congruence].
    cbn. clear - Hgen Hready Hqd.
    rewrite (handleGenerate_ready P p s l Hready) in Hgen.
    destruct (Quiz.generate_body P (Quiz.pdfText p) (Quiz.quizType s) (loading s) l)
      as [[s3|e] l3] eqn:Hbody; injection Hgen as <- <-; [|reflexivity].
    destruct (generate_body_run P (Quiz.pdfText p) (Quiz.quizType s) (loading s) l)
      as (r & l2 & Hbody' & _ & _ & _ & Hok).
    rewrite Hbody in Hbody'. injection Hbody' as <- <-.
    destruct (Hok s3 eq_refl) as (n & parsed & items & listed & _ & _ & _ & _ & ->).
    reflexivity.
  - rewrite Hqd in Hqd'. injection Hqd' as <-.
    rewrite Hans, Htype, correct_ones_unanswered. cbn.
    split; [reflexivity|]. intros _. rewrite saved_app. reflexivity.
Qed.

Lemma unanswered_quiz_score_witness :
  exists s1 l1 s2 l2,
    Quiz.handleGenerate answers_unkeyed_choices (Quiz.mkProps doc51 false)
      Quiz.initial empty_log = (Ok s1, l1)
    /\ Quiz.handleSubmit 7 s1 l1 = (Ok s2, l2)
    /\ Quiz.score s2 = 1%nat
    /\ saved l2 = [mkAttempt "mcq" 1 2 7 (Some (JStr "Physical World"))].
Proof.
  assert (exists s1 l1 qd s2 l2,
             Quiz.handleGenerate answers_unkeyed_choices (Quiz.mkProps doc51 false)
               Quiz.initial empty_log = (Ok s1, l1)
             /\ Quiz.quizData s1 = Some qd
             /\ List.filter unkeyed_choice (Quiz.questions qd) = List.firstn 1 (Quiz.questions qd)
             /\ length (Quiz.questions qd) = 2%nat
             /\ Quiz.quizTitle qd = Some (JStr "Physical World")
             /\ saved l1 = []
             /\ Quiz.handleSubmit 7 s1 l1 = (Ok s2, l2))
    as (s1 & l1 & qd & s2 & l2 & Hgen & Hqd & Hf & Hlen & Htitle & Hsaved & Hsub).
  { do 5 eexists. vm_compute. repeat split. }
  destruct (unanswered_quiz_score answers_unkeyed_choices 7 (Quiz.mkProps doc51 false)
              Quiz.initial s1 s2 empty_log l1 l2 qd eq_refl Hgen Hqd Hsub) as [Hscore Hsave].
  exists s1, l1, s2, l2. split; [exact Hgen|]. split; [exact Hsub|].
  rewrite Hf in Hscore, Hsave. rewrite Hlen, Htitle, Hsaved in Hsave.
  destruct (Quiz.questions qd) as [|q qs]; [discriminate|].
  split; [exact Hscore|]. apply Hsave. discriminate.
Defined.

Lemma NoDup_map_seq {A} (f : nat -> A) (n : nat) :
  (forall i j, (i < j < n)%nat -> f i <> f j) ->
  List.NoDup (List.map f (seq 0 n)).
Proof.
  intros Hf. induction n as [|n IH]; [constructor|].
  rewrite seq_S, List.map_app. cbn.
  apply List.NoDup_app; [apply IH; intros i j Hij; apply Hf; lia| |].
  - constructor; [intros []|constructor].
  - intros x Hx Hlast. destruct Hlast as [<-|[]].
    apply List.in_map_iff in Hx. destruct Hx as (i & Heq & Hi).
    apply List.in_seq in Hi. apply (Hf i n); [lia|exact Heq].
Qed.

(** X6.  The questions of a generated quiz carry the identifiers drawn
    from [crypto.randomUUID], in the order of the response.  As long as
    the identifiers drawn are distinct, no two questions share one, and
    the first answer given is recorded for its question only: every
    other question is still unanswered. *)
Theorem answers_keyed_by_question (P : Platform) (p : Quiz.Props) (s s1 : Quiz.State)
        (l l1 : Log) (qd : Quiz.QuizData) :
  Quiz.isQuizReady p = true ->
  Quiz.handleGenerate P p s l = (Ok s1, l1) ->
  Quiz.quizData s1 = Some qd ->
  (forall i j, (i < j < length (Quiz.questions qd))%nat ->
               randomUUID_at P (uuids l + i) <> randomUUID_at P (uuids l + j)) ->
  List.map Quiz.q_id (Quiz.questions qd)
  = List.map (fun j => randomUUID_at P (uuids l + j)) (seq 0 (length (Quiz.questions qd)))
  /\ List.NoDup (List.map Quiz.q_id (Quiz.questions qd))
  /\ forall i j qi qj value,
       Quiz.questions qd !! i = Some qi ->
       Quiz.questions qd !! j = Some qj ->
       Quiz.currentAnswers (Quiz.handleAnswerChange (Quiz.q_id qi) value s1) !! Quiz.q_id qj
       = if Nat.eqb i j then Some value else None.
Proof.
  intros Hready Hgen Hqd Hfresh.
  destruct (handleGenerate_quiz P p s s1 l l1 qd Hready Hgen Hqd)
    as (Hans & Hsubm & _ & _ & items & Hm & Hids).
  assert (length items = length (Quiz.questions qd)) as Hlen.
  { symmetry. eapply Forall2_length, Hm. }
  rewrite Hlen in Hids.
  assert (List.NoDup (List.map Quiz.q_id (Quiz.questions qd))) as Hnodup.
  { rewrite Hids. apply NoDup_map_seq. exact Hfresh. }
  split; [exact Hids|]. split; [exact Hnodup|].
  intros i j qi qj value Hi Hj.
  unfold Quiz.handleAnswerChange. rewrite Hsubm. cbn. rewrite Hans.
  destruct (Nat.eqb_spec i j) as [->|Hne].
  - rewrite Hi in Hj. injection Hj as <-. apply lookup_insert_eq.
  - rewrite lookup_insert_ne; [apply lookup_empty|].
    intros Heq. apply Hne.
    apply (NoDup_lookup (List.map Quiz.q_id (Quiz.questions qd)) i j (Quiz.q_id qi)).
    + apply NoDup_ListNoDup, Hnodup.
    + rewrite list_lookup_fmap, Hi. reflexivity.
    + rewrite list_lookup_fmap, Hj, Heq. reflexivity.
Qed.

Lemma answers_keyed_by_question_witness :
  exists s1 l1 qd q0 q1,
    Quiz.handleGenerate answers_three_choices (Quiz.mkProps doc51 false)
      Quiz.initial empty_log = (Ok s1, l1)
    /\ Quiz.quizData s1 = Some qd
    /\ List.map Quiz.q_id (Quiz.questions qd) = ["q0"; "q1"; "q2"]%string
    /\ List.NoDup (List.map Quiz.q_id (Quiz.questions qd))
    /\ Quiz.currentAnswers (Quiz.handleAnswerChange (Quiz.q_id q0) "B" s1) !! Quiz.q_id q0
       = Some "B"%string
    /\ Quiz.currentAnswers (Quiz.handleAnswerChange (Quiz.q_id q0) "B" s1) !! Quiz.q_id q1
       = None.
Proof.
  assert (exists s1 l1 qd q0 q1,
             Quiz.handleGenerate answers_three_choices (Quiz.mkProps doc51 false)
               Quiz.initial empty_log = (Ok s1, l1)
             /\ Quiz.quizData s1 = Some qd
             /\ length (Quiz.questions qd) = 3%nat
             /\ Quiz.questions qd !! 0%nat = Some q0
             /\ Quiz.questions qd !! 1%nat = Some q1)
    as (s1 & l1 & qd & q0 & q1 & Hgen & Hqd & Hlen & Hq0 & Hq1).
  { do 5 eexists. vm_compute. repeat split. }
  assert (forall i j, (i < j < length (Quiz.questions qd))%nat ->
                      randomUUID_at answers_three_choices (uuids empty_log + i)
                      <> randomUUID_at answers_three_choices (uuids empty_log + j)) as Hfresh.
  { rewrite Hlen. intros i j Hij.
    destruct i as [|[|[|i]]]; destruct j as [|[|[|j]]]; try lia; vm_compute; discriminate. }
  destruct (answers_keyed_by_question answers_three_choices (Quiz.mkProps doc51 false)
              Quiz.initial s1 empty_log l1 qd eq_refl Hgen Hqd Hfresh)
    as (Hids & Hnodup & Hanswers).
  exists s1, l1, qd, q0, q1. split; [exact Hgen|]. split; [exact Hqd|].
  split; [rewrite Hids, Hlen; reflexivity|]. split; [exact Hnodup|].
  split; [exact (Hanswers 0%nat 0%nat q0 q0 "B"%string Hq0 Hq0)|].
  exact (Hanswers 0%nat 1%nat q0 q1 "B"%string Hq0 Hq1).
Defined.

(** ** More on the chat sessions *)

Lemma turns_app (h : list Message) (u a : Message) :
  turns h -> role u = Some user -> role a = Some assistant -> turns (h ++ [u; a]).
Proof.
  intros Hh Hu Ha.
  assert (forall n h, (length h <= n)%nat -> turns h -> turns (h ++ [u; a])) as Hind.
  { clear h Hh. induction n as [|n IH]; intros h Hlen Hh.
    - destruct h; [cbn; auto|cbn in Hlen; lia].
    - destruct h as [|x [|y rest]]; cbn in Hh |- *; [auto|destruct Hh|].
      destruct Hh as (Hx & Hy & Hrest). repeat split; auto.
      apply IH; [cbn in Hlen; lia|exact Hrest]. }
  apply (Hind (length h)); auto.
Qed.

Lemma closing_message_role (outcome : Res (option ChatResponse)) :
  role (Chat.closing_message outcome) = Some assistant.
Proof. destruct outcome as [[r|]|e]; reflexivity. Qed.

Lemma in_with_history (chatId : Z) (h : list Message) (l : list Chat.Thread)
      (c : Chat.Thread) :
  In c (Chat.with_history chatId h l) ->
  (Chat.id c = chatId /\ Chat.history c = h /\ In chatId (List.map Chat.id l))
  \/ (Chat.id c <> chatId /\ In c l).
Proof.
  unfold Chat.with_history. intros Hin. apply List.in_map_iff in Hin.
  destruct Hin as (c0 & Hc & Hin0).
  destruct (Z.eqb_spec (Chat.id c0) chatId) as [Heq|Hne]; subst c.
  - left. cbn. repeat split; [exact Heq|]. rewrite <- Heq. apply List.in_map. exact Hin0.
  - right. auto.
Qed.

Lemma begin_pending (s s' : Chat.State) (p : Chat.Pending) :
  Chat.handleSendMessage_begin s = Ok (Some (s', p)) ->
  exists chat,
    Chat.activeChat s = Some chat
    /\ Chat.p_history p = Chat.history chat
    /\ Chat.p_currentInput p = Chat.inputMessage s
    /\ Chat.p_newHistory p = Chat.history chat ++ [Chat.userMessage_of (Chat.inputMessage s)]
    /\ Chat.chatList s'
       = Chat.with_history (Chat.activeChatId s) (Chat.p_newHistory p) (Chat.chatList s).
Proof.
  unfold Chat.handleSendMessage_begin.
  destruct (_ || _); [discriminate|].
  destruct (Chat.activeChat s) as [chat|]; [|discriminate].
  intros [= <- <-]. exists chat. repeat split.
Qed.

Lemma step_alternate (v v' : Chat.View) :
  chat_invariant v -> histories_alternate v -> Chat.step v v' -> histories_alternate v'.
Proof.
  intros (Hflag & Hactive & _) (Hpend & Hthreads) Hstep.
  destruct Hstep as [v text Hidle|v now|v chat Hin|v s' p Hbegin|v Hignored
                    |v before after p outcome Hsplit]; unfold histories_alternate; cbn.
  - auto.
  - split; [exact Hpend|]. intros c Hc. apply in_app_or in Hc.
    destruct Hc as [Hc|[<-|[]]]; [auto|left; exact I].
  - auto.
  - destruct (begin_started _ _ _ Hbegin) as (Hidle & _ & _ & Hp & _).
    destruct Hflag as [[_ Hnone]|[Hty _]]; [|congruence].
    rewrite Hnone in *. cbn.
    assert (forall c, In c (Chat.chatList (Chat.ui v)) -> turns (Chat.history c)) as Hall.
    { intros c Hc. destruct (Hthreads c Hc) as [Hc'|(q & [] & _)]. exact Hc'. }
    destruct (begin_pending _ _ _ Hbegin) as (chat & Hchat & Hh & Hinput & Hnew & Hlist).
    destruct (activeChat_selected _ Hactive) as (chat' & Hchat' & _ & Hin').
    rewrite Hchat in Hchat'. injection Hchat' as <-.
    split.
    + intros q [<-|[]]. rewrite Hh, Hinput. split; [apply Hall, Hin'|exact Hnew].
    + intros c Hc. rewrite Hlist in Hc. apply in_with_history in Hc.
      destruct Hc as [(Hid & Hhist & _)|(_ & Hc)]; [right|left; apply Hall, Hc].
      exists p. split; [left; reflexivity|]. split; [congruence|exact Hhist].
  - auto.
  - destruct Hflag as [[_ Hnone]|[_ [q Hone]]].
    { rewrite Hnone in Hsplit. destruct before; discriminate. }
    rewrite Hone in Hsplit.
    assert (before = [] /\ after = [] /\ q = p) as (-> & -> & ->).
    { destruct before as [|b before]; cbn in Hsplit.
      - injection Hsplit as <- <-. auto.
      - injection Hsplit as _ Hrest. destruct before; discriminate. }
    cbn. split; [intros p0 []|].
    intros c Hc. left. apply in_with_history in Hc.
    destruct (Hpend p) as [Hturns Hnew]; [rewrite Hone; left; reflexivity|].
    destruct Hc as [(_ & -> & _)|(Hne & Hc)].
    + rewrite Hnew, <- app_assoc. apply turns_app; [exact Hturns|reflexivity|].
      apply closing_message_role.
    + destruct (Hthreads c Hc) as [Hc'|(p0 & Hp0 & Hid & _)]; [exact Hc'|].
      rewrite Hone in Hp0. destruct Hp0 as [<-|[]]. contradiction.
Qed.

Lemma reachable_alternate (v : Chat.View) : Chat.reachable v -> histories_alternate v.
Proof.
  induction 1 as [|v v' Hv IH Hstep].
  - split; [intros p []|]. intros c [<-|[]]. left. exact I.
  - eapply step_alternate; eauto. apply reachable_invariant, Hv.
Qed.

(** X7.  In every view a chat session can reach, whatever the order of
    the events and the outcomes of the requests, the history of every
    thread is a sequence of complete turns, a user message followed by
    an assistant message, except that the threads with the identifier of
    the pending send end with the user message that is waiting for its
    reply.  The history handed to [fetchChatResponse] is always made of
    complete turns, and once nothing is pending every thread is. *)
Theorem chat_histories_alternate (v : Chat.View) :
  Chat.reachable v ->
  (forall p, In p (Chat.inflight v) -> turns (Chat.p_history p))
  /\ (forall c, In c (Chat.chatList (Chat.ui v)) ->
        turns (Chat.history c)
        \/ exists p input,
             Chat.inflight v = [p] /\ Chat.id c = Chat.p_chatId p
             /\ Chat.history c = Chat.p_history p ++ [Chat.userMessage_of input])
  /\ (Chat.isTyping (Chat.ui v) = false ->
      forall c, In c (Chat.chatList (Chat.ui v)) -> turns (Chat.history c)).
Proof.
  intros Hv. destruct (reachable_alternate v Hv) as [Hpend Hthreads].
  destruct (reachable_invariant v Hv) as (Hflag & _ & _).
  split; [intros p Hp; apply Hpend, Hp|]. split.
  - intros c Hc. destruct (Hthreads c Hc) as [Hc'|(p & Hp & Hid & Hhist)]; [left; exact Hc'|].
    right. exists p, (Chat.p_currentInput p).
    destruct Hflag as [[_ Hnone]|[_ [q Hone]]].
    + rewrite Hnone in Hp. destruct Hp.
    + rewrite Hone in Hp |- *. destruct Hp as [->|[]].
      split; [reflexivity|]. split; [exact Hid|].
      rewrite Hhist. apply Hpend. rewrite Hone. left. reflexivity.
  - intros Hidle c Hc.
    destruct Hflag as [[_ Hnone]|[Hty _]]; [|congruence].
    destruct (Hthreads c Hc) as [Hc'|(p & Hp & _)]; [exact Hc'|].
    rewrite Hnone in Hp. destruct Hp.
Qed.

Lemma chat_histories_alternate_witness :
  List.map (fun c => length (Chat.history c)) (Chat.chatList (Chat.ui second_thread_waiting))
  = [1; 0]%nat
  /\ List.map (fun c => length (Chat.history c)) (Chat.chatList (Chat.ui first_answered))
     = [2; 0]%nat
  /\ (exists c, List.hd_error (Chat.chatList (Chat.ui first_answered)) = Some c
                /\ turns (Chat.history c)).
Proof.
  split; [reflexivity|]. split; [reflexivity|].
  destruct (chat_histories_alternate first_answered) as (_ & _ & Hidle).
  { do 2 apply reachable_run. apply Chat.reachable_initial. }
  eexists. split; [reflexivity|].
  apply Hidle; [reflexivity|]. left. reflexivity.
Defined.

Lemma substring0_app (n : nat) (s t : string) :
  (n <= String.length s)%nat -> substring0 n (s ++ t)%string = substring0 n s.
Proof.
  unfold substring0. revert n. induction s as [|c s IH]; intros n Hn.
  - cbn in Hn. assert (n = 0%nat) as -> by lia. destruct t; reflexivity.
  - rewrite append_cons. destruct n as [|n]; [reflexivity|].
    cbn [String.substring]. f_equal. apply IH. cbn in Hn. lia.
Qed.

Lemma length_append (s t : string) :
  String.length (s ++ t)%string = (String.length s + String.length t)%nat.
Proof.
  induction s as [|c s IH]; [reflexivity|]. rewrite append_cons. cbn. rewrite IH. reflexivity.
Qed.

(** X8.  Of the selected document, the chat request carries the first
    2500 characters and nothing else: whatever follows them changes
    neither the request, its search tool included, nor, therefore, the
    run of [fetchChatResponse]. *)
Theorem chat_context_window (P : Platform) (history : list Message)
        (currentMessage pdfText more : string) (l : Log) :
  (2500 <= String.length pdfText)%nat ->
  contextPart pdfText
  = ("[CONTEXT FROM SELECTED PDF: The student is revising from this material: "
     ++ substring0 2500 pdfText ++ "...]")%string
  /\ chat_payload history currentMessage (pdfText ++ more)%string
     = chat_payload history currentMessage pdfText
  /\ fetchChatResponse P history currentMessage (pdfText ++ more)%string l
     = fetchChatResponse P history currentMessage pdfText l.
Proof.
  intros Hlen.
  assert (forall t, (2500 <= String.length t)%nat -> (t =? "")%string = false) as Hne.
  { intros t Ht. destruct t; [cbn in Ht; lia|reflexivity]. }
  assert (contextPart (pdfText ++ more)%string = contextPart pdfText) as Hctx.
  { unfold contextPart. rewrite !Hne by (rewrite ?length_append; lia).
    rewrite length_append, !Nat.min_r by lia.
    rewrite substring0_app by lia. reflexivity. }
  assert (chat_payload history currentMessage (pdfText ++ more)%string
          = chat_payload history currentMessage pdfText) as Hpayload.
  { unfold chat_payload, useGoogleSearch. rewrite Hctx.
    rewrite !Hne by (rewrite ?length_append; lia). reflexivity. }
  split; [|split; [exact Hpayload|]].
  - unfold contextPart. rewrite Hne by lia. rewrite Nat.min_r by lia. reflexivity.
  - unfold fetchChatResponse. rewrite Hpayload. reflexivity.
Qed.

Lemma chat_context_window_witness :
  chat_payload [] "What is physics?" (long_document ++ "An appendix.")%string
  = chat_payload [] "What is physics?" long_document
  /\ fetchChatResponse answers_grounded [] "What is physics?"
       (long_document ++ "An appendix.")%string empty_log
     = fetchChatResponse answers_grounded [] "What is physics?" long_document empty_log.
Proof.
  destruct (chat_context_window answers_grounded [] "What is physics?" long_document
              "An appendix." empty_log) as (_ & Hpayload & Hrun).
  { apply Nat.leb_le. vm_compute. reflexivity. }
  split; [exact Hpayload|exact Hrun].
Defined.

Lemma chat_result_shown (status : Z) (body : option json) (reply : ChatResponse) :
  chat_result_of status body = Ok reply ->
  truthy (Some (r_text reply)) = true
  /\ List.Forall (fun source => truthy (uri source) = true) (r_sources reply).
Proof.
  unfold chat_result_of.
  destruct (negb (status_ok status)); [discriminate|].
  destruct (response_json body) as [result|]; [|discriminate]. cbn [bindR].
  destruct (candidate_text result) as [found|]; [|discriminate]. cbn [bindR].
  destruct (member (Some result) "candidates") as [candidates|]; [|discriminate]. cbn [bindR].
  match goal with |- context [bindR ?a _] => destruct a as [attributions|]; [|discriminate] end.
  cbn [bindR].
  match goal with |- context [bindR ?a _] => destruct a as [kept|] eqn:Hkept; [|discriminate] end.
  cbn [bindR]. intros [= <-]. cbn [r_text r_sources]. split.
  - destruct found as [t|]; [|reflexivity].
    destruct (truthy (Some t)) eqn:Ht; [exact Ht|reflexivity].
  - destruct (_ && _) in Hkept.
    + destruct (js_map attributions source_of_attribution) as [mapped|]; [|discriminate].
      cbn in Hkept. injection Hkept as <-.
      apply List.Forall_forall. intros source Hin.
      apply List.filter_In in Hin. apply Hin.
    + injection Hkept as <-. constructor.
Qed.


(** ** The documents and their text *)

Lemma extractor_run_app (events more : list Documents.extractor_event)
      (e : Documents.Extractor) :
  Documents.extractor_run (events ++ more) e
  = Documents.extractor_run more (Documents.extractor_run events e).
Proof. unfold Documents.extractor_run. apply List.fold_left_app. Qed.

Lemma extracted_text_length (fileName : string) :
  (50 < String.length (Documents.extracted_text fileName))%nat.
Proof.
  unfold Documents.extracted_text. rewrite !length_append.
  generalize (String.length fileName). intros n. cbn. lia.
Qed.

(** What one event keeps: a timer is set only while [loading] is set and
    the text is empty, and the text is empty, the built-in text, or the
    text made for a file. *)
Lemma extractor_step_keeps (ev : Documents.extractor_event) (e : Documents.Extractor) :
  (Documents.timer e <> None ->
   Documents.loading e = true /\ Documents.text e = ""%string) ->
  (Documents.text e = ""%string \/ Documents.text e = Documents.MOCK_NCERT_TEXT
   \/ exists fileName, Documents.text e = Documents.extracted_text fileName) ->
  let e' := Documents.extractor_step ev e in
  (Documents.timer e' <> None ->
   Documents.loading e' = true /\ Documents.text e' = ""%string)
  /\ (Documents.text e' = ""%string \/ Documents.text e' = Documents.MOCK_NCERT_TEXT
      \/ exists fileName, Documents.text e' = Documents.extracted_text fileName).
Proof.
  intros Htimer Htext. destruct ev as [[pdf|]|]; cbn.
  - unfold Documents.pdfFile_changes.
    destruct (String.eqb (Documents.url pdf) "mock-ncert-1"); cbn; split; auto; congruence.
  - split; [congruence|auto].
  - unfold Documents.timer_fires. destruct (Documents.timer e) as [fileName|] eqn:Ht; cbn.
    + split; [congruence|]. right. right. exists fileName. reflexivity.
    + rewrite Ht. split; [congruence|exact Htext].
Qed.

Lemma extractor_keeps (events : list Documents.extractor_event) :
  let e := extractor_after events in
  (Documents.timer e <> None ->
   Documents.loading e = true /\ Documents.text e = ""%string)
  /\ (Documents.text e = ""%string \/ Documents.text e = Documents.MOCK_NCERT_TEXT
      \/ exists fileName, Documents.text e = Documents.extracted_text fileName).
Proof.
  unfold extractor_after.
  induction events as [|ev events IH] using List.rev_ind; cbn.
  - split; [congruence|auto].
  - rewrite extractor_run_app. cbn. apply extractor_step_keeps; apply IH.
Qed.

(** X10.  Whatever documents are selected and whenever the timers fire,
    the text that [usePdfTextExtractor] returns is empty, the built-in
    text, or the text made for the name of a loaded file; a pending
    extraction shows [loading] and an empty text; and the quiz is ready
    exactly when [loading] is off and the text is not empty: the bound of
    50 characters never decides, each of these texts is longer. *)
Theorem extractor_texts (events : list Documents.extractor_event) :
  let e := extractor_after events in
  (Documents.text e = ""%string \/ Documents.text e = Documents.MOCK_NCERT_TEXT
   \/ exists fileName, Documents.text e = Documents.extracted_text fileName)
  /\ (Documents.timer e <> None ->
      Documents.loading e = true /\ Documents.text e = ""%string)
  /\ Quiz.isQuizReady (Documents.quiz_props e)
     = negb (Documents.loading e) && negb (String.eqb (Documents.text e) "").
Proof.
  intros e. destruct (extractor_keeps events) as [Htimer Htext]. fold e in Htimer, Htext.
  split; [exact Htext|]. split; [exact Htimer|].
  unfold Quiz.isQuizReady, Documents.quiz_props. cbn [Quiz.pdfText Quiz.pdfLoading].
  destruct (negb (Documents.loading e)); [cbn [andb]|reflexivity].
  destruct Htext as [->|[->|[fileName ->]]]; [reflexivity|reflexivity|].
  pose proof (extracted_text_length fileName) as Hlen.
  apply Nat.ltb_lt in Hlen. rewrite Hlen.
  destruct (Documents.extracted_text fileName); [discriminate|reflexivity].
Qed.

Lemma extractor_texts_witness :
  Documents.text (extractor_after [Documents.Changes (Some Documents.builtin)])
  = Documents.MOCK_NCERT_TEXT
  /\ Quiz.isQuizReady
       (Documents.quiz_props (extractor_after [Documents.Changes (Some Documents.builtin)]))
     = true
  /\ Documents.loading
       (extractor_after [Documents.Changes (Some Documents.builtin);
                         Documents.Changes (Some notes_pdf)]) = true
  /\ Documents.text
       (extractor_after [Documents.Changes (Some Documents.builtin);
                         Documents.Changes (Some notes_pdf)]) = ""%string.
Proof.
  destruct (extractor_texts [Documents.Changes (Some Documents.builtin)])
    as (_ & _ & Hready).
  destruct (extractor_texts [Documents.Changes (Some Documents.builtin);
                             Documents.Changes (Some notes_pdf)])
    as (_ & Hpending & _).
  split; [reflexivity|]. split; [rewrite Hready; reflexivity|].
  apply Hpending. vm_compute. discriminate.
Defined.

Lemma stays_loading (more : list Documents.extractor_event) (e : Documents.Extractor) :
  Documents.loading e = true -> Documents.timer e = None ->
  List.Forall (fun ev => starts_extraction ev = false) more ->
  Documents.loading (Documents.extractor_run more e) = true
  /\ Documents.timer (Documents.extractor_run more e) = None.
Proof.
  intros Hl Ht Hmore. revert e Hl Ht.
  induction Hmore as [|ev more Hev _ IH]; intros e Hl Ht; [cbn; auto|].
  cbn. apply IH.
  - destruct ev as [[pdf|]|]; cbn in *; unfold Documents.pdfFile_changes, Documents.timer_fires.
    + apply negb_false_iff in Hev. rewrite Hev. exact Hl.
    + exact Hl.
    + rewrite Ht. exact Hl.
  - destruct ev as [[pdf|]|]; cbn in *; unfold Documents.pdfFile_changes, Documents.timer_fires.
    + apply negb_false_iff in Hev. rewrite Hev. reflexivity.
    + reflexivity.
    + rewrite Ht. exact Ht.
Qed.

(** X11.  When the built-in document is selected while the extraction
    of a loaded file is pending, the timer is cleared and the built-in
    text is set, but [loading] is not reset: it stays set, and the quiz
    stays not ready, however long one waits and however often the
    built-in document is selected, as long as no extraction is started.
    It is reset only by an extraction that is started afterwards, by a
    file that is loaded or by the loaded file of the list that is
    selected again, and that runs to its end. *)
Theorem interrupted_extraction_keeps_loading
        (events more : list Documents.extractor_event) (pdf : Documents.Pdf) :
  Documents.timer (extractor_after events) <> None ->
  Documents.url pdf = "mock-ncert-1"%string ->
  List.Forall (fun ev => starts_extraction ev = false) more ->
  let interrupted := events ++ Documents.Changes (Some pdf) :: more in
  Documents.text (extractor_after (events ++ [Documents.Changes (Some pdf)]))
  = Documents.MOCK_NCERT_TEXT
  /\ Documents.loading (extractor_after interrupted) = true
  /\ Documents.timer (extractor_after interrupted) = None
  /\ Quiz.isQuizReady (Documents.quiz_props (extractor_after interrupted)) = false
  /\ (forall other,
        Documents.url other <> "mock-ncert-1"%string ->
        Documents.loading
          (extractor_after (interrupted ++ [Documents.Changes (Some other)])) = true
        /\ extractor_after
             (interrupted ++ [Documents.Changes (Some other); Documents.Fires])
           = Documents.mkExtractor (Documents.extracted_text (Documents.name other))
                                   false None).
Proof.
  intros Hpending Hurl Hmore interrupted.
  destruct (extractor_keeps events) as [Htimer _].
  destruct (Htimer Hpending) as [Hl _].
  unfold extractor_after in *.
  set (e := Documents.extractor_run events Documents.idle) in *.
  assert (Documents.pdfFile_changes (Some pdf) e
          = Documents.mkExtractor Documents.MOCK_NCERT_TEXT true None) as Hchanged.
  { unfold Documents.pdfFile_changes. rewrite Hurl, Hl. reflexivity. }
  assert (forall tail,
             Documents.extractor_run (events ++ Documents.Changes (Some pdf) :: tail)
                                     Documents.idle
             = Documents.extractor_run tail
                 (Documents.mkExtractor Documents.MOCK_NCERT_TEXT true None)) as Hrun.
  { intros tail. rewrite extractor_run_app. fold e. rewrite <- Hchanged. reflexivity. }
  destruct (stays_loading more (Documents.mkExtractor Documents.MOCK_NCERT_TEXT true None)
              eq_refl eq_refl Hmore) as [Hstays Hnone].
  split; [rewrite Hrun; reflexivity|].
  subst interrupted. rewrite Hrun.
  split; [exact Hstays|]. split; [exact Hnone|]. split.
  - unfold Quiz.isQuizReady, Documents.quiz_props. cbn [Quiz.pdfText Quiz.pdfLoading].
    rewrite Hstays. reflexivity.
  - intros other Hother. apply String.eqb_neq in Hother.
    rewrite <- !List.app_assoc, <- !List.app_comm_cons, !Hrun, !extractor_run_app.
    cbn [Documents.extractor_run List.fold_left Documents.extractor_step].
    unfold Documents.pdfFile_changes. rewrite Hother. split; reflexivity.
Qed.

Lemma interrupted_extraction_keeps_loading_witness :
  Documents.text (extractor_after upload_then_builtin) = Documents.MOCK_NCERT_TEXT
  /\ Documents.loading
       (extractor_after (upload_then_builtin
                         ++ [Documents.Fires; Documents.Changes (Some Documents.builtin)]))
     = true
  /\ Quiz.isQuizReady
       (Documents.quiz_props
          (extractor_after (upload_then_builtin
                            ++ [Documents.Fires; Documents.Changes (Some Documents.builtin)])))
     = false
  /\ Documents.loading
       (extractor_after (upload_then_builtin
                         ++ [Documents.Fires; Documents.Changes (Some Documents.builtin);
                             Documents.Changes (Some notes_pdf); Documents.Fires]))
     = false.
Proof.
  destruct (interrupted_extraction_keeps_loading
              [Documents.Changes (Some Documents.builtin); Documents.Changes (Some notes_pdf)]
              [Documents.Fires; Documents.Changes (Some Documents.builtin)]
              Documents.builtin) as (Htext & Hloading & _ & Hready & Hagain).
  - vm_compute. discriminate.
  - reflexivity.
  - repeat constructor.
  - split; [exact Htext|]. split; [exact Hloading|]. split; [exact Hready|].
    destruct (Hagain notes_pdf) as [_ Hdone]; [discriminate|].
    change (Documents.loading
              (extractor_after
                 (([Documents.Changes (Some Documents.builtin);
                    Documents.Changes (Some notes_pdf)]
                   ++ Documents.Changes (Some Documents.builtin)
                      :: [Documents.Fires; Documents.Changes (Some Documents.builtin)])
                  ++ [Documents.Changes (Some notes_pdf); Documents.Fires])) = false).
    rewrite Hdone. reflexivity.
Defined.

Lemma upload_replaces (s : Documents.State) (fileName objectURL : string) :
  documents_kept s ->
  Documents.pdfs (Documents.handleFileUpload (Some (fileName, objectURL)) s)
  = [Documents.builtin; Documents.mkPdf fileName objectURL Documents.User].
Proof.
  intros [[Hpdfs|(n & u & Hpdfs)] _]; cbn; rewrite Hpdfs; reflexivity.
Qed.

Lemma step_documents_kept (s s' : Documents.State) :
  documents_kept s -> Documents.step s s' -> documents_kept s'.
Proof.
  intros Hkept Hstep. destruct Hstep as [s pdf Hin|s [[fileName objectURL]|]|s view].
  - destruct Hkept as [Hpdfs _]. split; [exact Hpdfs|exact Hin].
  - split.
    + right. exists fileName, objectURL. apply upload_replaces, Hkept.
    + rewrite (upload_replaces s fileName objectURL Hkept). right. left. reflexivity.
  - exact Hkept.
  - exact Hkept.
Qed.

(** X12.  Whatever is selected and loaded in the sidebar, the list of
    documents is the built-in document followed by at most one loaded
    file, and the selected document is in the list.  Loading a file
    drops the file loaded before, puts the new one last, selects it and
    leaves the open view as it is. *)
Theorem one_upload_kept (s : Documents.State) :
  Documents.reachable s ->
  documents_kept s
  /\ (uploads (Documents.pdfs s) <= 1)%nat
  /\ forall fileName objectURL,
       let s' := Documents.handleFileUpload (Some (fileName, objectURL)) s in
       Documents.pdfs s'
       = [Documents.builtin; Documents.mkPdf fileName objectURL Documents.User]
       /\ Documents.selectedPdf s' = Documents.mkPdf fileName objectURL Documents.User
       /\ Documents.activeView s' = Documents.activeView s.
Proof.
  intros Hreach.
  assert (documents_kept s) as Hkept.
  { induction Hreach as [|s s' _ IH Hstep].
    - split; [left; reflexivity|left; reflexivity].
    - eapply step_documents_kept; eauto. }
  split; [exact Hkept|]. split.
  - destruct Hkept as [[Hpdfs|(n & u & Hpdfs)] _]; rewrite Hpdfs; cbn; lia.
  - intros fileName objectURL s'. split; [apply upload_replaces, Hkept|].
    split; reflexivity.
Qed.

Lemma one_upload_kept_witness :
  Documents.pdfs two_uploads
  = [Documents.builtin; Documents.mkPdf "second.pdf" "blob:second" Documents.User]
  /\ Documents.selectedPdf two_uploads = Documents.builtin
  /\ (uploads (Documents.pdfs two_uploads) <= 1)%nat.
Proof.
  destruct (one_upload_kept two_uploads) as (_ & Hone & _).
  - unfold two_uploads.
    eapply Documents.reachable_step;
      [|apply (Documents.step_select _ Documents.builtin); left; reflexivity].
    eapply Documents.reachable_step;
      [|apply (Documents.step_upload _ (Some ("second.pdf", "blob:second")))].
    eapply Documents.reachable_step;
      [|apply (Documents.step_upload _ (Some ("notes.pdf", "blob:notes")))].
    apply Documents.reachable_initial.
  - split; [reflexivity|]. split; [reflexivity|exact Hone].
Defined.

(** ** Saving and listing the attempts *)

Lemma sort_newest (x : Progress.Entry) (l : list Progress.Entry) :
  (forall a, In a l ->
     (a_timestamp (Progress.e_attempt a) < a_timestamp (Progress.e_attempt x))%Z) ->
  JSArray.sort Progress.latest_first (l ++ [x])
  = x :: JSArray.sort Progress.latest_first l.
Proof.
  unfold JSArray.sort. rewrite List.fold_right_app. cbn [List.fold_right JSArray.insert].
  induction l as [|a l IH]; intros Hl; [reflexivity|].
  cbn [List.fold_right]. rewrite IH by (intros b Hb; apply Hl; right; exact Hb).
  cbn [JSArray.insert]. unfold Progress.latest_first at 1.
  assert ((0 <? a_timestamp (Progress.e_attempt x) - a_timestamp (Progress.e_attempt a))%Z
          = true) as ->; [|reflexivity].
  apply Z.ltb_lt. specialize (Hl a (or_introl eq_refl)). lia.
Qed.

(** X13.  [saveProgress] of [App] never throws and sends nothing to the
    generation API.  When there is a database and a user and the write
    is accepted, an attempt that is later than every stored one is, at
    the next snapshot, the first entry of the progress list, ahead of
    the entries there were, under the identifier of its document;
    otherwise the list is what it was. *)
Theorem saved_attempt_listed (docRefId : string) (attempt : Attempt)
        (docs : list Progress.StoredDoc) (l : Log) :
  (forall d, In d docs -> (a_timestamp (Progress.doc_data d) < a_timestamp attempt)%Z) ->
  forall ready accepted : bool,
  exists docs' l',
    Progress.saveProgress ready docRefId accepted attempt docs l = (Ok docs', l')
    /\ requests l' = requests l /\ alerts l' = alerts l /\ saved l' = saved l
    /\ Progress.useProgressData true docs'
       = if ready && accepted
         then Progress.mkEntry docRefId attempt :: Progress.useProgressData true docs
         else Progress.useProgressData true docs.
Proof.
  intros Hlater ready accepted. unfold Progress.saveProgress.
  destruct ready; cbn [negb andb]; [|exists docs, l; repeat split].
  destruct accepted; unfold bind, console_log, emit, ret; do 2 eexists;
    (split; [reflexivity|]); project_log; repeat split.
  unfold Progress.useProgressData, Progress.on_snapshot.
  rewrite List.map_app. cbn [List.map].
  apply (sort_newest (Progress.entry_of (Progress.mkStoredDoc docRefId attempt docRefId))).
  intros a Ha. apply List.in_map_iff in Ha. destruct Ha as (d & <- & Hd).
  apply Hlater, Hd.
Qed.

Lemma saved_attempt_listed_witness :
  exists docs' l',
    Progress.saveProgress true "c" true third_attempt two_attempts empty_log = (Ok docs', l')
    /\ List.map Progress.e_id (Progress.useProgressData true docs') = ["c"; "b"; "a"]%string.
Proof.
  destruct (saved_attempt_listed "c" third_attempt two_attempts empty_log)
    with (ready := true) (accepted := true) as (docs' & l' & Hrun & _ & _ & _ & Hlist).
  { intros d [<-|[<-|[]]]; cbn; lia. }
  exists docs', l'. split; [exact Hrun|]. rewrite Hlist. reflexivity.
Defined.

(** ** The dashboard *)

Lemma bump_keys (type : string) (acc : list (string * nat)) :
  List.map fst (Dashboard.bump type acc)
  = if existsb (String.eqb type) (List.map fst acc)
    then List.map fst acc else List.map fst acc ++ [type].
Proof.
  induction acc as [|[k n] acc IH]; [reflexivity|]. cbn.
  rewrite (String.eqb_sym type k).
  destruct (String.eqb k type); cbn; [reflexivity|].
  rewrite IH. destruct (existsb _ _); reflexivity.
Qed.

Lemma existsb_eqb (type : string) (keys : list string) :
  existsb (String.eqb type) keys = true <-> In type keys.
Proof.
  rewrite existsb_exists. split.
  - intros (k & Hk & Heq). apply String.eqb_eq in Heq. subst. exact Hk.
  - intros Hin. exists type. split; [exact Hin|apply String.eqb_refl].
Qed.

Lemma bump_nodup (type : string) (acc : list (string * nat)) :
  List.NoDup (List.map fst acc) -> List.NoDup (List.map fst (Dashboard.bump type acc)).
Proof.
  intros Hnd. rewrite bump_keys.
  destruct (existsb (String.eqb type) (List.map fst acc)) eqn:E; [exact Hnd|].
  apply List.NoDup_app; [exact Hnd|repeat constructor; intros []|].
  intros k Hk [<-|[]]. apply existsb_eqb in Hk. congruence.
Qed.

(** The entries of the counts after one more attempt of [type]. *)
Lemma in_bump (type : string) (acc : list (string * nat)) (k : string) (n : nat) :
  List.NoDup (List.map fst acc) ->
  In (k, n) (Dashboard.bump type acc)
  <-> (k <> type /\ In (k, n) acc)
      \/ (k = type
          /\ exists m, n = (m + 1)%nat
                       /\ (In (type, m) acc
                           \/ (m = 0%nat /\ ~ In type (List.map fst acc)))).
Proof.
  induction acc as [|[k0 n0] acc IH]; intros Hnd.
  - cbn. split.
    + intros [[= <- <-]|[]]. right. split; [reflexivity|]. exists 0%nat. auto.
    + intros [[_ []]|(-> & m & -> & [[]|[-> _]])]. left. reflexivity.
  - inversion Hnd as [|? ? Hfresh Hnd']; subst. cbn [Dashboard.bump].
    destruct (String.eqb_spec k0 type) as [->|Hne].
    + cbn [In List.map fst]. split.
      * intros [[= <- <-]|Hin].
        -- right. split; [reflexivity|]. exists n0. auto.
        -- left. split; [|auto]. intros ->. apply Hfresh.
           apply (List.in_map fst) in Hin. exact Hin.
      * intros [[Hk [[= -> _]|Hin]]|(-> & m & -> & [[[= ->]|Hin]|[_ Hnot]])].
        -- congruence.
        -- right. exact Hin.
        -- left. reflexivity.
        -- exfalso. apply Hfresh. apply (List.in_map fst) in Hin. exact Hin.
        -- exfalso. apply Hnot. left. reflexivity.
    + cbn [In List.map fst]. rewrite (IH Hnd'). split.
      * intros [[= <- <-]|[[Hk Hin]|(-> & m & -> & [Hin|[-> Hnot]])]].
        -- left. auto.
        -- left. auto.
        -- right. split; [reflexivity|]. exists m. auto.
        -- right. split; [reflexivity|]. exists 0%nat. split; [reflexivity|].
           right. split; [reflexivity|]. intros [Heq|Hin]; [congruence|auto].
      * intros [[Hk [[= <- <-]|Hin]]|(-> & m & -> & [[[= Heq _]|Hin]|[-> Hnot]])].
        -- left. reflexivity.
        -- right. left. auto.
        -- congruence.
        -- right. right. split; [reflexivity|]. exists m. auto.
        -- right. right. split; [reflexivity|]. exists 0%nat. split; [reflexivity|].
           right. split; [reflexivity|]. intros Hin. apply Hnot. right. exact Hin.
Qed.

Lemma quizTypeCounts_snoc (progressData : list Progress.Entry) (e : Progress.Entry) :
  Dashboard.quizTypeCounts (progressData ++ [e])
  = Dashboard.bump (type_of e) (Dashboard.quizTypeCounts progressData).
Proof. unfold Dashboard.quizTypeCounts. rewrite List.fold_left_app. reflexivity. Qed.

Lemma attempts_of_snoc (k : string) (progressData : list Progress.Entry) (e : Progress.Entry) :
  attempts_of k (progressData ++ [e])
  = (attempts_of k progressData + if String.eqb (type_of e) k then 1 else 0)%nat.
Proof.
  unfold attempts_of. rewrite List.filter_app, List.length_app. cbn [List.filter].
  unfold type_of. destruct (String.eqb _ k); reflexivity.
Qed.

Lemma quizTypeCounts_tallies (progressData : list Progress.Entry) :
  tallies progressData (Dashboard.quizTypeCounts progressData).
Proof.
  induction progressData as [|e progressData [Hnd IH]] using List.rev_ind.
  - split; [constructor|]. intros k n. cbn. split; [intros []|]. intros [-> H]. cbn in H. lia.
  - rewrite quizTypeCounts_snoc. split; [apply bump_nodup, Hnd|].
    intros k n. rewrite (in_bump _ _ _ _ Hnd), attempts_of_snoc. split.
    + intros [[Hk Hin]|(-> & m & -> & [Hin|[-> Hnot]])].
      * apply IH in Hin. destruct Hin as [-> Hpos].
        destruct (String.eqb_spec (type_of e) k) as [Heq|_]; [congruence|]. lia.
      * apply IH in Hin. destruct Hin as [-> _]. rewrite String.eqb_refl. lia.
      * rewrite String.eqb_refl.
        destruct (attempts_of (type_of e) progressData) as [|c] eqn:Hc; [lia|].
        exfalso. apply Hnot.
        apply (List.in_map fst _ (type_of e, S c)). apply IH. split; [congruence|lia].
    + intros [-> Hpos].
      destruct (String.eqb_spec (type_of e) k) as [Heq|Hne]; [subst k|].
      * right. split; [reflexivity|]. exists (attempts_of (type_of e) progressData).
        split; [reflexivity|].
        destruct (attempts_of (type_of e) progressData) as [|c] eqn:Hc.
        -- right. split; [reflexivity|]. intros Hin.
           apply List.in_map_iff in Hin. destruct Hin as ([k n] & Hk & Hin).
           cbn in Hk. subst k. apply IH in Hin. lia.
        -- left. apply IH. split; [congruence|lia].
      * left. split; [congruence|]. apply IH. split; [lia|lia].
Qed.

Lemma sort_head {A} (compare : A -> A -> Z) (key : A -> Z) (l : list A) :
  (forall a b, compare a b = (key b - key a)%Z) ->
  l <> [] ->
  exists x rest,
    JSArray.sort compare l = x :: rest
    /\ In x l /\ forall y, In y l -> (key y <= key x)%Z.
Proof.
  intros Hkey Hne.
  pose proof (sort_permutation compare l) as Hperm.
  pose proof (sort_sorted compare key Hkey l) as Hsorted.
  destruct (JSArray.sort compare l) as [|x rest].
  - apply Permutation_nil in Hperm. contradiction.
  - exists x, rest. split; [reflexivity|]. split.
    + apply (Permutation_in _ Hperm). left. reflexivity.
    + intros y Hy. apply (Permutation_in _ (Permutation_sym Hperm)) in Hy.
      destruct Hy as [<-|Hy]; [lia|].
      apply StronglySorted_inv in Hsorted. destruct Hsorted as [_ Hall].
      rewrite List.Forall_forall in Hall. apply Hall, Hy.
Qed.

Lemma attempts_of_occurs (k : string) (progressData : list Progress.Entry) :
  (1 <= attempts_of k progressData)%nat ->
  exists e, In e progressData /\ type_of e = k.
Proof.
  unfold attempts_of. intros Hpos.
  destruct (List.filter _ progressData) as [|e kept] eqn:Hf; [cbn in Hpos; lia|].
  assert (In e (List.filter (fun e => String.eqb (a_type (Progress.e_attempt e)) k)
                            progressData)) as Hin by (rewrite Hf; left; reflexivity).
  apply List.filter_In in Hin. destruct Hin as [Hin Heq].
  exists e. split; [exact Hin|]. apply String.eqb_eq. exact Heq.
Qed.

(** The first key of the counts sorted by a key, for attempts of the
    three quiz types. *)
Lemma first_key_sorted (compare : string * nat -> string * nat -> Z)
      (key : string * nat -> Z) (e0 : Progress.Entry) (rest : list Progress.Entry) :
  (forall a b, compare a b = (key b - key a)%Z) ->
  List.Forall (fun e => quiz_type_name (type_of e)) (e0 :: rest) ->
  exists k,
    Dashboard.first_key (JSArray.sort compare (Dashboard.quizTypeCounts (e0 :: rest))) = k
    /\ (1 <= attempts_of k (e0 :: rest))%nat
    /\ forall k', (1 <= attempts_of k' (e0 :: rest))%nat ->
                  (key (k', attempts_of k' (e0 :: rest))
                   <= key (k, attempts_of k (e0 :: rest)))%Z.
Proof.
  intros Hkey Htypes.
  destruct (quizTypeCounts_tallies (e0 :: rest)) as [_ Htally].
  assert (Dashboard.quizTypeCounts (e0 :: rest) <> []) as Hne.
  { intros Hnil.
    assert (In (type_of e0, attempts_of (type_of e0) (e0 :: rest))
               (Dashboard.quizTypeCounts (e0 :: rest))) as Hin.
    { apply Htally. split; [reflexivity|]. unfold attempts_of, type_of. cbn.
      rewrite String.eqb_refl. cbn. lia. }
    rewrite Hnil in Hin. destruct Hin. }
  destruct (sort_head compare key _ Hkey Hne) as ([k n] & others & Hsort & Hin & Hmax).
  apply Htally in Hin. destruct Hin as [-> Hpos].
  exists k. rewrite Hsort. cbn [Dashboard.first_key]. split; [|split; [exact Hpos|]].
  - destruct (attempts_of_occurs k _ Hpos) as (e & He & Heq).
    rewrite List.Forall_forall in Htypes.
    specialize (Htypes e He). cbn beta in Htypes. rewrite Heq in Htypes.
    destruct Htypes as [-> | [-> | ->]]; reflexivity.
  - intros k' Hpos'. apply Hmax. apply Htally. auto.
Qed.

(** X14.  On the dashboard, for attempts of the three quiz types: with
    no attempt both types read "N/A"; otherwise the most practised type
    is a type with the greatest number of attempts, and the least
    practised type is, among the types that were attempted at all, one
    with the smallest number. *)
Theorem practised_types (progressData : list Progress.Entry) :
  List.Forall (fun e => quiz_type_name (type_of e)) progressData ->
  let most := Dashboard.mostPracticedType progressData in
  let least := Dashboard.leastPracticedType progressData in
  match progressData with
  | [] => most = "N/A"%string /\ least = "N/A"%string
  | _ :: _ =>
      (1 <= attempts_of most progressData)%nat
      /\ (forall k, (attempts_of k progressData <= attempts_of most progressData)%nat)
      /\ (1 <= attempts_of least progressData)%nat
      /\ (forall k, (1 <= attempts_of k progressData)%nat ->
                    (attempts_of least progressData <= attempts_of k progressData)%nat)
  end.
Proof.
  intros Htypes most least. destruct progressData as [|e0 rest]; [split; reflexivity|].
  destruct (first_key_sorted
              (fun a b => (Z.of_nat (snd b) - Z.of_nat (snd a))%Z)
              (fun a => Z.of_nat (snd a)) e0 rest) as (k & Hk & Hpos & Hmax);
    [reflexivity|exact Htypes|].
  destruct (first_key_sorted
              (fun a b => (Z.of_nat (snd a) - Z.of_nat (snd b))%Z)
              (fun a => (- Z.of_nat (snd a))%Z) e0 rest) as (k2 & Hk2 & Hpos2 & Hmin);
    [intros a b; lia|exact Htypes|].
  fold (Dashboard.mostPracticedType (e0 :: rest)) in Hk.
  fold (Dashboard.leastPracticedType (e0 :: rest)) in Hk2.
  subst most least. rewrite Hk, Hk2.
  split; [exact Hpos|]. split.
  - intros k'. destruct (attempts_of k' (e0 :: rest)) as [|c] eqn:Hc; [lia|].
    specialize (Hmax k'). rewrite Hc in Hmax. cbn [snd] in Hmax. lia.
  - split; [exact Hpos2|]. intros k' Hk'. specialize (Hmin k' Hk'). cbn [snd] in Hmin. lia.
Qed.

Lemma practised_types_witness :
  Dashboard.mostPracticedType three_entries = "mcq"%string
  /\ Dashboard.leastPracticedType three_entries = "saq"%string
  /\ (forall k, (attempts_of k three_entries
                 <= attempts_of (Dashboard.mostPracticedType three_entries) three_entries)%nat).
Proof.
  assert (List.Forall (fun e => quiz_type_name (type_of e)) three_entries) as Htypes.
  { apply List.Forall_forall.
    intros e [<-|[<-|[<-|[]]]]; unfold quiz_type_name; cbn; auto. }
  destruct (practised_types three_entries Htypes) as (_ & Hmax & _).
  split; [reflexivity|]. split; [reflexivity|exact Hmax].
Defined.

Lemma fold_left_sum {A} (f : A -> nat) (l : list A) (start : nat) :
  List.fold_left (fun sum x => (sum + f x)%nat) l start
  = (start + list_sum (List.map f l))%nat.
Proof.
  revert start. induction l as [|x l IH]; intros start; cbn; [lia|].
  rewrite IH. unfold list_sum. lia.
Qed.

Lemma list_sum_permutation (l l' : list nat) :
  Permutation l l' -> list_sum l = list_sum l'.
Proof. induction 1; unfold list_sum in *; cbn in *; lia. Qed.

(** X15.  The totals of the dashboard count each stored attempt once,
    whatever the order of the snapshot: the number of attempts, the sum
    of their totals and the sum of their scores.  When no stored score
    exceeds its total, the number of correct answers does not exceed the
    number of questions. *)
Theorem dashboard_totals (docs : list Progress.StoredDoc) :
  let progressData := Progress.useProgressData true docs in
  Dashboard.totalAttempts progressData = length docs
  /\ Dashboard.totalQuestions progressData
     = list_sum (List.map (fun d => a_total (Progress.doc_data d)) docs)
  /\ Dashboard.totalCorrect progressData
     = list_sum (List.map (fun d => a_score (Progress.doc_data d)) docs)
  /\ (List.Forall (fun d => (a_score (Progress.doc_data d)
                             <= a_total (Progress.doc_data d))%nat) docs ->
      (Dashboard.totalCorrect progressData <= Dashboard.totalQuestions progressData)%nat).
Proof.
  intros progressData.
  assert (Permutation progressData (List.map Progress.entry_of docs)) as Hperm.
  { apply sort_permutation. }
  assert (Dashboard.totalQuestions progressData
          = list_sum (List.map (fun d => a_total (Progress.doc_data d)) docs)) as Hq.
  { unfold Dashboard.totalQuestions. rewrite fold_left_sum. cbn.
    rewrite (list_sum_permutation _ _ (Permutation_map _ Hperm)).
    rewrite List.map_map. reflexivity. }
  assert (Dashboard.totalCorrect progressData
          = list_sum (List.map (fun d => a_score (Progress.doc_data d)) docs)) as Hc.
  { unfold Dashboard.totalCorrect. rewrite fold_left_sum. cbn.
    rewrite (list_sum_permutation _ _ (Permutation_map _ Hperm)).
    rewrite List.map_map. reflexivity. }
  split; [|split; [exact Hq|split; [exact Hc|]]].
  - unfold Dashboard.totalAttempts. rewrite (Permutation_length Hperm).
    apply List.length_map.
  - intros Hbound. rewrite Hq, Hc. clear - Hbound.
    induction Hbound as [|d docs Hd _ IH]; unfold list_sum in *; cbn in *; lia.
Qed.

Lemma dashboard_totals_witness :
  Dashboard.totalAttempts (Progress.useProgressData true two_attempts) = 2%nat
  /\ (Dashboard.totalCorrect (Progress.useProgressData true two_attempts)
      <= Dashboard.totalQuestions (Progress.useProgressData true two_attempts))%nat.
Proof.
  destruct (dashboard_totals two_attempts) as (Hn & _ & _ & Hbound).
  split; [exact Hn|]. apply Hbound.
  apply List.Forall_forall. intros d [<-|[<-|[]]]; cbn; lia.
Defined.

(** ** The topic of the recommendations *)

Lemma topic_after_newline (rest : string) :
  Dashboard.topic (String "010" rest) = "General Physics Revision"%string.
Proof. reflexivity. Qed.

Lemma youtube_request (P : Platform) (topic : string) (l : Log) :
  exists videos l',
    Recommender.fetchYoutubeRecommendations P topic l = (Ok videos, l')
    /\ requests l' = requests l ++ [Recommender.youtube_payload topic]
    /\ timers l' = timers l /\ alerts l' = alerts l.
Proof.
  unfold Recommender.fetchYoutubeRecommendations, try_catch, bind, fetch, lift.
  destruct (network P (length (requests l))) as [|status body]; cbn.
  - unfold console_log, emit, ret. do 2 eexists. split; [reflexivity|].
    project_log. repeat split.
  - destruct (Recommender.youtube_result_of P status body).
    + do 2 eexists. split; [reflexivity|]. project_log. repeat split.
    + unfold console_log, emit, ret. do 2 eexists. split; [reflexivity|].
      project_log. repeat split.
Qed.

(** X16.  Every text that [usePdfTextExtractor] returns is empty or
    begins with a line break, so that its first line is empty and the
    topic of the dashboard is always 'General Physics Revision': with an
    empty text no recommendation is asked for, and otherwise one request
    is sent, about that topic, whatever document is selected. *)
Theorem recommendations_topic (P : Platform) (events : list Documents.extractor_event)
        (l : Log) :
  let pdfText := Documents.text (extractor_after events) in
  Dashboard.topic pdfText = "General Physics Revision"%string
  /\ exists videos l',
       Dashboard.recommendations P pdfText l = (Ok videos, l')
       /\ timers l' = timers l /\ alerts l' = alerts l
       /\ requests l'
          = requests l
            ++ if String.eqb pdfText ""
               then []
               else [Recommender.youtube_payload "General Physics Revision"].
Proof.
  intros pdfText.
  assert (Dashboard.topic pdfText = "General Physics Revision"%string) as Htopic.
  { destruct (extractor_keeps events) as [_ [H|[H|[fileName H]]]];
      fold pdfText in H; rewrite H; reflexivity. }
  split; [exact Htopic|].
  unfold Dashboard.recommendations. rewrite Htopic.
  destruct (String.eqb pdfText "").
  - exists [], l. cbn. rewrite app_nil_r. repeat split.
  - destruct (youtube_request P "General Physics Revision" l)
      as (videos & l' & Hrun & Hreq & Ht & Ha).
    exists videos, l'. repeat split; assumption.
Qed.

Lemma made_from_refl (s : string) : made_from s s.
Proof. split; auto. Qed.

Lemma made_from_trans (s t u : string) : made_from s t -> made_from t u -> made_from s u.
Proof. intros [Hl Hc] [Hl' Hc']. split; [lia|auto]. Qed.

Lemma made_from_empty (s : string) : made_from "" s.
Proof. split; [cbn; lia|intros c []]. Qed.

Lemma made_from_cons (c : ascii) (s t : string) :
  made_from s t -> made_from (String c s) (String c t).
Proof.
  intros [Hl Hc]. split; [cbn; lia|]. cbn. intros d [->|Hd]; auto.
Qed.

Lemma made_from_skip (c : ascii) (s t : string) : made_from s t -> made_from s (String c t).
Proof. intros [Hl Hc]. split; [cbn; lia|]. cbn. auto. Qed.

Lemma trimStart_made_from (s : string) : made_from (trimStart s) s.
Proof.
  induction s as [|c s IH]; [apply made_from_refl|]. cbn [trimStart].
  destruct (is_whitespace c); [apply made_from_skip, IH|apply made_from_refl].
Qed.

Lemma trimEnd_made_from (s : string) : made_from (trimEnd s) s.
Proof.
  induction s as [|c s IH]; [apply made_from_refl|]. cbn [trimEnd].
  destruct (trimEnd s) as [|d t].
  - destruct (is_whitespace c); [apply made_from_empty|].
    apply made_from_cons, made_from_empty.
  - apply made_from_cons, IH.
Qed.

Lemma drop_made_from (n : nat) (s : string) : made_from (Dashboard.drop n s) s.
Proof.
  revert n. induction s as [|c s IH]; intros [|n]; cbn; try apply made_from_refl.
  apply made_from_skip, IH.
Qed.

Lemma remove_first_made_from (pat s : string) : made_from (Dashboard.remove_first pat s) s.
Proof.
  induction s as [|c s IH]; cbn [Dashboard.remove_first].
  - destruct (String.prefix pat ""); [apply drop_made_from|apply made_from_refl].
  - destruct (String.prefix pat (String c s)); [apply drop_made_from|].
    apply made_from_cons, IH.
Qed.

Lemma first_line_made_from (s : string) :
  made_from (Dashboard.first_line s) s
  /\ forall c, In c (list_ascii_of_string (Dashboard.first_line s)) -> nat_of_ascii c <> 10%nat.
Proof.
  induction s as [|c s [IH Hno]]; cbn [Dashboard.first_line].
  - split; [apply made_from_refl|intros c []].
  - destruct (Nat.eqb_spec (nat_of_ascii c) 10) as [Heq|Hne].
    + split; [apply made_from_empty|intros d []].
    + split; [apply made_from_cons, IH|]. cbn. intros d [<-|Hd]; auto.
Qed.

Lemma substring0_length (n : nat) (s : string) : (String.length (substring0 n s) <= n)%nat.
Proof.
  unfold substring0. revert n. induction s as [|c s IH]; intros [|n]; cbn; try lia.
  specialize (IH n). lia.
Qed.

(** X17.  The topic that the dashboard hands to the recommender is never
    empty, never longer than 100 characters and never holds a line feed,
    the character of code 10 on which the text is split (a carriage
    return inside the line is kept); it is made of characters of the
    part of the first 100 characters that comes before the first line
    feed, or it is 'General Physics Revision'. *)
Theorem topic_within_first_line (pdfText : string) :
  Dashboard.topic pdfText <> ""%string
  /\ (String.length (Dashboard.topic pdfText) <= 100)%nat
  /\ (forall c, In c (list_ascii_of_string (Dashboard.topic pdfText)) ->
                nat_of_ascii c <> 10%nat)
  /\ (Dashboard.topic pdfText = "General Physics Revision"%string
      \/ made_from (Dashboard.topic pdfText)
                   (Dashboard.first_line (substring0 100 pdfText))).
Proof.
  unfold Dashboard.topic.
  set (line := Dashboard.first_line (substring0 100 pdfText)).
  set (t := trim (Dashboard.remove_first "Chapter 1:" line)).
  assert (made_from t line) as Hmade.
  { unfold t, trim.
    eapply made_from_trans; [apply trimEnd_made_from|].
    eapply made_from_trans; [apply trimStart_made_from|apply remove_first_made_from]. }
  destruct (first_line_made_from (substring0 100 pdfText)) as [[Hlen _] Hno].
  fold line in Hlen, Hno.
  pose proof (substring0_length 100 pdfText) as Hsub.
  destruct (String.eqb_spec t "") as [Heq|Hne].
  - split; [discriminate|]. split; [cbn; lia|]. split; [|left; reflexivity].
    intros c Hc.
    assert (forallb (fun c => negb (nat_of_ascii c =? 10)%nat)
                    (list_ascii_of_string "General Physics Revision") = true) as Hall
      by reflexivity.
    rewrite forallb_forall in Hall. specialize (Hall c Hc).
    apply negb_true_iff, Nat.eqb_neq in Hall. exact Hall.
  - split; [exact Hne|]. destruct Hmade as [Hl Hc].
    split; [lia|]. split; [|right; split; assumption].
    intros c Hin. apply Hno, Hc, Hin.
Qed.

Lemma topic_within_first_line_witness :
  Dashboard.topic chapter_text = "Physical World"%string
  /\ nat_of_ascii "P" <> 10%nat
  /\ (String.length (Dashboard.topic chapter_text) <= 100)%nat.
Proof.
  destruct (topic_within_first_line chapter_text) as (_ & Hlen & Hline & _).
  split; [reflexivity|]. split; [|exact Hlen].
  apply Hline. vm_compute. left. reflexivity.
Defined.
